(** * datacls: a shallow embedding of [datacls.py]

    The module under study decorates a class that only declares annotated
    fields and installs a generated [__init__], [__repr__], [__eq__], a
    [fields] property and, on request, a [__setattr__] that always raises.

    The embedding keeps the shapes of the Python program:
    - Python objects are values of [pyobj]; a [dict] is an insertion-ordered
      association list with replace-in-place update;
    - classes are mutable objects, so they live in a store ([heap]) and the
      functions that call [setattr(cls, ...)] run in a state-and-exception
      monad over that store;
    - the text that [_create_fn] hands to [exec] is built as a string, exactly
      as in the source, and is given meaning by [py_exec], a reader for the
      fragment of Python that this text can be in. *)

From Stdlib Require Import ZArith String Ascii List Lia Bool.
From Stdlib Require Import DecimalString DecimalZ Permutation.
From stdpp Require Import base gmap strings list.

Open Scope string_scope.
Open Scope list_scope.

(** String concatenation unfolds on a known first argument. *)
Arguments String.append : simpl nomatch.

(** ** Characters and strings *)

(** ['\n'], ['\t'] and the double quote of the generated source text. *)
Definition NL : string := String (ascii_of_nat 10) EmptyString.
Definition TAB : string := String (ascii_of_nat 9) EmptyString.
Definition DQ : string := String (ascii_of_nat 34) EmptyString.

(** [sep.join(l)] *)
Fixpoint join (sep : string) (l : list string) : string :=
  match l with
  | [] => ""
  | [x] => x
  | x :: l' => x +:+ sep +:+ join sep l'
  end.

(** ** Python objects *)

(** A value that a default expression of the modelled fragment evaluates to. *)
Inductive literal : Type :=
| LNone
| LBool (b : bool)
| LInt (z : Z).

(** A statement of a generated function body:
    [object.__setattr__(self, "attr", var)] and [self.__post_init__()]. *)
Inductive stmt : Type :=
| SObjectSetattr (attr var : string)
| SPostInit.

(** Function objects: the three module-level functions that the decorator
    installs, a function compiled by [exec] (its name, its parameters after
    [self] with their evaluated defaults, its body), and a function written by
    the user in the class body, known by its name. *)
Inductive funcobj : Type :=
| F_repr
| F_eq
| F_setattr
| FCompiled (name : string) (params : list (string * option literal)) (body : list stmt)
| FUser (name : string).

#[warnings="-register-all"]
Inductive pyobj : Type :=
| ONone
| OBool (b : bool)
| OInt (z : Z)
| OStr (s : string)
| OType (name : string)
| ODict (d : list (string * pyobj))
| OProperty (attr_name : string)
| OFunc (f : funcobj).

(** A [dict] with [str] keys, in insertion order. *)
Abbreviation pydict := (list (string * pyobj)).

Definition obj_of_literal (l : literal) : pyobj :=
  match l with
  | LNone => ONone
  | LBool b => OBool b
  | LInt z => OInt z
  end.

(** ** Exceptions *)

(** [Unmodelled] is not a Python exception: it marks a run that leaves the
    fragment of Python this development gives a meaning to, and says nothing
    of what Python does there. *)
Inductive exn : Type :=
| AttributeError
| TypeError
| KeyError
| SyntaxError
| FrozenError
| RecursionError
| Unmodelled.

Inductive result (A : Type) : Type :=
| Ok (a : A)
| Raise (e : exn).
Arguments Ok {A} a.
Arguments Raise {A} e.

Definition rbind {A B} (m : result A) (k : A -> result B) : result B :=
  match m with
  | Ok a => k a
  | Raise e => Raise e
  end.

Declare Scope res_scope.
Delimit Scope res_scope with res.
Notation "x <- m ;; k" := (rbind m (fun x => k))
  (at level 20, m at level 99, k at level 200, only parsing) : res_scope.

(** [for x in l: ...] over a body that may raise, threading an accumulator. *)
Fixpoint rfold {A B} (f : B -> A -> result B) (l : list A) (acc : B) : result B :=
  match l with
  | [] => Ok acc
  | x :: l' => (acc' <- f acc x ;; rfold f l' acc')%res
  end.

Fixpoint rmap {A B} (f : A -> result B) (l : list A) : result (list B) :=
  match l with
  | [] => Ok []
  | x :: l' => (y <- f x ;; ys <- rmap f l' ;; Ok (y :: ys))%res
  end.

(** ** Dictionaries *)

Fixpoint dict_get (k : string) (d : pydict) : option pyobj :=
  match d with
  | [] => None
  | (k', v) :: d' => if String.eqb k k' then Some v else dict_get k d'
  end.

(** [d[k] = v]: an existing key keeps its position, a new key goes last. *)
Fixpoint dict_set (k : string) (v : pyobj) (d : pydict) : pydict :=
  match d with
  | [] => [(k, v)]
  | (k', v') :: d' =>
      if String.eqb k k' then (k, v) :: d' else (k', v') :: dict_set k v d'
  end.

Definition dict_keys (d : pydict) : list string := map fst d.

(** ** Text and equality of objects *)

(** [str(int)] *)
Definition str_of_Z (z : Z) : string := NilZero.string_of_int (Z.to_int z).

(** [repr] of a [str]. A string of the model is a sequence of code points
    below 256. The text is between single quotes, or between double quotes
    when the string has a single quote and no double quote; the backslash,
    the enclosing quote, and the code points that are not printable (below
    32, from 127 to 160, and 173) are escaped. *)
Definition BACKSLASH : ascii := ascii_of_nat 92.
Definition SQUOTE : ascii := ascii_of_nat 39.
Definition DQUOTE : ascii := ascii_of_nat 34.

Fixpoint has_char (c : ascii) (s : string) : bool :=
  match s with
  | EmptyString => false
  | String c' s' => Ascii.eqb c c' || has_char c s'
  end.

Definition hex_digit (n : nat) : ascii :=
  nth n ["0"; "1"; "2"; "3"; "4"; "5"; "6"; "7"; "8"; "9"; "a"; "b"; "c"; "d"; "e"; "f"]%char
      "0"%char.

Definition escape_char (quote c : ascii) : string :=
  let n := nat_of_ascii c in
  if Ascii.eqb c BACKSLASH then String BACKSLASH (String BACKSLASH EmptyString)
  else if Ascii.eqb c quote then String BACKSLASH (String c EmptyString)
  else if (n =? 9)%nat then String BACKSLASH "t"
  else if (n =? 10)%nat then String BACKSLASH "n"
  else if (n =? 13)%nat then String BACKSLASH "r"
  else if (n <? 32)%nat || ((127 <=? n)%nat && (n <=? 160)%nat) || (n =? 173)%nat
       then String BACKSLASH
              (String "x" (String (hex_digit (n / 16)) (String (hex_digit (n mod 16)) EmptyString)))
  else String c EmptyString.

Fixpoint escape (quote : ascii) (s : string) : string :=
  match s with
  | EmptyString => EmptyString
  | String c s' => escape_char quote c +:+ escape quote s'
  end.

Definition str_repr (s : string) : string :=
  let quote := if has_char SQUOTE s && negb (has_char DQUOTE s) then DQUOTE else SQUOTE in
  String quote (escape quote s +:+ String quote EmptyString).

(** The address in the text of a function or a property. It is not a
    function of the object and varies from run to run; [ADDRESS] stands for
    it. The statements that give the text of a value are about values whose
    text has no address ([stable_text] below). *)
Definition ADDRESS : string := "0x7f0000000000".

(** [repr(x)]. The digits of an int are written without the limit an
    interpreter may put on their number. *)
Fixpoint py_repr (o : pyobj) : string :=
  match o with
  | ONone => "None"
  | OBool b => if b then "True" else "False"
  | OInt z => str_of_Z z
  | OStr s => str_repr s
  | OType n => "<class '" +:+ n +:+ "'>"
  | ODict d =>
      "{" +:+ join ", " ((fix items (l : list (string * pyobj)) : list string :=
                            match l with
                            | [] => []
                            | (k, v) :: l' => (str_repr k +:+ ": " +:+ py_repr v) :: items l'
                            end) d) +:+ "}"
  | OProperty _ => "<property object at " +:+ ADDRESS +:+ ">"
  | OFunc F_repr => "<function _repr at " +:+ ADDRESS +:+ ">"
  | OFunc F_eq => "<function _eq at " +:+ ADDRESS +:+ ">"
  | OFunc F_setattr => "<function _setattr at " +:+ ADDRESS +:+ ">"
  | OFunc (FCompiled n _ _) => "<function " +:+ n +:+ " at " +:+ ADDRESS +:+ ">"
  | OFunc (FUser n) => "<function " +:+ n +:+ " at " +:+ ADDRESS +:+ ">"
  end.

(** [str(x)], which is what [template.format(..., x)] inserts. *)

Definition py_str (o : pyobj) : string :=
  match o with
  | OStr s => s
  | _ => py_repr o
  end.

Definition literal_eqb (a b : literal) : bool :=
  match a, b with
  | LNone, LNone => true
  | LBool x, LBool y => Bool.eqb x y
  | LInt x, LInt y => Z.eqb x y
  | _, _ => false
  end.

Definition stmt_eqb (a b : stmt) : bool :=
  match a, b with
  | SObjectSetattr x y, SObjectSetattr x' y' => String.eqb x x' && String.eqb y y'
  | SPostInit, SPostInit => true
  | _, _ => false
  end.

(** Functions compare by identity in Python; two function objects of the
    model are the same object when they are the same term. *)
Definition funcobj_eqb (f g : funcobj) : bool :=
  match f, g with
  | F_repr, F_repr | F_eq, F_eq | F_setattr, F_setattr => true
  | FCompiled n ps b, FCompiled n' ps' b' =>
      String.eqb n n'
      && (length ps =? length ps')%nat
      && forallb (fun pq => String.eqb (fst (fst pq)) (fst (snd pq))
                            && match snd (fst pq), snd (snd pq) with
                               | None, None => true
                               | Some x, Some y => literal_eqb x y
                               | _, _ => false
                               end) (combine ps ps')
      && (length b =? length b')%nat
      && forallb (fun st => stmt_eqb (fst st) (snd st)) (combine b b')
  | FUser n, FUser n' => String.eqb n n'
  | _, _ => false
  end.

(** [a == b]. [bool] is a subclass of [int], so [True == 1]. Two dicts are
    equal when they have the same number of keys and every key of the first
    is in the second with an equal value: the order of the keys plays no
    part. *)
Fixpoint py_eq (a b : pyobj) : bool :=
  match a, b with
  | ONone, ONone => true
  | OBool x, OBool y => Bool.eqb x y
  | OBool x, OInt y => Z.eqb (Z.b2z x) y
  | OInt x, OBool y => Z.eqb x (Z.b2z y)
  | OInt x, OInt y => Z.eqb x y
  | OStr x, OStr y => String.eqb x y
  | OType x, OType y => String.eqb x y
  | ODict d, ODict d' =>
      (length d =? length d')%nat
      && (fix all (l : list (string * pyobj)) : bool :=
            match l with
            | [] => true
            | (k, v) :: l' =>
                match dict_get k d' with
                | Some v' => py_eq v v'
                | None => false
                end && all l'
            end) d
  | OProperty x, OProperty y => String.eqb x y
  | OFunc f, OFunc g => funcobj_eqb f g
  | _, _ => false
  end.

(** [dict.__eq__] on two dicts. *)
Definition dict_eqb (d d' : pydict) : bool := py_eq (ODict d) (ODict d').

(** [bool(x)], as [if x:] computes it. *)
Definition truthy (o : pyobj) : bool :=
  match o with
  | ONone => false
  | OBool b => b
  | OInt z => negb (Z.eqb z 0)
  | OStr s => negb (String.eqb s "")
  | ODict d => match d with [] => false | _ => true end
  | _ => true
  end.

(** [x[key]] with a [str] key. What a class answers depends on the class
    ([list['k']] is an alias, [int['k']] a [TypeError]). *)
Definition subscript (x : pyobj) (key : string) : result pyobj :=
  match x with
  | ODict d => match dict_get key d with Some v => Ok v | None => Raise KeyError end
  | OType _ => Raise Unmodelled
  | _ => Raise TypeError
  end.

(** [x.items()] *)
Definition py_items (x : pyobj) : result pydict :=
  match x with
  | ODict d => Ok d
  | OType _ => Raise Unmodelled
  | _ => Raise AttributeError
  end.

(** The characters of a string, each as a string of length one. *)
Fixpoint chars (s : string) : list string :=
  match s with
  | EmptyString => []
  | String c s' => String c EmptyString :: chars s'
  end.

(** [for x in o]: a dict yields its keys, a string its characters; whether
    a class is iterable depends on the class; the other objects of the model
    are not iterable. *)
Definition py_iter (o : pyobj) : result (list string) :=
  match o with
  | ODict d => Ok (dict_keys d)
  | OStr s => Ok (chars s)
  | OType _ => Raise Unmodelled
  | _ => Raise TypeError
  end.

(** ** Reading the generated source text

    [_create_fn] passes a text to [exec]. The texts this module builds are a
    one-line [def] header followed by tab-indented statements of two kinds.
    [py_exec] reads exactly that fragment of Python and answers as the
    interpreter does on it: a function object, or [SyntaxError] where every
    Python program of that shape is refused. Any other text is [Unmodelled]. *)

Definition in_range (lo hi : nat) (c : ascii) : bool :=
  Nat.leb lo (nat_of_ascii c) && Nat.leb (nat_of_ascii c) hi.

Definition is_ident_start (c : ascii) : bool :=
  in_range 65 90 c || in_range 97 122 c || Ascii.eqb c "_"%char.

Definition is_ident_char (c : ascii) : bool :=
  is_ident_start c || in_range 48 57 c.

Fixpoint all_chars (p : ascii -> bool) (s : string) : bool :=
  match s with
  | EmptyString => true
  | String c s' => p c && all_chars p s'
  end.

Definition is_identifier (s : string) : bool :=
  match s with
  | EmptyString => false
  | String c s' => is_ident_start c && all_chars is_ident_char s'
  end.

(** The keywords, and [__debug__], which no parameter can be named. *)
Definition keywords : list string :=
  [ "False"; "None"; "True"; "and"; "as"; "assert"; "async"; "await"; "break";
    "class"; "continue"; "def"; "del"; "elif"; "else"; "except"; "finally";
    "for"; "from"; "global"; "if"; "import"; "in"; "is"; "lambda"; "nonlocal";
    "not"; "or"; "pass"; "raise"; "return"; "try"; "while"; "with"; "yield";
    "__debug__" ].

Definition is_keyword (s : string) : bool := existsb (String.eqb s) keywords.

(** A name that can stand as a parameter of the generated function and keep
    the meaning of its body: an identifier, not a keyword, and not [object],
    which the body looks up as the built-in class. *)
Definition plain_name (s : string) : bool :=
  is_identifier s && negb (is_keyword s) && negb (String.eqb s "object").

(** The longest prefix whose characters satisfy [p], and the rest. *)
Fixpoint span (p : ascii -> bool) (s : string) : string * string :=
  match s with
  | EmptyString => (EmptyString, EmptyString)
  | String c s' =>
      if p c then let (a, b) := span p s' in (String c a, b)
      else (EmptyString, s)
  end.

Fixpoint skip_spaces (s : string) : string :=
  match s with
  | String c s' => if Ascii.eqb c " "%char then skip_spaces s' else s
  | EmptyString => EmptyString
  end.

Fixpoint strip_prefix (p s : string) : option string :=
  match p with
  | EmptyString => Some s
  | String c p' =>
      match s with
      | String c' s' => if Ascii.eqb c c' then strip_prefix p' s' else None
      | EmptyString => None
      end
  end.

(** The text before the first [c] and, when there is a [c], the text after. *)
Fixpoint break_at (c : ascii) (s : string) : string * option string :=
  match s with
  | EmptyString => (EmptyString, None)
  | String x s' =>
      if Ascii.eqb x c then (EmptyString, Some s')
      else let (a, b) := break_at c s' in (String x a, b)
  end.

(** [s.split(c)] *)
Fixpoint split_char (c : ascii) (s : string) : list string :=
  match s with
  | EmptyString => [EmptyString]
  | String x s' =>
      if Ascii.eqb x c then EmptyString :: split_char c s'
      else match split_char c s' with
           | h :: t => String x h :: t
           | [] => [String x EmptyString]
           end
  end.

(** A decimal integer literal in the form [str] prints it. *)
Definition parse_int (t : string) : option Z :=
  match NilZero.int_of_string t with
  | Some d => if String.eqb (str_of_Z (Z.of_int d)) t then Some (Z.of_int d) else None
  | None => None
  end.

(** The value of a default expression, evaluated when the [def] runs. No
    expression starts with [<]. *)
Definition eval_default (t : string) : result literal :=
  if String.eqb t "None" then Ok LNone
  else if String.eqb t "True" then Ok (LBool true)
  else if String.eqb t "False" then Ok (LBool false)
  else match parse_int t with
       | Some z => Ok (LInt z)
       | None =>
           match t with
           | String c _ => if Ascii.eqb c "<"%char then Raise SyntaxError else Raise Unmodelled
           | EmptyString => Raise Unmodelled
           end
       end.

(** One parameter: [name] or [name = default]. *)
Definition parse_param (piece : string) : result (string * option literal) :=
  let (name, r) := span is_ident_char (skip_spaces piece) in
  let rest := skip_spaces r in
  if negb (String.eqb name "self" || plain_name name) then Raise Unmodelled
  else match rest with
       | EmptyString => Ok (name, None)
       | String c t =>
           if Ascii.eqb c "="%char
           then (v <- eval_default (skip_spaces t) ;; Ok (name, Some v))%res
           else Raise Unmodelled
       end.

(** A parameter list may end with a comma. *)
Fixpoint drop_trailing_blank (l : list string) : list string :=
  match l with
  | [] => []
  | [x] => if String.eqb (skip_spaces x) "" then [] else [x]
  | x :: l' => x :: drop_trailing_blank l'
  end.

Fixpoint no_dup_names (l : list string) : bool :=
  match l with
  | [] => true
  | x :: l' => negb (existsb (String.eqb x) l') && no_dup_names l'
  end.

Definition has_default (p : string * option literal) : bool :=
  match snd p with Some _ => true | None => false end.

(** Python refuses a parameter without default after one with a default. *)
Fixpoint defaults_last (ps : list (string * option literal)) : bool :=
  match ps with
  | [] => true
  | p :: ps' => if has_default p then forallb has_default ps' else defaults_last ps'
  end.

(** The header line [def name (self, p1, ..., pn):]. *)
Definition parse_header (h : string) : result (string * list (string * option literal)) :=
  match strip_prefix "def " h with
  | None => Raise Unmodelled
  | Some s1 =>
      let (fname, r) := span is_ident_char (skip_spaces s1) in
      match skip_spaces r with
      | String c s2 =>
          if negb (Ascii.eqb c "("%char && plain_name fname) then Raise Unmodelled
          else match break_at ")"%char s2 with
               | (inner, Some ":") =>
                   match split_char ","%char inner with
                   | first :: pieces =>
                       if negb (String.eqb (skip_spaces first) "self") then Raise Unmodelled
                       else
                         (ps <- rmap parse_param (drop_trailing_blank pieces) ;;
                          if negb (no_dup_names ("self" :: map fst ps)) then Raise SyntaxError
                          else if negb (defaults_last ps) then Raise SyntaxError
                          else Ok (fname, ps))%res
                   | [] => Raise Unmodelled
                   end
               | _ => Raise Unmodelled
               end
      | EmptyString => Raise Unmodelled
      end
  end.

(** One line of the body; a blank line holds no statement. *)
Definition parse_stmt (line : string) : result (option stmt) :=
  if String.eqb line "" then Ok None
  else match strip_prefix TAB line with
       | None => Raise Unmodelled
       | Some t =>
           if String.eqb t "self.__post_init__()" then Ok (Some SPostInit)
           else match strip_prefix ("object.__setattr__(self, " +:+ DQ) t with
                | None => Raise Unmodelled
                | Some t1 =>
                    match break_at (ascii_of_nat 34) t1 with
                    | (attr, Some t2) =>
                        match strip_prefix ", " t2 with
                        | Some t3 =>
                            let (var, t4) := span is_ident_char t3 in
                            if all_chars is_ident_char attr && plain_name var
                               && String.eqb t4 ")"
                            then Ok (Some (SObjectSetattr attr var))
                            else Raise Unmodelled
                        | None => Raise Unmodelled
                        end
                    | _ => Raise Unmodelled
                    end
                end
       end.

Fixpoint keep_some {A} (l : list (option A)) : list A :=
  match l with
  | [] => []
  | Some x :: l' => x :: keep_some l'
  | None :: l' => keep_some l'
  end.

Definition parse_body (text : string) : result (list stmt) :=
  (ls <- rmap parse_stmt (split_char (ascii_of_nat 10) text) ;; Ok (keep_some ls))%res.

(** The variable a statement reads, if any. *)
Definition stmt_reads (ps : list (string * option literal)) (s : stmt) : bool :=
  match s with
  | SObjectSetattr _ var => existsb (String.eqb var) (map fst ps)
  | SPostInit => true
  end.

(** [exec(src, globals, locals)] for a text that is one function definition:
    the local namespace afterwards binds the function's name. A [def] without
    a statement under it is refused ([IndentationError], a [SyntaxError]). *)
Definition py_exec (src : string) : result pydict :=
  let (header, rest) := break_at (ascii_of_nat 10) src in
  (hd <- parse_header header ;;
   let (fname, ps) := hd : string * list (string * option literal) in
   stmts <- parse_body (match rest with Some text => text | None => "" end) ;;
   match stmts with
   | [] => Raise SyntaxError
   | _ => if forallb (stmt_reads ps) stmts
          then Ok [(fname, OFunc (FCompiled fname ps stmts))]
          else Raise Unmodelled
   end)%res.

(** ** Classes and the store *)

(** A class object: its [__name__], its [__annotations__] (empty for a class
    body without annotation, as [cls.__annotations__] is from Python 3.10 on)
    and the rest of its namespace. *)
Record pyclass : Type := {
  cls_name : string;
  cls_annotations : pydict;
  cls_dict : pydict
}.

(** The store of class objects; a class is known by its address. *)
Abbreviation heap := (gmap nat pyclass).

(** Computations that read and write the store and may raise. An exception
    leaves the writes made before it in place. *)
Definition M (A : Type) : Type := heap -> result A * heap.

Definition ret {A} (a : A) : M A := fun h => (Ok a, h).
Definition raise {A} (e : exn) : M A := fun h => (Raise e, h).
Definition bind {A B} (m : M A) (k : A -> M B) : M B :=
  fun h => match m h with
           | (Ok a, h') => k a h'
           | (Raise e, h') => (Raise e, h')
           end.
Definition lift {A} (r : result A) : M A := fun h => (r, h).

Declare Scope M_scope.
Delimit Scope M_scope with M.
Notation "x <- m ;; k" := (bind m (fun x => k))
  (at level 20, m at level 99, k at level 200, only parsing) : M_scope.

Fixpoint mfold {A B} (f : B -> A -> M B) (l : list A) (acc : B) : M B :=
  match l with
  | [] => ret acc
  | x :: l' => (acc' <- f acc x ;; mfold f l' acc')%M
  end.

(** Names that every class answers to through [object] and [type] (all the
    dunder names and [mro]). Those objects are not modelled: looking one up
    on a class that does not define it itself is [Unmodelled]. *)
Definition is_dunder (s : string) : bool :=
  match strip_prefix "__" s with
  | Some t => match strip_prefix "__" (String.rev t) with Some _ => true | None => false end
  | None => false
  end.

Definition builtin_attr (name : string) : bool :=
  (is_dunder name && negb (String.eqb name "__post_init__")) || String.eqb name "mro".

(** [cls.__annotations__] *)
Definition annotations (cls : nat) : M pydict :=
  fun h => match h !! cls with
           | Some c => (Ok (cls_annotations c), h)
           | None => (Raise Unmodelled, h)
           end.

(** [getattr(cls, name)] and [getattr(cls, name, default)] *)
Definition getattr_cls (cls : nat) (name : string) (default : option pyobj) : M pyobj :=
  fun h => match h !! cls with
           | Some c =>
               match dict_get name (cls_dict c) with
               | Some v => (Ok v, h)
               | None =>
                   if builtin_attr name then (Raise Unmodelled, h)
                   else match default with
                        | Some d => (Ok d, h)
                        | None => (Raise AttributeError, h)
                        end
               end
           | None => (Raise Unmodelled, h)
           end.

(** [setattr(cls, name, value)] *)
Definition setattr_cls (cls : nat) (name : string) (value : pyobj) : M unit :=
  fun h => match h !! cls with
           | Some c =>
               (Ok tt, <[cls := {| cls_name := cls_name c;
                                   cls_annotations := cls_annotations c;
                                   cls_dict := dict_set name value (cls_dict c) |}]> h)
           | None => (Raise Unmodelled, h)
           end.

(** ** The functions of [datacls.py] that build the class *)

(** The two lists [_create_func_signature] fills. *)
Record args_value : Type := {
  with_default_value : list string;
  no_default_value : list string
}.

(** [_create_func_signature(func_name, args)]: [def {func_name} (self, {args}):].
    The template ['{} = {}'] loses its last five characters for an argument
    without default, which leaves ['{}']. *)
Definition _create_func_signature (func_name : string) (args : pyobj) : result string :=
  (items <- py_items args ;;
   av <- rfold (fun (av : args_value) (item : string * pyobj) =>
                  let (arg_name, arg_value) := item in
                  default_value <- subscript arg_value "default_value" ;;
                  if py_eq default_value (OStr "_NotDefaultValue")
                  then Ok {| with_default_value := with_default_value av;
                             no_default_value := no_default_value av ++ [arg_name] |}
                  else Ok {| with_default_value :=
                               with_default_value av
                               ++ [arg_name +:+ " = " +:+ py_str default_value];
                             no_default_value := no_default_value av |})
               items
               {| with_default_value := []; no_default_value := [] |} ;;
   Ok ("def " +:+ func_name +:+ " (self, "
       +:+ join ", " (no_default_value av ++ with_default_value av) +:+ "):"))%res.

(** [_create_property(attr_name)] *)
Definition _create_property (attr_name : string) : pyobj := OProperty attr_name.

(** [_create_fn(func_name=..., signature=..., body=..., cls=...)]. The globals
    of the class's module, which [exec] receives, are read by no text of the
    modelled fragment. *)
Definition _create_fn (func_name signature body : string) (cls : nat) : result pyobj :=
  (function <- py_exec (signature +:+ body) ;;
   match dict_get func_name function with
   | Some f => Ok f
   | None => Raise KeyError
   end)%res.

(** ['object.__setattr__(self, "{}", {})'.format(a, b)] *)
Definition instance_attr_template (a b : string) : string :=
  "object.__setattr__(self, " +:+ DQ +:+ a +:+ DQ +:+ ", " +:+ b +:+ ")".

(** [_create_and_add_init(post_init, cls)] *)
Definition _create_and_add_init (post_init : pyobj) (cls : nat) : M unit :=
  (fields <- getattr_cls cls "_fields" None ;;
   signature <- lift (_create_func_signature "__init__" fields) ;;
   fields' <- getattr_cls cls "_fields" None ;;
   names <- lift (py_iter fields') ;;
   let init_body :=
     fold_left (fun body field =>
                  body +:+ TAB +:+ instance_attr_template field field +:+ NL)
               names NL in
   let init_body :=
     if truthy post_init then init_body +:+ TAB +:+ "self.__post_init__()"
     else init_body in
   init <- lift (_create_fn "__init__" signature init_body cls) ;;
   setattr_cls cls "__init__" init)%M.

(** [_FieldsDict(type_hint=..., default_value=...)] *)
Definition _FieldsDict (type_hint default_value : pyobj) : pyobj :=
  ODict [("type_hint", type_hint); ("default_value", default_value)].

(** [_read_annotations(cls)] *)
Definition _read_annotations (cls : nat) : M pyobj :=
  (items <- annotations cls ;;
   fields <- mfold (fun (fields : pydict) (item : string * pyobj) =>
                      let (name, type_hint) := item in
                      default_value <- getattr_cls cls name (Some (OStr "_NotDefaultValue")) ;;
                      ret (dict_set name (_FieldsDict type_hint default_value) fields))
                   items [] ;;
   ret (ODict fields))%M.

Definition _create_and_add_repr (cls : nat) : M unit :=
  setattr_cls cls "__repr__" (OFunc F_repr).

Definition _create_and_add_eq (cls : nat) : M unit :=
  setattr_cls cls "__eq__" (OFunc F_eq).

Definition _make_frozen (cls : nat) : M unit :=
  setattr_cls cls "__setattr__" (OFunc F_setattr).

(** [_make_datacls(cls, init, repr, eq, frozen)] *)
Definition _make_datacls (cls : nat) (init repr eq frozen : bool) : M nat :=
  (fields <- _read_annotations cls ;;
   _ <- setattr_cls cls "_fields" fields ;;
   _ <- setattr_cls cls "fields" (_create_property "_fields") ;;
   _ <- (if init
         then post_init <- getattr_cls cls "__post_init__" (Some (OBool false)) ;;
              _create_and_add_init post_init cls
         else ret tt) ;;
   _ <- (if repr then _create_and_add_repr cls else ret tt) ;;
   _ <- (if eq then _create_and_add_eq cls else ret tt) ;;
   _ <- (if frozen then _make_frozen cls else ret tt) ;;
   ret cls)%M.

(** What [datacls] returns: the class it was given, or the closure [wrap]
    holding the four switches. *)
Inductive decorated : Type :=
| DClass (cls : nat)
| DWrap (init repr eq frozen : bool).

(** [wrap(_cls)] *)
Definition wrap (init repr eq frozen : bool) (_cls : nat) : M nat :=
  _make_datacls _cls init repr eq frozen.

(** [datacls(cls=None, /, *, init=True, repr=True, eq=True, frozen=False)] *)
Definition datacls (cls : option nat) (init repr eq frozen : bool) : M decorated :=
  match cls with
  | None => ret (DWrap init repr eq frozen)
  | Some c => (r <- _make_datacls c init repr eq frozen ;; ret (DClass r))%M
  end.

(** Calling what [datacls] returned without a class on a class. *)
Definition apply_decorated (d : decorated) (cls : nat) : M nat :=
  match d with
  | DWrap init repr eq frozen => wrap init repr eq frozen cls
  | DClass _ => raise Unmodelled
  end.

(** ** Instances *)

(** An instance: the address of its class and its own [__dict__]. *)
Record instance : Type := {
  inst_cls : nat;
  inst_dict : pydict
}.

(** Anything a function of the module can be handed: an instance of a class
    of the store, or one of the other objects. *)
Inductive pyval : Type :=
| VInst (i : instance)
| VObj (o : pyobj).

(** The attribute [name] in the namespace of the class at [cls]. *)
Definition class_attr (h : heap) (cls : nat) (name : string) : option pyobj :=
  match h !! cls with
  | Some c => dict_get name (cls_dict c)
  | None => None
  end.

(** The names that, defined in a class body, change how the instances of
    the class are made and how their attributes are read and stored. An
    [instance] of the model is an object made by [object.__new__], with a
    [__dict__], whose attributes are read by [object.__getattribute__]: the
    instances of a class whose body defines none of these names. On the
    instances of another class, reading an attribute, [object.__setattr__]
    and the call of the class are [Unmodelled]. *)
Definition special_names : list string :=
  ["__new__"; "__slots__"; "__getattribute__"; "__getattr__"].

Definition plain_body (d : pydict) : bool :=
  forallb (fun n => match dict_get n d with None => true | Some _ => false end)
          special_names.

(** [getattr(self, name)] on an instance. A property of the class comes
    first and runs its getter, which is [getattr(self, attr_name)] again;
    then the instance's own [__dict__]; then the class. A function found on
    the class comes back bound to the instance, as a method: an object the
    model has no term for. [fuel] bounds the depth of getter calls, as the
    interpreter's recursion limit does. *)
Fixpoint getattr_inst (fuel : nat) (h : heap) (self : instance) (name : string)
  : result pyobj :=
  match h !! inst_cls self with
  | None => Raise Unmodelled
  | Some c =>
      if negb (plain_body (cls_dict c)) then Raise Unmodelled
      else
        match dict_get name (cls_dict c) with
        | Some (OProperty attr_name) =>
            match fuel with
            | O => Raise RecursionError
            | S fuel' => getattr_inst fuel' h self attr_name
            end
        | Some v =>
            match dict_get name (inst_dict self) with
            | Some w => Ok w
            | None => match v with
                      | OFunc _ => Raise Unmodelled
                      | _ => Ok v
                      end
            end
        | None =>
            if builtin_attr name then Raise Unmodelled
            else match dict_get name (inst_dict self) with
                 | Some w => Ok w
                 | None => Raise AttributeError
                 end
        end
  end.

Definition recursion_limit : nat := 1000.

(** [getattr(x, name)]. The objects of [pyobj] have no attribute [fields] or
    [_fields]; their other attributes are not modelled. *)
Definition py_getattr (h : heap) (x : pyval) (name : string) : result pyobj :=
  match x with
  | VInst self => getattr_inst recursion_limit h self name
  | VObj _ =>
      if String.eqb name "fields" || String.eqb name "_fields"
      then Raise AttributeError
      else Raise Unmodelled
  end.

(** [asdict(datacls_instance)] *)
Definition asdict (h : heap) (datacls_instance : pyval) : result pydict :=
  (fields <- py_getattr h datacls_instance "fields" ;;
   names <- py_iter fields ;;
   rfold (fun (result : pydict) (field : string) =>
            value <- py_getattr h datacls_instance field ;;
            Ok (dict_set field value result))
         names [])%res.

(** [_repr(self)] *)
Definition _repr (h : heap) (self : instance) : result string :=
  match h !! inst_cls self with
  | None => Raise Unmodelled
  | Some c =>
      (let cls_name := cls_name c in
       let constructor := cls_name +:+ "(" in
       fields <- getattr_inst recursion_limit h self "_fields" ;;
       names <- py_iter fields ;;
       constructor <- rfold (fun (constructor : string) (field : string) =>
                               value <- getattr_inst recursion_limit h self field ;;
                               Ok (constructor +:+ field +:+ " = " +:+ py_str value +:+ ", "))
                            names constructor ;;
       Ok (constructor +:+ ")"))%res
  end.

(** [_eq(self, other)] *)
Definition _eq (h : heap) (self other : pyval) : result bool :=
  (a <- asdict h self ;;
   b <- asdict h other ;;
   Ok (dict_eqb a b))%res.

(** [_setattr(self, field, value)] *)
Definition _setattr (self : instance) (field : string) (value : pyobj) : result instance :=
  Raise FrozenError.

(** [object.__setattr__(self, name, value)]: a property of the class without
    setter refuses the write; otherwise the value goes into the instance's
    [__dict__]. *)
Definition object_setattr (h : heap) (self : instance) (name : string) (value : pyobj)
  : result instance :=
  match h !! inst_cls self with
  | None => Raise Unmodelled
  | Some c =>
      if negb (plain_body (cls_dict c)) then Raise Unmodelled
      else
        match dict_get name (cls_dict c) with
        | Some (OProperty _) => Raise AttributeError
        | Some _ =>
            Ok {| inst_cls := inst_cls self;
                  inst_dict := dict_set name value (inst_dict self) |}
        | None =>
            if builtin_attr name then Raise Unmodelled
            else Ok {| inst_cls := inst_cls self;
                       inst_dict := dict_set name value (inst_dict self) |}
        end
  end.

(** The statement [self.name = value]: it calls the [__setattr__] of the
    class, which is [object.__setattr__] unless the class defines one. *)
Definition py_setattr (h : heap) (self : instance) (name : string) (value : pyobj)
  : result instance :=
  match h !! inst_cls self with
  | None => Raise Unmodelled
  | Some c =>
      match dict_get "__setattr__" (cls_dict c) with
      | Some (OFunc F_setattr) => _setattr self name value
      | Some _ => Raise Unmodelled
      | None => object_setattr h self name value
      end
  end.

(** The statement [a == b] where [type(a)] defines [__eq__] as [_eq]. *)
Definition py_equals (h : heap) (a : instance) (b : pyval) : result bool :=
  match class_attr h (inst_cls a) "__eq__" with
  | Some (OFunc F_eq) => _eq h (VInst a) b
  | _ => Raise Unmodelled
  end.

(** Binding of call arguments to the parameters after [self]: positional
    arguments first, then each remaining parameter from the keywords or from
    its default. *)
Fixpoint bind_positional (params : list (string * option literal)) (args : list pyobj)
  {struct args} : result (pydict * list (string * option literal)) :=
  match args with
  | [] => Ok ([], params)
  | a :: args' =>
      match params with
      | [] => Raise TypeError
      | (n, _) :: params' =>
          (r <- bind_positional params' args' ;;
           Ok ((n, a) :: fst r, snd r))%res
      end
  end.

Definition bind_args (params : list (string * option literal))
  (args : list pyobj) (kwargs : pydict) : result pydict :=
  (r <- bind_positional params args ;;
   let (bound, rest) := r : pydict * list (string * option literal) in
   if forallb (fun kw => existsb (String.eqb (fst kw)) (map fst rest)) kwargs
      && no_dup_names (map fst kwargs)
   then (others <- rmap (fun p : string * option literal =>
                           match dict_get (fst p) kwargs with
                           | Some v => Ok (fst p, v)
                           | None =>
                               match snd p with
                               | Some d => Ok (fst p, obj_of_literal d)
                               | None => Raise TypeError
                               end
                           end) rest ;;
         Ok (bound ++ others))
   else Raise TypeError)%res.

Section Construction.

(** The functions the user wrote in the class body are part of the
    program under the decorator, not of the decorator: [user_call name self]
    is what calling the user's function [name] on [self] does to [self]. *)
Variable user_call : string -> instance -> result instance.

(** [self.__post_init__()]: the attribute is looked up on the instance and
    what is found is called without arguments. A function of the class body
    is found as a method and runs on [self]. An object that is not callable
    is a [TypeError]. What the call of another callable does (a class, a
    function stored on the instance, the value of a property) is not
    modelled. *)
Definition call_post_init (h : heap) (self : instance) : result instance :=
  match h !! inst_cls self with
  | None => Raise Unmodelled
  | Some c =>
      if negb (plain_body (cls_dict c)) then Raise Unmodelled
      else
        match dict_get "__post_init__" (cls_dict c) with
        | Some (OProperty _) => Raise Unmodelled
        | on_class =>
            match dict_get "__post_init__" (inst_dict self) with
            | Some (OFunc _) | Some (OType _) => Raise Unmodelled
            | Some _ => Raise TypeError
            | None =>
                match on_class with
                | Some (OFunc (FUser name)) => user_call name self
                | Some (OFunc _) | Some (OType _) => Raise Unmodelled
                | Some _ => Raise TypeError
                | None => Raise AttributeError
                end
            end
        end
  end.

Definition exec_stmt (h : heap) (locals : pydict) (self : instance) (s : stmt)
  : result instance :=
  match s with
  | SObjectSetattr attr var =>
      match dict_get var locals with
      | Some v => object_setattr h self attr v
      | None => Raise Unmodelled
      end
  | SPostInit => call_post_init h self
  end.

(** Calling the class on arguments, for a class that leaves the making of
    its instances to [object]: a new instance with an empty [__dict__], then
    the [__init__] of the class on it. Without an [__init__] in the class
    body, [object] takes no argument. *)
Definition py_call_class (h : heap) (cls : nat) (args : list pyobj) (kwargs : pydict)
  : result instance :=
  let self := {| inst_cls := cls; inst_dict := [] |} in
  match h !! cls with
  | None => Raise Unmodelled
  | Some c =>
      if negb (plain_body (cls_dict c)) then Raise Unmodelled
      else
        match dict_get "__init__" (cls_dict c) with
        | Some (OFunc (FCompiled _ params body)) =>
            (locals <- bind_args params args kwargs ;;
             rfold (exec_stmt h locals) body self)%res
        | Some _ => Raise Unmodelled
        | None =>
            match args, kwargs with
            | [], [] => Ok self
            | _, _ => Raise TypeError
            end
        end
  end.

End Construction.

(** ** Running the module on a class *)

Definition int_ : pyobj := OType "int".
Definition str_ : pyobj := OType "str".

(** [class TestUser: Name: str; Age: int; def __post_init__(self): ...] *)
Definition TestUser : pyclass :=
  {| cls_name := "TestUser";
     cls_annotations := [("Name", str_); ("Age", int_)];
     cls_dict := [("__post_init__", OFunc (FUser "__post_init__"))] |}.

(** [class Point: a: int = 1; b: int] *)
Definition Point : pyclass :=
  {| cls_name := "Point";
     cls_annotations := [("a", int_); ("b", int_)];
     cls_dict := [("a", OInt 1)] |}.

Definition no_hook : string -> instance -> result instance := fun _ self => Ok self.

(** ** Predicates used in the statements *)

(** A character other than [c]. *)
Definition other_than (c x : ascii) : bool := negb (Ascii.eqb x c).

(** A character of the text of a literal default. *)
Definition lit_char (c : ascii) : bool := is_ident_char c || Ascii.eqb c "-"%char.

(** The objects a default expression of the modelled fragment denotes. *)
Definition literal_of (v : pyobj) : option literal :=
  match v with
  | ONone => Some LNone
  | OBool b => Some (LBool b)
  | OInt z => Some (LInt z)
  | _ => None
  end.

(** The text of one parameter of a generated signature. *)
Definition render_param (p : string * option literal) : string :=
  match snd p with
  | None => fst p
  | Some l => fst p +:+ " = " +:+ py_str (obj_of_literal l)
  end.

(** A character of the text of one parameter. *)
Definition param_char (c : ascii) : bool :=
  lit_char c || Ascii.eqb c " "%char || Ascii.eqb c "="%char.

(** The body [_create_and_add_init] writes, line by line. *)
Definition body_line (field : string) : string :=
  TAB +:+ instance_attr_template field field +:+ NL.

Definition body_lines (names : list string) : string :=
  fold_right (fun field rest => body_line field +:+ rest) "" names.

Definition hook_line (post_init : bool) : string :=
  if post_init then TAB +:+ "self.__post_init__()" else "".

(** The statements of that body. *)
Definition init_stmts (names : list string) (post_init : bool) : list stmt :=
  map (fun field => SObjectSetattr field field) names
  ++ (if post_init then [SPostInit] else []).

(** A character of a parameter list. *)
Definition sig_char (c : ascii) : bool := param_char c || Ascii.eqb c ","%char.

(** ** The registry, read back *)

(** The default a registry entry records. *)
Definition entry_default (entry : pyobj) : option pyobj :=
  match entry with
  | ODict d => dict_get "default_value" d
  | _ => None
  end.

(** An entry whose default is the string ['_NotDefaultValue'], and one whose
    default is anything else. *)
Definition is_required (item : string * pyobj) : bool :=
  match entry_default (snd item) with
  | Some v => py_eq v (OStr "_NotDefaultValue")
  | None => false
  end.

Definition is_defaulted (item : string * pyobj) : bool :=
  match entry_default (snd item) with
  | Some v => negb (py_eq v (OStr "_NotDefaultValue"))
  | None => false
  end.

(** ['{} = {}'.format(arg_name, arg_value['default_value'])] *)
Definition render_default (item : string * pyobj) : string :=
  match entry_default (snd item) with
  | Some v => fst item +:+ " = " +:+ py_str v
  | None => fst item
  end.

(** The parameters of the generated [__init__], as [exec] reads them, when
    every default is a literal. *)
Definition param_of (item : string * pyobj) : string * option literal :=
  match entry_default (snd item) with
  | Some v => (fst item, literal_of v)
  | None => (fst item, None)
  end.

Definition params_of (fields : pydict) : list (string * option literal) :=
  map param_of (List.filter is_required fields)
  ++ map param_of (List.filter is_defaulted fields).

(** ** What the decorator does to the namespace of one class

    The functions above run in the store; the definitions here say, as
    functions of the annotations and the namespace of the class, what they
    compute. The lemmas [read_annotations_run] and [make_datacls_run] tie
    the two together. *)

(** [getattr(cls, name, '_NotDefaultValue')] on the namespace [d]. *)
Definition class_default (d : pydict) (name : string) : result pyobj :=
  match dict_get name d with
  | Some v => Ok v
  | None => if builtin_attr name then Raise Unmodelled else Ok (OStr "_NotDefaultValue")
  end.

Definition read_fields (ann d : pydict) : result pydict :=
  rfold (fun (fields : pydict) (item : string * pyobj) =>
           (default_value <- class_default d (fst item) ;;
            Ok (dict_set (fst item) (_FieldsDict (snd item) default_value) fields))%res)
        ann [].

(** The text of the body of [__init__]. *)
Definition init_body (names : list string) (post_init : pyobj) : string :=
  let body := fold_left (fun body field =>
                           body +:+ TAB +:+ instance_attr_template field field +:+ NL)
                        names NL in
  if truthy post_init then body +:+ TAB +:+ "self.__post_init__()" else body.

(** The function object [_create_and_add_init] installs. *)
Definition make_init (fields post_init : pyobj) : result pyobj :=
  (signature <- _create_func_signature "__init__" fields ;;
   names <- py_iter fields ;;
   _create_fn "__init__" signature (init_body names post_init) 0)%res.

Definition post_init_of (d : pydict) : pyobj :=
  match dict_get "__post_init__" d with
  | Some v => v
  | None => OBool false
  end.

Definition set_if (b : bool) (name : string) (v : pyobj) (d : pydict) : pydict :=
  if b then dict_set name v d else d.

Definition with_dict (c : pyclass) (d : pydict) : pyclass :=
  {| cls_name := cls_name c; cls_annotations := cls_annotations c; cls_dict := d |}.

(** The outcome of [_make_datacls] and the namespace it leaves. *)
Definition augment (init repr eq frozen : bool) (ann d : pydict) : result unit * pydict :=
  match read_fields ann d with
  | Raise e => (Raise e, d)
  | Ok fields =>
      let d1 := dict_set "fields" (OProperty "_fields")
                  (dict_set "_fields" (ODict fields) d) in
      match (if init
             then (f <- make_init (ODict fields) (post_init_of d1) ;;
                   Ok (dict_set "__init__" f d1))%res
             else Ok d1) with
      | Raise e => (Raise e, d1)
      | Ok d2 =>
          (Ok tt,
           set_if frozen "__setattr__" (OFunc F_setattr)
             (set_if eq "__eq__" (OFunc F_eq)
                (set_if repr "__repr__" (OFunc F_repr) d2)))
      end
  end.

(** ** Classes the general statements are about *)

(** A field name the generated code can carry: a plain parameter name that
    is not a dunder name, nor [self], nor a name the decorator or [type]
    puts on the class. *)
Definition field_ok (n : string) : bool :=
  plain_name n && negb (is_dunder n)
  && negb (existsb (String.eqb n) ["self"; "_fields"; "fields"; "mro"]).

(** [str] of an int has a limit on its digits, 4300 unless the interpreter
    is set otherwise. *)
Definition within_int_limit (v : pyobj) : bool :=
  match v with
  | OInt z => (String.length (str_of_Z (Z.abs z)) <=? 4300)%nat
  | _ => true
  end.

(** The class body gives the field no value, or a value written as a literal
    of the modelled fragment: [None], a bool, or an int within the limit of
    [str]. *)
Definition default_ok (d : pydict) (n : string) : bool :=
  match dict_get n d with
  | None => true
  | Some v => match literal_of v with Some _ => within_int_limit v | None => false end
  end.

(** The class body has no [__post_init__], or defines it as a function. *)
Definition hook_ok (d : pydict) : bool :=
  match dict_get "__post_init__" d with
  | None => true
  | Some (OFunc (FUser _)) => true
  | Some _ => false
  end.

(** The classes the statements on the generated [__init__] are about: the
    fields have distinct names that the generated code can carry, each
    without default or with a literal one; the hook, if any, is a function
    of the class body; and the class body leaves the making of instances and
    the access to their attributes to [object]. *)
Definition class_ok (c : pyclass) : bool :=
  no_dup_names (dict_keys (cls_annotations c))
  && forallb (fun n => field_ok n && default_ok (cls_dict c) n)
             (dict_keys (cls_annotations c))
  && hook_ok (cls_dict c)
  && plain_body (cls_dict c).

Definition has_hook (c : pyclass) : bool :=
  match dict_get "__post_init__" (cls_dict c) with
  | Some _ => true
  | None => false
  end.

(** The default the class body declares for a field, or the sentinel. *)
Definition declared_default (d : pydict) (n : string) : pyobj :=
  match dict_get n d with
  | Some v => v
  | None => OStr "_NotDefaultValue"
  end.

(** The registry of a class, entry by entry in the order of the annotations. *)
Definition registry (c : pyclass) : pydict :=
  map (fun item => (fst item,
                    _FieldsDict (snd item) (declared_default (cls_dict c) (fst item))))
      (cls_annotations c).

(** The generated [__init__] of a well-formed class, and the namespace the
    decorator leaves. *)
Definition init_of (c : pyclass) : pyobj :=
  OFunc (FCompiled "__init__" (params_of (registry c))
           (init_stmts (dict_keys (cls_annotations c)) (has_hook c))).

Definition final_dict (init repr eq frozen : bool) (c : pyclass) : pydict :=
  set_if frozen "__setattr__" (OFunc F_setattr)
    (set_if eq "__eq__" (OFunc F_eq)
       (set_if repr "__repr__" (OFunc F_repr)
          (set_if init "__init__" (init_of c)
             (dict_set "fields" (OProperty "_fields")
                (dict_set "_fields" (ODict (registry c)) (cls_dict c)))))).



(** Two dicts with the same set of keys and, key by key, equal values. *)
Definition same_items (d d' : pydict) : Prop :=
  (forall k, In k (dict_keys d) <-> In k (dict_keys d'))
  /\ (forall k v v', dict_get k d = Some v -> dict_get k d' = Some v' -> py_eq v v' = true).

(** The declared fields [asdict] can tell apart from the class's own
    machinery: distinct names, none of them answered by [object] or [type],
    none of them [_fields] or [fields], none bound to a property in the
    class body; and the class body leaves the making of instances and the
    access to their attributes to [object]. *)
Definition fields_ok (c : pyclass) : bool :=
  no_dup_names (dict_keys (cls_annotations c))
  && forallb (fun n =>
                negb (builtin_attr n)
                && negb (existsb (String.eqb n) ["_fields"; "fields"])
                && match dict_get n (cls_dict c) with
                   | Some (OProperty _) => false
                   | _ => true
                   end)
             (dict_keys (cls_annotations c))
  && plain_body (cls_dict c).

(** The names the decorator binds in the namespace of the class. *)
Definition installed_names : list string :=
  ["_fields"; "fields"; "__init__"; "__repr__"; "__eq__"; "__setattr__"].

(** ** Hypotheses of the statements, as computable checks *)




(** The instance has an attribute of its own for every declared field and
    none named [_fields]. *)
Definition holds_fields (c : pyclass) (self : instance) : bool :=
  forallb (fun n => match dict_get n (inst_dict self) with
                    | Some _ => true
                    | None => false
                    end)
          (dict_keys (cls_annotations c))
  && match dict_get "_fields" (inst_dict self) with
     | None => true
     | Some _ => false
     end.

(** The value of an attribute of the instance's own. *)
Definition own_value (self : instance) (n : string) : pyobj :=
  match dict_get n (inst_dict self) with
  | Some v => v
  | None => ONone
  end.

(** No declared field has a name the decorator binds on the class. *)
Definition no_installed_name (c : pyclass) : bool :=
  forallb (fun n => negb (existsb (String.eqb n) installed_names))
          (dict_keys (cls_annotations c)).

(** ** Classes for the examples *)

(** A store holding one class, at address 0. *)
Definition store_of (c : pyclass) : heap := <[0%nat := c]> ∅.

(** [class Empty: pass] *)
Definition Empty : pyclass :=
  {| cls_name := "Empty"; cls_annotations := []; cls_dict := [] |}.

(** [class Tagged: tag: str = '_NotDefaultValue'] *)
Definition Tagged : pyclass :=
  {| cls_name := "Tagged";
     cls_annotations := [("tag", str_)];
     cls_dict := [("tag", OStr "_NotDefaultValue")] |}.

(** [class Shadow: _fields: str] *)
Definition Shadow : pyclass :=
  {| cls_name := "Shadow";
     cls_annotations := [("_fields", str_)];
     cls_dict := [] |}.

(** [class Clash: fields: int] *)
Definition Clash : pyclass :=
  {| cls_name := "Clash";
     cls_annotations := [("fields", int_)];
     cls_dict := [] |}.


(** ** Definitions for the further properties *)

(** The class at [cls] carries what the decorator bound on [c]: the [fields]
    property, the registry of [c] under [_fields], the name of [c], and the
    values of [c] for every name the decorator does not bind. *)
Definition decorated_view (h : heap) (cls : nat) (c : pyclass) : Prop :=
  exists c',
    h !! cls = Some c'
    /\ cls_name c' = cls_name c
    /\ dict_get "fields" (cls_dict c') = Some (OProperty "_fields")
    /\ dict_get "_fields" (cls_dict c') = Some (ODict (registry c))
    /\ forall k, ~ In k installed_names -> dict_get k (cls_dict c') = dict_get k (cls_dict c).





(** Two lists of names with the same length, every name of the first being
    in the second. *)
Definition same_names (l1 l2 : list string) : bool :=
  (length l1 =? length l2)%nat && forallb (fun n => existsb (String.eqb n) l2) l1.

(** [class Vec: b: int; a: int] *)
Definition Vec : pyclass :=
  {| cls_name := "Vec";
     cls_annotations := [("b", int_); ("a", int_)];
     cls_dict := [] |}.

(** The instance after [value] went into its [__dict__] under [name]. *)
Definition with_attr (self : instance) (name : string) (value : pyobj) : instance :=
  {| inst_cls := inst_cls self; inst_dict := dict_set name value (inst_dict self) |}.

(** The annotations [_read_annotations] reads within the model: distinct
    names, none of them answered by [object] or [type]. *)
Definition readable (c : pyclass) : bool :=
  no_dup_names (dict_keys (cls_annotations c))
  && forallb (fun n => negb (builtin_attr n)) (dict_keys (cls_annotations c)).

(** The class body gives every declared field a value. *)
Definition all_defaulted (c : pyclass) : bool :=
  forallb (fun n => match dict_get n (cls_dict c) with Some _ => true | None => false end)
          (dict_keys (cls_annotations c)).

(** No declared field has a function as its value in the class body. *)
Definition no_method_default (c : pyclass) : bool :=
  forallb (fun n => match dict_get n (cls_dict c) with
                    | Some (OFunc _) => false
                    | _ => true
                    end)
          (dict_keys (cls_annotations c)).

(** A new instance, before any initializer has run. *)
Definition bare (cls : nat) : instance := {| inst_cls := cls; inst_dict := [] |}.

(** ** Calls of a decorated class *)






(** ** Defaults as the generated text has them *)



(** * Proofs *)

(** ** Strings *)

Lemma append_assoc (a b c : string) : (a +:+ b) +:+ c = a +:+ b +:+ c.
Proof. induction a as [|x a IH]; simpl; [reflexivity | now rewrite IH]. Qed.

Lemma append_nil_r (a : string) : a +:+ "" = a.
Proof. induction a as [|x a IH]; simpl; [reflexivity | now rewrite IH]. Qed.

Lemma all_chars_app p a b :
  all_chars p (a +:+ b) = all_chars p a && all_chars p b.
Proof.
  induction a as [|x a IH]; simpl; [reflexivity |].
  rewrite IH. now rewrite andb_assoc.
Qed.

Lemma all_chars_impl (p q : ascii -> bool) s :
  (forall c, p c = true -> q c = true) ->
  all_chars p s = true -> all_chars q s = true.
Proof.
  intros Hpq. induction s as [|x s IH]; simpl; [reflexivity |].
  rewrite !andb_true_iff. intros [Hx Hs]. split; auto.
Qed.

Lemma span_app p a c b :
  all_chars p a = true -> p c = false ->
  span p (a +:+ String c b) = (a, String c b).
Proof.
  intros Ha Hc. induction a as [|x a IH]; simpl in *.
  - now rewrite Hc.
  - apply andb_true_iff in Ha as [Hx Ha]. rewrite Hx, (IH Ha). reflexivity.
Qed.

Lemma span_all p a : all_chars p a = true -> span p a = (a, "").
Proof.
  induction a as [|x a IH]; simpl; [reflexivity |].
  intros [Hx Ha]%andb_true_iff. rewrite Hx, (IH Ha). reflexivity.
Qed.

Lemma break_at_app c a b :
  all_chars (other_than c) a = true ->
  break_at c (a +:+ String c b) = (a, Some b).
Proof.
  intros Ha. induction a as [|x a IH]; simpl in *.
  - now rewrite Ascii.eqb_refl.
  - apply andb_true_iff in Ha as [Hx Ha]. unfold other_than in Hx.
    apply negb_true_iff in Hx. rewrite Hx, (IH Ha). reflexivity.
Qed.

Lemma split_char_app c a b :
  all_chars (other_than c) a = true ->
  split_char c (a +:+ String c b) = a :: split_char c b.
Proof.
  intros Ha. induction a as [|x a IH]; simpl in *.
  - now rewrite Ascii.eqb_refl.
  - apply andb_true_iff in Ha as [Hx Ha]. unfold other_than in Hx.
    apply negb_true_iff in Hx. rewrite Hx, (IH Ha). reflexivity.
Qed.

Lemma split_char_none c a :
  all_chars (other_than c) a = true -> split_char c a = [a].
Proof.
  induction a as [|x a IH]; simpl; [reflexivity |].
  intros [Hx Ha]%andb_true_iff. unfold other_than in Hx.
  apply negb_true_iff in Hx. rewrite Hx, (IH Ha). reflexivity.
Qed.


(** ** Dictionaries *)

Lemma dict_get_set_eq k v d : dict_get k (dict_set k v d) = Some v.
Proof.
  induction d as [|[k' v'] d IH]; simpl.
  - now rewrite String.eqb_refl.
  - destruct (String.eqb_spec k k') as [->|Hne]; simpl.
    + now rewrite String.eqb_refl.
    + apply String.eqb_neq in Hne. now rewrite Hne.
Qed.

Lemma dict_get_set_ne k k' v d :
  k <> k' -> dict_get k (dict_set k' v d) = dict_get k d.
Proof.
  intros Hne. induction d as [|[k2 v2] d IH]; simpl.
  - apply String.eqb_neq in Hne. now rewrite Hne.
  - destruct (String.eqb_spec k' k2) as [->|Hne2]; simpl.
    + apply String.eqb_neq in Hne. now rewrite Hne.
    + now rewrite IH.
Qed.

Lemma dict_set_id k v d : dict_get k d = Some v -> dict_set k v d = d.
Proof.
  induction d as [|[k' v'] d IH]; simpl; [discriminate |].
  destruct (String.eqb_spec k k') as [->|Hne].
  - now intros [= ->].
  - intros H. now rewrite IH.
Qed.

Lemma dict_get_None k (d : pydict) : dict_get k d = None <-> ~ In k (dict_keys d).
Proof.
  induction d as [|[k' v'] d IH]; simpl; [tauto |].
  destruct (String.eqb_spec k k') as [->|Hne].
  - split; [discriminate | intros H; exfalso; apply H; now left].
  - rewrite IH. split; [intros H [E|E]; [congruence | tauto] | tauto].
Qed.

Lemma dict_get_Some_In k v (d : pydict) : dict_get k d = Some v -> In k (dict_keys d).
Proof.
  intros H. destruct (in_dec string_dec k (dict_keys d)) as [Hin|Hnin]; [assumption |].
  apply dict_get_None in Hnin. congruence.
Qed.

Lemma dict_get_In k (d : pydict) : In k (dict_keys d) -> exists v, dict_get k d = Some v.
Proof.
  intros H. destruct (dict_get k d) as [v|] eqn:E; [eauto |].
  apply dict_get_None in E. contradiction.
Qed.

Lemma dict_set_fresh k v d : dict_get k d = None -> dict_set k v d = d ++ [(k, v)].
Proof.
  induction d as [|[k' v'] d IH]; simpl; [reflexivity |].
  destruct (String.eqb_spec k k') as [->|Hne]; [discriminate |].
  intros H. now rewrite IH.
Qed.

Lemma dict_keys_set_In k v d :
  In k (dict_keys d) -> dict_keys (dict_set k v d) = dict_keys d.
Proof.
  induction d as [|[k' v'] d IH]; simpl; [tauto |].
  destruct (String.eqb_spec k k') as [->|Hne]; simpl; [reflexivity |].
  intros [E|Hin]; [congruence |]. now rewrite IH.
Qed.

Lemma dict_keys_set_fresh k v d :
  ~ In k (dict_keys d) -> dict_keys (dict_set k v d) = dict_keys d ++ [k].
Proof.
  intros H. apply dict_get_None in H. rewrite (dict_set_fresh _ _ _ H).
  unfold dict_keys. now rewrite map_app.
Qed.

Lemma dict_keys_set_NoDup k v d :
  List.NoDup (dict_keys d) -> List.NoDup (dict_keys (dict_set k v d)).
Proof.
  intros Hnd. destruct (in_dec string_dec k (dict_keys d)) as [Hin|Hnin].
  - now rewrite dict_keys_set_In.
  - rewrite dict_keys_set_fresh by assumption.
    apply List.NoDup_app; [assumption | |].
    + constructor; [simpl; tauto | constructor].
    + intros x Hx [<-|[]]. contradiction.
Qed.



(** ** Integer literals *)

Lemma string_of_uint_digits u :
  all_chars (in_range 48 57) (NilEmpty.string_of_uint u) = true.
Proof. induction u; simpl; auto. Qed.

Lemma str_of_Z_chars z : all_chars lit_char (str_of_Z z) = true.
Proof.
  assert (Hd : forall u, all_chars lit_char (NilZero.string_of_uint u) = true).
  { intros u. apply all_chars_impl with (p := in_range 48 57).
    - intros c Hc. unfold lit_char, is_ident_char. rewrite Hc.
      now rewrite orb_true_r.
    - destruct u; try apply string_of_uint_digits. reflexivity. }
  unfold str_of_Z. destruct (Z.to_int z) as [u|u]; simpl.
  - apply Hd.
  - apply Hd.
Qed.

Lemma str_of_Z_head z :
  exists c s, str_of_Z z = String c s /\ (in_range 48 57 c || Ascii.eqb c "-"%char) = true.
Proof.
  assert (Hu : forall u, exists c s, NilZero.string_of_uint u = String c s
                                     /\ in_range 48 57 c = true).
  { intros u. destruct u; simpl; eauto. }
  unfold str_of_Z. destruct (Z.to_int z) as [u|u]; simpl.
  - destruct (Hu u) as (c & s & -> & Hc). exists c, s. now rewrite Hc.
  - exists "-"%char, (NilZero.string_of_uint u). split; reflexivity.
Qed.

Lemma parse_int_str_of_Z z : parse_int (str_of_Z z) = Some z.
Proof.
  unfold parse_int, str_of_Z.
  rewrite NilZero.isi.
  - rewrite DecimalZ.of_to. now rewrite String.eqb_refl.
  - destruct z; simpl; try discriminate.
    intros [= H]. now apply DecimalPos.Unsigned.to_uint_nonnil in H.
  - destruct z; simpl; try discriminate.
    intros [= H]. now apply DecimalPos.Unsigned.to_uint_nonnil in H.
Qed.

Lemma str_of_Z_not_word z (w : string) :
  match w with
  | String c _ => (in_range 48 57 c || Ascii.eqb c "-"%char) = false
  | EmptyString => True
  end ->
  String.eqb (str_of_Z z) w = false.
Proof.
  intros Hw. destruct (str_of_Z_head z) as (c & s & -> & Hc).
  destruct w as [|c' w]; [reflexivity |]. simpl.
  destruct (Ascii.eqb_spec c c') as [->|]; [congruence | reflexivity].
Qed.

Lemma eval_default_literal v l :
  literal_of v = Some l -> eval_default (py_str v) = Ok l.
Proof.
  destruct v; simpl; try discriminate; intros [= <-].
  - reflexivity.
  - now destruct b.
  - unfold eval_default.
    rewrite !str_of_Z_not_word by reflexivity.
    now rewrite parse_int_str_of_Z.
Qed.

Lemma literal_text_chars v l :
  literal_of v = Some l -> all_chars lit_char (py_str v) = true.
Proof.
  destruct v; simpl; try discriminate; intros _.
  - reflexivity.
  - now destruct b.
  - apply str_of_Z_chars.
Qed.

Lemma obj_of_literal_of v l : literal_of v = Some l -> obj_of_literal l = v.
Proof. destruct v; simpl; try discriminate; now intros [= <-]. Qed.

Lemma skip_spaces_chars p s :
  p " "%char = false -> all_chars p s = true -> skip_spaces s = s.
Proof.
  intros Hp. destruct s as [|c s]; simpl; [reflexivity |].
  intros [Hc _]%andb_true_iff.
  destruct (Ascii.eqb_spec c " "%char) as [->|]; [congruence | reflexivity].
Qed.

(** ** Reading a generated header *)

Lemma rmap_app {A B} (f : A -> result B) l1 l2 ys1 ys2 :
  rmap f l1 = Ok ys1 -> rmap f l2 = Ok ys2 -> rmap f (l1 ++ l2) = Ok (ys1 ++ ys2).
Proof.
  revert ys1. induction l1 as [|x l1 IH]; simpl; intros ys1.
  - now intros [= <-].
  - destruct (f x) as [y|e]; simpl; [|discriminate].
    destruct (rmap f l1) as [ys|e]; simpl; [|discriminate].
    intros [= <-] H2. now rewrite (IH ys eq_refl H2).
Qed.

Lemma rmap_map {A B C} (f : B -> result C) (g : A -> B) (k : A -> C) l :
  (forall x, In x l -> f (g x) = Ok (k x)) -> rmap f (map g l) = Ok (map k l).
Proof.
  induction l as [|x l IH]; simpl; intros H; [reflexivity |].
  rewrite H by now left. simpl. rewrite IH by (intros; apply H; now right).
  reflexivity.
Qed.


Lemma plain_name_chars n : plain_name n = true -> all_chars is_ident_char n = true.
Proof.
  unfold plain_name, is_identifier. rewrite !andb_true_iff.
  intros [[H _] _]. destruct n as [|c n]; [discriminate |].
  apply andb_true_iff in H as [Hc Hn]. simpl. rewrite Hn.
  unfold is_ident_char. now rewrite Hc.
Qed.

Lemma plain_name_nonempty n : plain_name n = true -> n <> "".
Proof. intros H ->. discriminate. Qed.

Lemma ident_char_param c : is_ident_char c = true -> param_char c = true.
Proof. intros H. unfold param_char, lit_char. now rewrite H. Qed.

Lemma lit_char_param c : lit_char c = true -> param_char c = true.
Proof. intros H. unfold param_char. now rewrite H. Qed.

Lemma param_char_other c x :
  param_char c = false -> param_char x = true -> other_than c x = true.
Proof.
  intros Hc Hx. unfold other_than.
  destruct (Ascii.eqb_spec x c) as [->|]; [congruence | reflexivity].
Qed.

Lemma ident_char_other c x :
  is_ident_char c = false -> is_ident_char x = true -> other_than c x = true.
Proof.
  intros Hc Hx. unfold other_than.
  destruct (Ascii.eqb_spec x c) as [->|]; [congruence | reflexivity].
Qed.

Lemma render_param_chars p :
  plain_name (fst p) = true -> all_chars param_char (render_param p) = true.
Proof.
  intros Hn. destruct p as [n [l|]]; unfold render_param; cbn [fst snd] in *.
  - rewrite !all_chars_app.
    rewrite (all_chars_impl _ _ _ ident_char_param (plain_name_chars _ Hn)).
    rewrite (all_chars_impl _ _ (py_str (obj_of_literal l)) lit_char_param).
    + reflexivity.
    + apply literal_text_chars with (l := l). now destruct l.
  - apply (all_chars_impl _ _ _ ident_char_param (plain_name_chars _ Hn)).
Qed.

Lemma join_chars q sep l :
  all_chars q sep = true ->
  Forall (fun x => all_chars q x = true) l ->
  all_chars q (join sep l) = true.
Proof.
  intros Hsep. induction 1 as [|x l Hx Hl IH]; [reflexivity |].
  destruct l as [|y l]; [exact Hx |].
  change (join sep (x :: y :: l)) with (x +:+ sep +:+ join sep (y :: l)).
  rewrite !all_chars_app, Hx, Hsep, IH. reflexivity.
Qed.

Lemma skip_spaces_app p a b :
  p " "%char = false -> all_chars p a = true -> a <> "" ->
  skip_spaces (a +:+ b) = a +:+ b.
Proof.
  intros Hp Ha Hne. destruct a as [|c a]; [congruence |]. simpl in *.
  apply andb_true_iff in Ha as [Hc _].
  destruct (Ascii.eqb_spec c " "%char) as [->|]; [congruence | reflexivity].
Qed.

Lemma parse_param_ok p :
  plain_name (fst p) = true ->
  parse_param (" " +:+ render_param p) = Ok p.
Proof.
  intros Hn. pose proof (plain_name_chars _ Hn) as Hc.
  unfold parse_param. change (" " +:+ render_param p) with (String " "%char (render_param p)).
  cbn [skip_spaces]. change (Ascii.eqb " " " ") with true. cbv iota.
  destruct p as [n [l|]]; unfold render_param; cbn [fst snd] in *.
  - rewrite (skip_spaces_app is_ident_char) by
      (try reflexivity; auto using plain_name_nonempty).
    change (n +:+ " = " +:+ py_str (obj_of_literal l))
      with (n +:+ String " "%char ("= " +:+ py_str (obj_of_literal l))).
    rewrite span_app by (auto; reflexivity).
    rewrite Hn, orb_true_r. simpl negb. cbv iota.
    change (skip_spaces (String " " ("= " +:+ py_str (obj_of_literal l))))
      with (String "="%char (String " "%char (py_str (obj_of_literal l)))).
    cbv iota. change (Ascii.eqb "=" "=") with true. cbv iota.
    change (skip_spaces (String " " (py_str (obj_of_literal l))))
      with (skip_spaces (py_str (obj_of_literal l))).
    assert (Hl : literal_of (obj_of_literal l) = Some l) by now destruct l.
    rewrite (skip_spaces_chars lit_char) by
      (try reflexivity; apply (literal_text_chars _ _ Hl)).
    now rewrite (eval_default_literal _ _ Hl).
  - rewrite (skip_spaces_chars is_ident_char) by (try reflexivity; assumption).
    rewrite span_all by assumption.
    rewrite Hn, orb_true_r. reflexivity.
Qed.

Lemma split_join_comma l :
  Forall (fun x => all_chars (other_than ","%char) x = true) l ->
  split_char ","%char (" " +:+ join ", " l)
  = match l with [] => [" "] | _ => map (fun x => " " +:+ x) l end.
Proof.
  induction 1 as [|x l Hx Hl IH]; [reflexivity |].
  destruct l as [|y l].
  - simpl join. simpl map. apply split_char_none.
    simpl. now rewrite Hx.
  - change (join ", " (x :: y :: l)) with (x +:+ ", " +:+ join ", " (y :: l)).
    replace (" " +:+ x +:+ ", " +:+ join ", " (y :: l))
      with ((" " +:+ x) +:+ String ","%char (" " +:+ join ", " (y :: l))).
    + rewrite split_char_app by (simpl; now rewrite Hx).
      rewrite IH. reflexivity.
    + now rewrite append_assoc.
Qed.

Lemma drop_trailing_blank_keep l :
  Forall (fun x => skip_spaces x <> "") l -> drop_trailing_blank l = l.
Proof.
  induction 1 as [|x l Hx Hl IH]; [reflexivity |].
  simpl. destruct l as [|y l].
  - destruct (String.eqb_spec (skip_spaces x) ""); [contradiction | reflexivity].
  - now rewrite IH.
Qed.

Lemma render_param_skip p :
  plain_name (fst p) = true -> skip_spaces (" " +:+ render_param p) <> "".
Proof.
  intros Hn. change (" " +:+ render_param p) with (String " "%char ("" +:+ render_param p)).
  cbn [skip_spaces]. change (Ascii.eqb " " " ") with true. cbv iota.
  simpl append.
  destruct p as [n [l|]]; unfold render_param; cbn [fst snd] in *.
  - rewrite (skip_spaces_app is_ident_char) by
      (try reflexivity; auto using plain_name_nonempty, plain_name_chars).
    destruct n; [discriminate | discriminate].
  - rewrite (skip_spaces_chars is_ident_char) by
      (try reflexivity; auto using plain_name_chars).
    now apply plain_name_nonempty.
Qed.

Lemma no_comma_param x : param_char x = true -> other_than ","%char x = true.
Proof. now apply param_char_other. Qed.

Lemma param_char_sig x : param_char x = true -> sig_char x = true.
Proof. intros H. unfold sig_char. now rewrite H. Qed.

Lemma sig_char_other c x :
  sig_char c = false -> sig_char x = true -> other_than c x = true.
Proof.
  intros Hc Hx. unfold other_than.
  destruct (Ascii.eqb_spec x c) as [->|]; [congruence | reflexivity].
Qed.

Lemma no_paren_sig x : sig_char x = true -> other_than ")"%char x = true.
Proof. now apply sig_char_other. Qed.

Lemma no_newline_sig x : sig_char x = true -> other_than (ascii_of_nat 10) x = true.
Proof. now apply sig_char_other. Qed.

Lemma join_sig_chars ps :
  Forall (fun p => plain_name (fst p) = true) ps ->
  all_chars sig_char (join ", " (map render_param ps)) = true.
Proof.
  intros H. apply join_chars; [reflexivity |].
  apply List.Forall_map. eapply List.Forall_impl; [|exact H].
  intros p Hp. apply (all_chars_impl _ _ _ param_char_sig).
  now apply render_param_chars.
Qed.

Lemma Forall_render_chars ps :
  Forall (fun p => plain_name (fst p) = true) ps ->
  Forall (fun x => all_chars param_char x = true) (map render_param ps).
Proof.
  intros H. apply List.Forall_map. eapply List.Forall_impl; [|exact H].
  intros p Hp. now apply render_param_chars.
Qed.

(** The parameters of a header, for the parameter list [ps]. *)
Lemma parse_header_ok ps :
  Forall (fun p => plain_name (fst p) = true) ps ->
  no_dup_names ("self" :: map fst ps) = true ->
  defaults_last ps = true ->
  parse_header ("def __init__ (self, " +:+ join ", " (map render_param ps) +:+ "):")
  = Ok ("__init__", ps).
Proof.
  intros Hps Hnd Hdl.
  pose proof (Forall_render_chars _ Hps) as Hch.
  set (J := join ", " (map render_param ps)).
  assert (HJ : all_chars sig_char J = true) by now apply join_sig_chars.
  unfold parse_header.
  change ("def __init__ (self, " +:+ J +:+ "):")
    with ("def " +:+ "__init__" +:+ String " "%char ("(self, " +:+ J +:+ "):")).
  change (strip_prefix "def " ("def " +:+ "__init__" +:+ String " "%char ("(self, " +:+ J +:+ "):")))
    with (Some ("__init__" +:+ String " "%char ("(self, " +:+ J +:+ "):"))).
  cbv iota.
  rewrite (skip_spaces_app is_ident_char) by (reflexivity || discriminate).
  rewrite span_app by reflexivity.
  change (skip_spaces (String " " ("(self, " +:+ J +:+ "):")))
    with (String "("%char ("self, " +:+ J +:+ "):")).
  cbv iota.
  change (negb (Ascii.eqb "(" "(" && plain_name "__init__")) with false. cbv iota.
  replace ("self, " +:+ J +:+ "):") with (("self, " +:+ J) +:+ String ")"%char ":")
    by now rewrite append_assoc.
  rewrite break_at_app.
  2:{ rewrite all_chars_app.
      rewrite (all_chars_impl _ _ J no_paren_sig HJ). reflexivity. }
  change ("self, " +:+ J) with ("self" +:+ String ","%char (" " +:+ J)).
  rewrite split_char_app by reflexivity.
  unfold J. rewrite split_join_comma.
  2:{ eapply List.Forall_impl; [|exact Hch].
      intros x Hx. apply (all_chars_impl _ _ x no_comma_param Hx). }
  change (negb (String.eqb (skip_spaces "self") "self")) with false. cbv iota.
  assert (Hpieces :
    drop_trailing_blank
      (match map render_param ps with
       | [] => [" "]
       | _ => map (fun x => " " +:+ x) (map render_param ps)
       end) = map (fun p => " " +:+ render_param p) ps).
  { destruct ps as [|p ps']; [reflexivity |].
    change (map render_param (p :: ps')) with (render_param p :: map render_param ps').
    cbv iota. rewrite <- map_cons, map_map.
    apply drop_trailing_blank_keep. apply List.Forall_map.
    eapply List.Forall_impl; [|exact Hps]. intros q Hq. now apply render_param_skip. }
  rewrite Hpieces.
  rewrite (rmap_map parse_param (fun p => " " +:+ render_param p) (fun p => p)).
  2:{ intros p Hp. apply parse_param_ok.
      rewrite List.Forall_forall in Hps. now apply Hps. }
  rewrite map_id. cbn [rbind]. rewrite Hnd, Hdl. reflexivity.
Qed.

(** ** Reading a generated body *)

Lemma no_quote_ident x : is_ident_char x = true -> other_than (ascii_of_nat 34) x = true.
Proof. now apply ident_char_other. Qed.

Lemma no_newline_ident x : is_ident_char x = true -> other_than (ascii_of_nat 10) x = true.
Proof. now apply ident_char_other. Qed.

Lemma parse_stmt_line f :
  plain_name f = true ->
  parse_stmt (TAB +:+ instance_attr_template f f) = Ok (Some (SObjectSetattr f f)).
Proof.
  intros Hf. pose proof (plain_name_chars _ Hf) as Hc.
  unfold parse_stmt, instance_attr_template.
  change (String.eqb (TAB +:+ "object.__setattr__(self, " +:+ DQ +:+ f +:+ DQ +:+ ", " +:+ f +:+ ")") "")
    with false. cbv iota.
  change (strip_prefix TAB (TAB +:+ "object.__setattr__(self, " +:+ DQ +:+ f +:+ DQ +:+ ", " +:+ f +:+ ")"))
    with (Some ("object.__setattr__(self, " +:+ DQ +:+ f +:+ DQ +:+ ", " +:+ f +:+ ")")).
  cbv iota.
  change (String.eqb ("object.__setattr__(self, " +:+ DQ +:+ f +:+ DQ +:+ ", " +:+ f +:+ ")")
                     "self.__post_init__()") with false. cbv iota.
  change (strip_prefix ("object.__setattr__(self, " +:+ DQ)
            ("object.__setattr__(self, " +:+ DQ +:+ f +:+ DQ +:+ ", " +:+ f +:+ ")"))
    with (Some (f +:+ DQ +:+ ", " +:+ f +:+ ")")).
  cbv iota.
  change (f +:+ DQ +:+ ", " +:+ f +:+ ")")
    with (f +:+ String (ascii_of_nat 34) (", " +:+ f +:+ ")")).
  rewrite break_at_app by apply (all_chars_impl _ _ f no_quote_ident Hc).
  change (strip_prefix ", " (", " +:+ f +:+ ")")) with (Some (f +:+ ")")).
  cbv iota.
  change (f +:+ ")") with (f +:+ String ")"%char "").
  rewrite span_app by (auto; reflexivity).
  rewrite Hc, Hf. reflexivity.
Qed.

Lemma body_line_app f rest :
  body_line f +:+ rest
  = (TAB +:+ instance_attr_template f f) +:+ String (ascii_of_nat 10) rest.
Proof. unfold body_line, NL. now rewrite !append_assoc. Qed.

Lemma split_body_lines names tail :
  Forall (fun f => plain_name f = true) names ->
  all_chars (other_than (ascii_of_nat 10)) tail = true ->
  split_char (ascii_of_nat 10) (body_lines names +:+ tail)
  = map (fun f => TAB +:+ instance_attr_template f f) names ++ [tail].
Proof.
  intros Hn Ht. induction Hn as [|f names Hf Hn IH].
  - now apply split_char_none.
  - change (body_lines (f :: names)) with (body_line f +:+ body_lines names).
    rewrite map_cons, <- app_comm_cons.
    rewrite append_assoc, body_line_app.
    rewrite split_char_app; [now rewrite IH |].
    pose proof (all_chars_impl _ _ f no_newline_ident (plain_name_chars _ Hf)) as Hc.
    unfold instance_attr_template. rewrite !all_chars_app, !Hc. reflexivity.
Qed.

Lemma keep_some_app {A} (l1 l2 : list (option A)) :
  keep_some (l1 ++ l2) = keep_some l1 ++ keep_some l2.
Proof.
  induction l1 as [|[x|] l1 IH]; simpl; [reflexivity | now rewrite IH | exact IH].
Qed.

Lemma keep_some_map_Some {A B} (g : A -> B) (l : list A) :
  keep_some (map (fun x => Some (g x)) l) = map g l.
Proof. induction l as [|x l IH]; simpl; [reflexivity | now rewrite IH]. Qed.

Lemma parse_body_ok names b :
  Forall (fun f => plain_name f = true) names ->
  parse_body (body_lines names +:+ hook_line b) = Ok (init_stmts names b).
Proof.
  intros Hn. unfold parse_body.
  rewrite split_body_lines by (try assumption; now destruct b).
  rewrite (rmap_app parse_stmt _ _
             (map (fun f => Some (SObjectSetattr f f)) names)
             [if b then Some SPostInit else None]).
  - cbn [rbind]. rewrite keep_some_app, keep_some_map_Some.
    unfold init_stmts. now destruct b.
  - apply rmap_map. intros f Hf. apply parse_stmt_line.
    rewrite List.Forall_forall in Hn. now apply Hn.
  - now destruct b.
Qed.

(** What [exec] makes of the text of a generated [__init__]. *)
Lemma py_exec_init ps names b :
  Forall (fun p => plain_name (fst p) = true) ps ->
  no_dup_names ("self" :: map fst ps) = true ->
  defaults_last ps = true ->
  Forall (fun f => plain_name f = true) names ->
  (forall f, In f names -> In f (map fst ps)) ->
  py_exec (("def __init__ (self, " +:+ join ", " (map render_param ps) +:+ "):")
           +:+ NL +:+ body_lines names +:+ hook_line b)
  = match init_stmts names b with
    | [] => Raise SyntaxError
    | _ => Ok [("__init__", OFunc (FCompiled "__init__" ps (init_stmts names b)))]
    end.
Proof.
  intros Hps Hnd Hdl Hn Hin.
  unfold py_exec. unfold NL.
  replace (("def __init__ (self, " +:+ join ", " (map render_param ps) +:+ "):")
           +:+ String (ascii_of_nat 10) "" +:+ body_lines names +:+ hook_line b)
    with (("def __init__ (self, " +:+ join ", " (map render_param ps) +:+ "):")
          +:+ String (ascii_of_nat 10) (body_lines names +:+ hook_line b))
    by reflexivity.
  rewrite break_at_app.
  2:{ rewrite !all_chars_app.
      rewrite (all_chars_impl _ _ _ no_newline_sig (join_sig_chars _ Hps)).
      reflexivity. }
  rewrite parse_header_ok by assumption. cbn [rbind].
  rewrite parse_body_ok by assumption. cbn [rbind].
  destruct (init_stmts names b) as [|s0 sts] eqn:E; [reflexivity |].
  rewrite <- E.
  assert (Hreads : forallb (stmt_reads ps) (init_stmts names b) = true).
  { unfold init_stmts. rewrite forallb_app. apply andb_true_iff. split.
    - apply forallb_forall. intros s Hs. apply in_map_iff in Hs as (f & <- & Hf).
      simpl. apply existsb_exists. exists f. split; [now apply Hin |].
      apply String.eqb_refl.
    - now destruct b. }
  now rewrite Hreads.
Qed.

(** ** The signature *)

Lemma signature_fold items av :
  Forall (fun item => entry_default (snd item) <> None) items ->
  rfold (fun (av : args_value) (item : string * pyobj) =>
           let (arg_name, arg_value) := item in
           (default_value <- subscript arg_value "default_value" ;;
            if py_eq default_value (OStr "_NotDefaultValue")
            then Ok {| with_default_value := with_default_value av;
                       no_default_value := no_default_value av ++ [arg_name] |}
            else Ok {| with_default_value :=
                         with_default_value av
                         ++ [arg_name +:+ " = " +:+ py_str default_value];
                       no_default_value := no_default_value av |})%res)
        items av
  = Ok {| with_default_value :=
            with_default_value av ++ map render_default (List.filter is_defaulted items);
          no_default_value :=
            no_default_value av ++ map fst (List.filter is_required items) |}.
Proof.
  intros H. revert av. induction H as [|[n e] items He Hitems IH]; intros av.
  - simpl. rewrite !app_nil_r. now destruct av.
  - cbn [rfold]. unfold is_required, is_defaulted, render_default in *.
    cbn [fst snd List.filter] in *.
    destruct e as [| | | | |d| |]; simpl in He; try congruence.
    cbn [subscript entry_default].
    destruct (dict_get "default_value" d) as [v|] eqn:Ev; [|congruence].
    cbn [rbind].
    destruct (py_eq v (OStr "_NotDefaultValue")) eqn:Eq; cbn [rbind negb].
    + rewrite IH. cbn [with_default_value no_default_value map fst].
      now rewrite <- app_assoc.
    + rewrite IH. cbn [with_default_value no_default_value map fst snd].
      unfold entry_default. rewrite Ev. now rewrite <- app_assoc.
Qed.

(** The signature lists the names of the entries without default, in
    order, then the entries with a default, in order. *)
Lemma create_func_signature_partition func_name fields :
  Forall (fun item => entry_default (snd item) <> None) fields ->
  _create_func_signature func_name (ODict fields)
  = Ok ("def " +:+ func_name +:+ " (self, "
        +:+ join ", " (map fst (List.filter is_required fields)
                       ++ map render_default (List.filter is_defaulted fields))
        +:+ "):").
Proof.
  intros H. unfold _create_func_signature. cbn [py_items rbind].
  rewrite (signature_fold _ _ H). reflexivity.
Qed.

(** ** Running the decorator in the store *)

Lemma with_dict_same c : with_dict c (cls_dict c) = c.
Proof. now destruct c. Qed.

Lemma cls_dict_with_dict c d : cls_dict (with_dict c d) = d.
Proof. reflexivity. Qed.

Lemma with_dict_with c d d' : with_dict (with_dict c d) d' = with_dict c d'.
Proof. reflexivity. Qed.

Lemma annotations_run cls c (h : heap) :
  annotations cls (<[cls := c]> h) = (Ok (cls_annotations c), <[cls := c]> h).
Proof. unfold annotations. now rewrite lookup_insert_eq. Qed.

Lemma getattr_cls_run cls c (h : heap) name default :
  getattr_cls cls name default (<[cls := c]> h)
  = (match dict_get name (cls_dict c) with
     | Some v => Ok v
     | None => if builtin_attr name then Raise Unmodelled
               else match default with Some d => Ok d | None => Raise AttributeError end
     end, <[cls := c]> h).
Proof.
  unfold getattr_cls. rewrite lookup_insert_eq.
  destruct (dict_get name (cls_dict c)); [reflexivity |].
  destruct (builtin_attr name); [reflexivity |]. now destruct default.
Qed.

Lemma setattr_cls_run cls c (h : heap) name v :
  setattr_cls cls name v (<[cls := c]> h)
  = (Ok tt, <[cls := with_dict c (dict_set name v (cls_dict c))]> h).
Proof.
  unfold setattr_cls. rewrite lookup_insert_eq, insert_insert_eq. reflexivity.
Qed.

Lemma read_annotations_fold cls c (h : heap) items acc :
  mfold (fun (fields : pydict) (item : string * pyobj) =>
           let (name, type_hint) := item in
           (default_value <- getattr_cls cls name (Some (OStr "_NotDefaultValue")) ;;
            ret (dict_set name (_FieldsDict type_hint default_value) fields))%M)
        items acc (<[cls := c]> h)
  = (rfold (fun (fields : pydict) (item : string * pyobj) =>
              (default_value <- class_default (cls_dict c) (fst item) ;;
               Ok (dict_set (fst item) (_FieldsDict (snd item) default_value) fields))%res)
           items acc, <[cls := c]> h).
Proof.
  revert acc. induction items as [|[name hint] items IH]; intros acc; [reflexivity |].
  cbn [mfold rfold fst snd]. unfold bind at 1. unfold bind at 1.
  rewrite getattr_cls_run. unfold class_default.
  destruct (dict_get name (cls_dict c)) as [v|]; cbn [rbind].
  - unfold ret at 1. apply IH.
  - destruct (builtin_attr name); cbn [rbind]; [reflexivity |].
    unfold ret at 1. apply IH.
Qed.

Lemma read_annotations_run cls c (h : heap) :
  _read_annotations cls (<[cls := c]> h)
  = (match read_fields (cls_annotations c) (cls_dict c) with
     | Ok fields => Ok (ODict fields)
     | Raise e => Raise e
     end, <[cls := c]> h).
Proof.
  unfold _read_annotations. unfold bind at 1. rewrite annotations_run.
  unfold bind at 1. rewrite read_annotations_fold. fold (read_fields (cls_annotations c) (cls_dict c)).
  now destruct (read_fields (cls_annotations c) (cls_dict c)).
Qed.

Lemma create_and_add_init_run cls c (h : heap) fields post_init :
  dict_get "_fields" (cls_dict c) = Some fields ->
  _create_and_add_init post_init cls (<[cls := c]> h)
  = match make_init fields post_init with
    | Ok f => (Ok tt, <[cls := with_dict c (dict_set "__init__" f (cls_dict c))]> h)
    | Raise e => (Raise e, <[cls := c]> h)
    end.
Proof.
  intros Hf. unfold _create_and_add_init, bind, lift, make_init.
  rewrite getattr_cls_run, Hf.
  destruct (_create_func_signature "__init__" fields) as [sig|e]; cbn [rbind]; [|reflexivity].
  rewrite getattr_cls_run, Hf.
  destruct (py_iter fields) as [names|e]; cbn [rbind]; [|reflexivity].
  fold (init_body names post_init).
  unfold _create_fn.
  destruct (py_exec (sig +:+ init_body names post_init)) as [fn|e]; cbn [rbind]; [|reflexivity].
  destruct (dict_get "__init__" fn) as [f|]; [|reflexivity].
  apply setattr_cls_run.
Qed.

Lemma set_if_run cls c (h : heap) (b : bool) name v :
  (if b then setattr_cls cls name v else ret tt) (<[cls := c]> h)
  = (Ok tt, <[cls := with_dict c (set_if b name v (cls_dict c))]> h).
Proof.
  destruct b; simpl.
  - apply setattr_cls_run.
  - unfold ret. now rewrite with_dict_same.
Qed.

(** [_make_datacls] on a class of the store. *)
Lemma make_datacls_run cls c (h : heap) init repr eq frozen :
  h !! cls = Some c ->
  _make_datacls cls init repr eq frozen h
  = (match fst (augment init repr eq frozen (cls_annotations c) (cls_dict c)) with
     | Ok _ => Ok cls
     | Raise e => Raise e
     end,
     <[cls := with_dict c (snd (augment init repr eq frozen (cls_annotations c) (cls_dict c)))]> h).
Proof.
  intros Hc. rewrite <- (insert_id h cls c Hc) at 1.
  unfold _make_datacls, augment, _create_property.
  unfold bind at 1. rewrite read_annotations_run.
  destruct (read_fields (cls_annotations c) (cls_dict c)) as [fields|e]; cbn [fst snd].
  2:{ now rewrite with_dict_same. }
  unfold bind at 1. rewrite setattr_cls_run.
  unfold bind at 1. rewrite setattr_cls_run. rewrite with_dict_with, cls_dict_with_dict.
  set (d1 := dict_set "fields" (OProperty "_fields")
               (dict_set "_fields" (ODict fields) (cls_dict c))).
  set (c1 := with_dict c d1).
  assert (Hfields : dict_get "_fields" (cls_dict c1) = Some (ODict fields)).
  { unfold c1, d1. rewrite cls_dict_with_dict. rewrite dict_get_set_ne by discriminate.
    apply dict_get_set_eq. }
  unfold bind at 1.
  assert (Hinit :
    (if init
     then (post_init <- getattr_cls cls "__post_init__" (Some (OBool false)) ;;
           _create_and_add_init post_init cls)%M
     else ret tt) (<[cls := c1]> h)
    = match (if init
             then (f <- make_init (ODict fields) (post_init_of d1) ;;
                   Ok (dict_set "__init__" f d1))%res
             else Ok d1) with
      | Ok d2 => (Ok tt, <[cls := with_dict c d2]> h)
      | Raise e => (Raise e, <[cls := c1]> h)
      end).
  { destruct init.
    - unfold bind. rewrite getattr_cls_run.
      change (builtin_attr "__post_init__") with false. cbv iota.
      replace (match dict_get "__post_init__" (cls_dict c1) with
               | Some v => Ok v
               | None => Ok (OBool false)
               end) with (Ok (A := pyobj) (post_init_of d1))
        by (unfold post_init_of, c1; rewrite cls_dict_with_dict;
            now destruct (dict_get "__post_init__" d1)).
      rewrite (create_and_add_init_run _ _ _ _ _ Hfields).
      unfold c1. rewrite cls_dict_with_dict.
      destruct (make_init (ODict fields) (post_init_of d1)); reflexivity.
    - unfold ret. reflexivity. }
  rewrite Hinit. clear Hinit.
  destruct (if init
            then (f <- make_init (ODict fields) (post_init_of d1) ;;
                  Ok (dict_set "__init__" f d1))%res
            else Ok d1) as [d2|e]; cbn [fst snd]; [|reflexivity].
  unfold bind at 1. unfold _create_and_add_repr. rewrite (set_if_run cls _ h repr).
  unfold bind at 1. unfold _create_and_add_eq. rewrite (set_if_run cls _ h eq).
  unfold bind at 1. unfold _make_frozen. rewrite (set_if_run cls _ h frozen).
  reflexivity.
Qed.

(** ** Well-formed classes *)

Lemma no_dup_names_iff l : no_dup_names l = true <-> List.NoDup l.
Proof.
  induction l as [|x l IH]; simpl.
  - split; [constructor | reflexivity].
  - rewrite andb_true_iff, negb_true_iff, IH. split.
    + intros [Hx Hl]. constructor; [|assumption].
      intros Hin. assert (existsb (String.eqb x) l = true); [|congruence].
      apply existsb_exists. exists x. split; [assumption | apply String.eqb_refl].
    + intros H. inversion H as [|y l' Hx Hl]; subst. split; [|assumption].
      destruct (existsb (String.eqb x) l) eqn:E; [|reflexivity].
      apply existsb_exists in E as (y & Hy & Heq).
      apply String.eqb_eq in Heq. subst. contradiction.
Qed.

Lemma existsb_eqb_In x l : existsb (String.eqb x) l = true <-> In x l.
Proof.
  rewrite existsb_exists. split.
  - intros (y & Hy & Heq). apply String.eqb_eq in Heq. now subst.
  - intros H. exists x. split; [assumption | apply String.eqb_refl].
Qed.

Lemma field_ok_plain n : field_ok n = true -> plain_name n = true.
Proof. unfold field_ok. rewrite !andb_true_iff. tauto. Qed.

Lemma field_ok_not_builtin n : field_ok n = true -> builtin_attr n = false.
Proof.
  unfold field_ok, builtin_attr. rewrite !andb_true_iff, !negb_true_iff.
  intros [[_ Hd] Hn]. rewrite Hd. simpl.
  destruct (String.eqb_spec n "mro") as [->|]; [|reflexivity].
  discriminate.
Qed.



Lemma class_ok_fields c :
  class_ok c = true ->
  List.NoDup (dict_keys (cls_annotations c))
  /\ (forall n, In n (dict_keys (cls_annotations c)) ->
        field_ok n = true /\ default_ok (cls_dict c) n = true)
  /\ hook_ok (cls_dict c) = true.
Proof.
  unfold class_ok. rewrite !andb_true_iff, no_dup_names_iff, forallb_forall.
  intros [[[Hnd Hf] Hh] _]. repeat split; try assumption.
  - now apply Hf in H as [? ?]%andb_true_iff.
  - now apply Hf in H as [? ?]%andb_true_iff.
Qed.


Lemma read_fields_fold d items acc :
  List.NoDup (map fst items) ->
  (forall n, In n (map fst items) -> builtin_attr n = false /\ ~ In n (dict_keys acc)) ->
  rfold (fun (fields : pydict) (item : string * pyobj) =>
           (default_value <- class_default d (fst item) ;;
            Ok (dict_set (fst item) (_FieldsDict (snd item) default_value) fields))%res)
        items acc
  = Ok (acc ++ map (fun item => (fst item,
                                 _FieldsDict (snd item) (declared_default d (fst item))))
                   items).
Proof.
  revert acc. induction items as [|[n hint] items IH]; intros acc Hnd Hfresh.
  - simpl. now rewrite app_nil_r.
  - cbn [rfold fst snd map] in *. inversion Hnd as [|? ? Hn Hnd']; subst.
    destruct (Hfresh n (or_introl eq_refl)) as [Hb Hacc].
    unfold class_default, declared_default. rewrite Hb.
    assert (Hcd : (match dict_get n d with Some v => Ok v | None => Ok (OStr "_NotDefaultValue") end)
                  = Ok (match dict_get n d with Some v => v | None => OStr "_NotDefaultValue" end))
      by now destruct (dict_get n d).
    rewrite Hcd. cbn [rbind].
    rewrite dict_set_fresh by now apply dict_get_None.
    rewrite IH.
    + now rewrite <- app_assoc.
    + assumption.
    + intros m Hm. destruct (Hfresh m (or_intror Hm)) as [Hbm Hm'].
      split; [assumption |]. unfold dict_keys. rewrite map_app, in_app_iff.
      intros [Hin|[<-|[]]]; [now apply Hm' | contradiction].
Qed.

Lemma read_fields_registry c :
  List.NoDup (dict_keys (cls_annotations c)) ->
  (forall n, In n (dict_keys (cls_annotations c)) -> builtin_attr n = false) ->
  read_fields (cls_annotations c) (cls_dict c) = Ok (registry c).
Proof.
  intros Hnd Hb.
  unfold read_fields. rewrite read_fields_fold; [reflexivity | assumption |].
  intros n Hn. split; [now apply Hb | tauto].
Qed.

Lemma read_fields_ok c :
  class_ok c = true -> read_fields (cls_annotations c) (cls_dict c) = Ok (registry c).
Proof.
  intros Hok. destruct (class_ok_fields _ Hok) as (Hnd & Hf & _).
  apply read_fields_registry; [assumption |].
  intros n Hn. apply field_ok_not_builtin. now apply Hf.
Qed.

Lemma registry_keys c : dict_keys (registry c) = dict_keys (cls_annotations c).
Proof. unfold registry, dict_keys. rewrite map_map. reflexivity. Qed.

(** ** The generated [__init__] of a well-formed class *)

Lemma partition_permutation {A} (p q : A -> bool) (l : list A) :
  (forall x, In x l -> q x = negb (p x)) ->
  Permutation (List.filter p l ++ List.filter q l) l.
Proof.
  induction l as [|x l IH]; intros H; [constructor |].
  cbn [List.filter]. rewrite (H x (or_introl eq_refl)).
  assert (IH' := IH (fun y Hy => H y (or_intror Hy))).
  destruct (p x); cbn [negb].
  - cbn [app]. now constructor.
  - symmetry. apply Permutation_cons_app. now symmetry.
Qed.

Lemma registry_item c item :
  In item (registry c) ->
  In (fst item) (dict_keys (cls_annotations c))
  /\ entry_default (snd item) = Some (declared_default (cls_dict c) (fst item)).
Proof.
  unfold registry. intros (a & <- & Ha)%in_map_iff. cbn [fst snd]. split.
  - unfold dict_keys. now apply in_map.
  - reflexivity.
Qed.

Lemma declared_default_cases c n :
  class_ok c = true -> In n (dict_keys (cls_annotations c)) ->
  (declared_default (cls_dict c) n = OStr "_NotDefaultValue"
   /\ dict_get n (cls_dict c) = None)
  \/ (exists l, literal_of (declared_default (cls_dict c) n) = Some l
                /\ dict_get n (cls_dict c) = Some (declared_default (cls_dict c) n)).
Proof.
  intros Hok Hn. destruct (class_ok_fields _ Hok) as (_ & Hf & _).
  destruct (Hf n Hn) as [_ Hd]. unfold default_ok, declared_default in *.
  destruct (dict_get n (cls_dict c)) as [v|]; [|now left].
  right. destruct (literal_of v) as [l|]; [eauto | discriminate].
Qed.

Lemma literal_not_sentinel v l :
  literal_of v = Some l -> py_eq v (OStr "_NotDefaultValue") = false.
Proof. destruct v; simpl; try discriminate; reflexivity. Qed.

Lemma registry_item_kind c item :
  class_ok c = true -> In item (registry c) ->
  is_defaulted item = negb (is_required item)
  /\ (is_required item = true -> param_of item = (fst item, None))
  /\ (is_required item = false ->
      exists l, param_of item = (fst item, Some l)
                /\ render_default item = render_param (fst item, Some l)).
Proof.
  intros Hok Hin. destruct (registry_item _ _ Hin) as [Hn He].
  unfold is_defaulted, is_required, param_of, render_default. rewrite He.
  split; [reflexivity |].
  destruct (declared_default_cases _ _ Hok Hn) as [[-> _]|(l & Hl & _)].
  - split; [reflexivity | discriminate].
  - rewrite (literal_not_sentinel _ _ Hl), Hl. split; [discriminate |].
    intros _. exists l. split; [reflexivity |].
    unfold render_param. cbn [fst snd]. now rewrite (obj_of_literal_of _ _ Hl).
Qed.

Lemma registry_entries c :
  Forall (fun item => entry_default (snd item) <> None) (registry c).
Proof.
  apply List.Forall_forall. intros item Hin.
  destruct (registry_item _ _ Hin) as [_ ->]. discriminate.
Qed.

Lemma params_render c :
  class_ok c = true ->
  map fst (List.filter is_required (registry c))
  ++ map render_default (List.filter is_defaulted (registry c))
  = map render_param (params_of (registry c)).
Proof.
  intros Hok. unfold params_of. rewrite map_app, !map_map. f_equal.
  - apply map_ext_in. intros item [Hin Hreq]%filter_In.
    destruct (registry_item_kind _ _ Hok Hin) as (_ & H & _).
    now rewrite (H Hreq).
  - apply map_ext_in. intros item [Hin Hdef]%filter_In.
    destruct (registry_item_kind _ _ Hok Hin) as (Hneg & _ & H).
    rewrite Hneg in Hdef. apply negb_true_iff in Hdef.
    destruct (H Hdef) as (l & -> & ->). reflexivity.
Qed.

Lemma params_names c :
  class_ok c = true ->
  Permutation (map fst (params_of (registry c))) (dict_keys (cls_annotations c)).
Proof.
  intros Hok. rewrite <- registry_keys. unfold params_of, dict_keys.
  rewrite map_app, !map_map.
  assert (Hfst : forall l, map (fun x => fst (param_of x)) l = map fst l).
  { intros l. apply map_ext. intros item. unfold param_of.
    now destruct (entry_default (snd item)). }
  rewrite !Hfst, <- map_app. apply Permutation_map.
  apply partition_permutation. intros item Hin.
  now destruct (registry_item_kind _ _ Hok Hin) as [-> _].
Qed.

Lemma params_defaults_last c :
  class_ok c = true -> defaults_last (params_of (registry c)) = true.
Proof.
  intros Hok. unfold params_of.
  assert (Hreq : forall l, (forall x, In x l -> In x (registry c) /\ is_required x = true) ->
                           forall rest, defaults_last (map param_of l ++ rest) = defaults_last rest).
  { induction l as [|x l IH]; intros Hl rest; [reflexivity |].
    cbn [map app defaults_last].
    destruct (Hl x (or_introl eq_refl)) as [Hin Hr].
    destruct (registry_item_kind _ _ Hok Hin) as (_ & H & _).
    rewrite (H Hr). unfold has_default. cbn [snd].
    apply IH. intros y Hy. apply Hl. now right. }
  rewrite Hreq by (intros x Hx; now apply filter_In in Hx).
  assert (Hdef : forall l, (forall x, In x l -> In x (registry c) /\ is_required x = false) ->
                           forallb has_default (map param_of l) = true).
  { induction l as [|x l IH]; intros Hl; [reflexivity |].
    cbn [map forallb].
    destruct (Hl x (or_introl eq_refl)) as [Hin Hr].
    destruct (registry_item_kind _ _ Hok Hin) as (_ & _ & H).
    destruct (H Hr) as (lit & -> & _). unfold has_default at 1. cbn [snd andb].
    apply IH. intros y Hy. apply Hl. now right. }
  assert (Hall : forallb has_default (map param_of (List.filter is_defaulted (registry c))) = true).
  { apply Hdef. intros x [Hin Hd]%filter_In. split; [assumption |].
    destruct (registry_item_kind _ _ Hok Hin) as (Hneg & _ & _).
    rewrite Hneg in Hd. now apply negb_true_iff in Hd. }
  destruct (map param_of (List.filter is_defaulted (registry c))) as [|p ps]; [reflexivity |].
  cbn [defaults_last forallb] in *. apply andb_true_iff in Hall as [Hp Hps].
  now rewrite Hp.
Qed.

Lemma init_body_lines names post_init :
  init_body names post_init
  = NL +:+ body_lines names +:+ hook_line (truthy post_init).
Proof.
  unfold init_body.
  assert (Hfold : forall acc,
    fold_left (fun body field =>
                 body +:+ TAB +:+ instance_attr_template field field +:+ NL) names acc
    = acc +:+ body_lines names).
  { induction names as [|f names IH]; intros acc.
    - simpl. now rewrite append_nil_r.
    - cbn [fold_left]. rewrite IH.
      change (body_lines (f :: names)) with (body_line f +:+ body_lines names).
      unfold body_line. now rewrite !append_assoc. }
  rewrite Hfold. unfold hook_line.
  destruct (truthy post_init).
  - now rewrite !append_assoc.
  - now rewrite append_nil_r.
Qed.

(** The function object [exec] yields for a well-formed class. *)
Lemma make_init_ok c post_init :
  class_ok c = true ->
  make_init (ODict (registry c)) post_init
  = match init_stmts (dict_keys (cls_annotations c)) (truthy post_init) with
    | [] => Raise SyntaxError
    | sts => Ok (OFunc (FCompiled "__init__" (params_of (registry c)) sts))
    end.
Proof.
  intros Hok. destruct (class_ok_fields _ Hok) as (Hnd & Hf & _).
  unfold make_init.
  rewrite (create_func_signature_partition _ _ (registry_entries c)).
  cbn [rbind py_iter]. rewrite registry_keys.
  rewrite (params_render _ Hok), init_body_lines.
  unfold _create_fn.
  pose proof (params_names _ Hok) as Hperm.
  change ("def " +:+ "__init__" +:+ " (self, "
          +:+ join ", " (map render_param (params_of (registry c))) +:+ "):")
    with ("def __init__ (self, "
          +:+ join ", " (map render_param (params_of (registry c))) +:+ "):").
  rewrite py_exec_init.
  - destruct (init_stmts (dict_keys (cls_annotations c)) (truthy post_init));
      [reflexivity |].
    cbn [rbind dict_get]. now rewrite String.eqb_refl.
  - apply List.Forall_forall. intros p Hp. apply field_ok_plain, Hf.
    apply (Permutation_in _ Hperm). now apply in_map.
  - apply no_dup_names_iff. constructor.
    + intros Hin. apply (Permutation_in _ Hperm) in Hin.
      apply Hf in Hin as [Hin _]. discriminate.
    + apply (Permutation_NoDup (Permutation_sym Hperm) Hnd).
  - now apply params_defaults_last.
  - apply List.Forall_forall. intros n Hn. now apply field_ok_plain, Hf.
  - intros n Hn. apply (Permutation_in _ (Permutation_sym Hperm) Hn).
Qed.

(** ** The namespace after the decorator *)

Lemma dict_get_set_if_ne k k' b v d :
  k <> k' -> dict_get k (set_if b k' v d) = dict_get k d.
Proof. intros H. destruct b; simpl; [now apply dict_get_set_ne | reflexivity]. Qed.

Lemma dict_get_set_if_eq k v d : dict_get k (set_if true k v d) = Some v.
Proof. apply dict_get_set_eq. Qed.

Lemma truthy_post_init c :
  class_ok c = true ->
  truthy (post_init_of
            (dict_set "fields" (OProperty "_fields")
               (dict_set "_fields" (ODict (registry c)) (cls_dict c))))
  = has_hook c.
Proof.
  intros Hok. destruct (class_ok_fields _ Hok) as (_ & _ & Hh).
  unfold post_init_of, has_hook, hook_ok in *.
  rewrite !dict_get_set_ne by discriminate.
  destruct (dict_get "__post_init__" (cls_dict c)) as [v|]; [|reflexivity].
  destruct v as [| | | | | | |[]]; try discriminate; reflexivity.
Qed.


(** Without a field and without hook the text has no statement. *)
Lemma augment_empty c repr eq frozen :
  class_ok c = true ->
  init_stmts (dict_keys (cls_annotations c)) (has_hook c) = [] ->
  fst (augment true repr eq frozen (cls_annotations c) (cls_dict c)) = Raise SyntaxError.
Proof.
  intros Hok He. unfold augment.
  rewrite (read_fields_ok _ Hok), (make_init_ok _ _ Hok), (truthy_post_init _ Hok), He.
  reflexivity.
Qed.








(** ** Calling a decorated class *)

Lemma dict_get_map_fst {A} (g : A -> pyobj) (key : A -> string) (l : list A) (a : A) :
  List.NoDup (map key l) -> In a l ->
  dict_get (key a) (map (fun x => (key x, g x)) l) = Some (g a).
Proof.
  induction l as [|x l IH]; intros Hnd Hin; [destruct Hin |].
  cbn [map dict_get] in *. inversion Hnd as [|? ? Hx Hnd']; subst.
  destruct Hin as [->|Hin].
  - now rewrite String.eqb_refl.
  - destruct (String.eqb_spec (key a) (key x)) as [E|_]; [|now apply IH].
    exfalso. apply Hx. rewrite <- E. now apply in_map.
Qed.


Section ConstructionProofs.

Variable user_call : string -> instance -> result instance.



Lemma plain_body_ext d d' :
  (forall k, In k special_names -> dict_get k d' = dict_get k d) ->
  plain_body d' = plain_body d.
Proof.
  intros H. unfold plain_body, special_names. cbn [forallb].
  now rewrite !H by (unfold special_names; simpl; tauto).
Qed.

Lemma special_not_installed k :
  In k special_names ->
  ~ In k ["_fields"; "fields"; "__init__"; "__repr__"; "__eq__"; "__setattr__"].
Proof.
  unfold special_names. simpl. intros Hk Hin.
  repeat (destruct Hk as [<-|Hk];
          [repeat (destruct Hin as [Hin|Hin]; [discriminate |]); contradiction |]).
  contradiction.
Qed.

Lemma final_dict_plain c init repr eq frozen :
  plain_body (final_dict init repr eq frozen c) = plain_body (cls_dict c).
Proof.
  apply plain_body_ext. intros k Hk. pose proof (special_not_installed k Hk) as Hn.
  simpl in Hn. unfold final_dict.
  rewrite !dict_get_set_if_ne by (intros ->; tauto).
  now rewrite !dict_get_set_ne by (intros ->; tauto).
Qed.


Lemma getattr_inst_plain fuel (h : heap) self c' name v :
  h !! inst_cls self = Some c' ->
  plain_body (cls_dict c') = true ->
  dict_get name (cls_dict c') = Some v ->
  match v with OProperty _ => False | _ => True end ->
  getattr_inst fuel h self name
  = match dict_get name (inst_dict self) with
    | Some w => Ok w
    | None => match v with OFunc _ => Raise Unmodelled | _ => Ok v end
    end.
Proof.
  intros Hc Hpl Hv Hp.
  destruct fuel; simpl; rewrite Hc, Hpl, Hv; cbn [negb]; destruct v; try destruct Hp;
    reflexivity.
Qed.

Lemma getattr_inst_own fuel (h : heap) self c' name :
  h !! inst_cls self = Some c' ->
  plain_body (cls_dict c') = true ->
  dict_get name (cls_dict c') = None ->
  builtin_attr name = false ->
  getattr_inst fuel h self name
  = match dict_get name (inst_dict self) with
    | Some w => Ok w
    | None => Raise AttributeError
    end.
Proof.
  intros Hc Hpl Hv Hb. destruct fuel; simpl; now rewrite Hc, Hpl, Hv, Hb.
Qed.







End ConstructionProofs.

(** ** Outcomes of the decorator on any class *)

Lemma make_datacls_dangling cls (h : heap) init repr eq frozen :
  h !! cls = None ->
  _make_datacls cls init repr eq frozen h = (Raise Unmodelled, h).
Proof.
  intros Hc. unfold _make_datacls, _read_annotations.
  unfold bind at 1. unfold bind at 1. unfold annotations. now rewrite Hc.
Qed.

(** A successful run leaves the namespace [augment] computes. *)
Lemma make_datacls_success cls (h h' : heap) init repr eq frozen r :
  _make_datacls cls init repr eq frozen h = (Ok r, h') ->
  exists c,
    h !! cls = Some c /\ r = cls
    /\ augment init repr eq frozen (cls_annotations c) (cls_dict c)
       = (Ok tt, snd (augment init repr eq frozen (cls_annotations c) (cls_dict c)))
    /\ h' = <[cls := with_dict c (snd (augment init repr eq frozen
                                         (cls_annotations c) (cls_dict c)))]> h.
Proof.
  intros Hrun. destruct (h !! cls) as [c|] eqn:Hc.
  - rewrite (make_datacls_run _ _ _ _ _ _ _ Hc) in Hrun.
    exists c. split; [reflexivity |].
    destruct (augment init repr eq frozen (cls_annotations c) (cls_dict c)) as [[[]|e] d'];
      cbn [fst snd] in *; [|discriminate].
    injection Hrun as Hr Hh. subst. auto.
  - rewrite (make_datacls_dangling _ _ _ _ _ _ Hc) in Hrun. discriminate.
Qed.

Lemma augment_success_dict init repr eq frozen ann d d' :
  augment init repr eq frozen ann d = (Ok tt, d') ->
  exists fields d2,
    read_fields ann d = Ok fields
    /\ (if init
        then exists f, make_init (ODict fields)
                         (post_init_of (dict_set "fields" (OProperty "_fields")
                                          (dict_set "_fields" (ODict fields) d))) = Ok f
                       /\ d2 = dict_set "__init__" f
                                 (dict_set "fields" (OProperty "_fields")
                                    (dict_set "_fields" (ODict fields) d))
        else d2 = dict_set "fields" (OProperty "_fields")
                    (dict_set "_fields" (ODict fields) d))
    /\ d' = set_if frozen "__setattr__" (OFunc F_setattr)
              (set_if eq "__eq__" (OFunc F_eq)
                 (set_if repr "__repr__" (OFunc F_repr) d2)).
Proof.
  unfold augment. destruct (read_fields ann d) as [fields|e]; [|discriminate].
  destruct init.
  - destruct (make_init _ _) as [f|e] eqn:Ef; cbn [rbind]; [|discriminate].
    intros [= <-]. exists fields. eexists. split; [reflexivity |].
    split; [|reflexivity]. exists f. split; [assumption | reflexivity].
  - intros [= <-]. exists fields. eexists. split; [reflexivity |].
    split; reflexivity.
Qed.

Lemma make_datacls_frozen cls (h h' : heap) init repr eq r :
  _make_datacls cls init repr eq true h = (Ok r, h') ->
  exists c', h' !! cls = Some c'
             /\ dict_get "__setattr__" (cls_dict c') = Some (OFunc F_setattr).
Proof.
  intros Hrun. destruct (make_datacls_success _ _ _ _ _ _ _ _ Hrun) as (c & Hc & -> & Ha & ->).
  destruct (augment_success_dict _ _ _ _ _ _ _ Ha) as (fields & d2 & _ & _ & Hd').
  eexists. split; [apply lookup_insert_eq |].
  rewrite cls_dict_with_dict, Hd'. apply dict_get_set_if_eq.
Qed.

Lemma py_setattr_frozen (h : heap) self c' name value :
  h !! inst_cls self = Some c' ->
  dict_get "__setattr__" (cls_dict c') = Some (OFunc F_setattr) ->
  py_setattr h self name value = Raise FrozenError.
Proof. intros Hc Hs. unfold py_setattr. now rewrite Hc, Hs. Qed.

Lemma make_datacls_frame cls (h : heap) init repr eq frozen :
  (forall r, r <> cls -> snd (_make_datacls cls init repr eq frozen h) !! r = h !! r)
  /\ dom (snd (_make_datacls cls init repr eq frozen h)) = dom h
  /\ (forall r, fst (_make_datacls cls init repr eq frozen h) = Ok r -> r = cls).
Proof.
  destruct (h !! cls) as [c|] eqn:Hc.
  - rewrite (make_datacls_run _ _ _ _ _ _ _ Hc). cbn [fst snd]. repeat split.
    + intros r Hr. now rewrite lookup_insert_ne.
    + rewrite dom_insert_L. apply subseteq_union_1_L, singleton_subseteq_l.
      now apply elem_of_dom_2 in Hc.
    + intros r. destruct (fst (augment _ _ _ _ _ _)); [now intros [= <-] | discriminate].
  - rewrite (make_datacls_dangling _ _ _ _ _ _ Hc). cbn [fst snd].
    repeat split; try reflexivity. discriminate.
Qed.

(** ** Equality of dicts *)

Lemma dict_eqb_unfold d d' :
  dict_eqb d d'
  = (length d =? length d')%nat
    && forallb (fun kv : string * pyobj =>
                  match dict_get (fst kv) d' with
                  | Some v' => py_eq (snd kv) v'
                  | None => false
                  end) d.
Proof.
  unfold dict_eqb. cbn [py_eq]. f_equal.
  induction d as [|[k v] d IH]; [reflexivity |].
  cbn [forallb fst snd]. now rewrite IH.
Qed.

Lemma dict_get_In_pair k v (d : pydict) : dict_get k d = Some v -> In (k, v) d.
Proof.
  induction d as [|[k' v'] d IH]; simpl; [discriminate |].
  destruct (String.eqb_spec k k') as [->|_].
  - intros [= ->]. now left.
  - intros H. right. now apply IH.
Qed.

Lemma dict_get_NoDup k v (d : pydict) :
  List.NoDup (dict_keys d) -> In (k, v) d -> dict_get k d = Some v.
Proof.
  induction d as [|[k' v'] d IH]; simpl; [tauto |].
  intros Hnd. inversion Hnd as [|? ? Hk Hnd']; subst.
  intros [[= -> ->]|Hin].
  - now rewrite String.eqb_refl.
  - destruct (String.eqb_spec k k') as [->|_]; [|now apply IH].
    exfalso. apply Hk. change k' with (fst (k', v)). now apply in_map.
Qed.

Lemma dict_eqb_same_items d d' :
  List.NoDup (dict_keys d) -> List.NoDup (dict_keys d') ->
  dict_eqb d d' = true <-> same_items d d'.
Proof.
  intros Hnd Hnd'. rewrite dict_eqb_unfold, andb_true_iff, Nat.eqb_eq, forallb_forall.
  unfold same_items. split.
  - intros [Hlen Hall].
    assert (Hincl : incl (dict_keys d) (dict_keys d')).
    { intros k (kv & <- & Hkv)%in_map_iff. specialize (Hall kv Hkv).
      destruct (dict_get (fst kv) d') as [v'|] eqn:E; [|discriminate].
      now apply dict_get_Some_In in E. }
    split.
    + intros k. split; [apply Hincl |].
      apply (NoDup_length_incl Hnd); [|assumption].
      unfold dict_keys. rewrite !length_map. lia.
    + intros k v v' Hv Hv'. apply dict_get_In_pair in Hv.
      specialize (Hall _ Hv). cbn [fst snd] in Hall. now rewrite Hv' in Hall.
  - intros [Hkeys Hvals]. split.
    + assert (H1 : length (dict_keys d) <= length (dict_keys d')).
      { apply NoDup_incl_length; [assumption |]. intros k. apply Hkeys. }
      assert (H2 : length (dict_keys d') <= length (dict_keys d)).
      { apply NoDup_incl_length; [assumption |]. intros k. apply Hkeys. }
      unfold dict_keys in *. rewrite !length_map in *. lia.
    + intros [k v] Hkv. cbn [fst snd].
      assert (Hk : In k (dict_keys d')).
      { apply Hkeys. change k with (fst (k, v)). now apply in_map. }
      destruct (dict_get_In _ _ Hk) as [v' Hv']. rewrite Hv'.
      apply (Hvals k); [|assumption]. now apply dict_get_NoDup.
Qed.

Lemma same_items_permutation d1 d1' d2 d2' :
  List.NoDup (dict_keys d1) -> List.NoDup (dict_keys d2) ->
  Permutation d1 d1' -> Permutation d2 d2' ->
  same_items d1 d2 -> same_items d1' d2'.
Proof.
  intros Hnd1 Hnd2 Hp1 Hp2 [Hkeys Hvals].
  assert (Hget : forall (a b : pydict), List.NoDup (dict_keys a) -> Permutation a b ->
                   forall k v, dict_get k b = Some v -> dict_get k a = Some v).
  { intros a b Ha Hab k v Hb. apply dict_get_NoDup; [assumption |].
    apply (Permutation_in _ (Permutation_sym Hab)). now apply dict_get_In_pair. }
  assert (Hk : forall (a b : pydict), Permutation a b ->
                 forall k, In k (dict_keys a) <-> In k (dict_keys b)).
  { intros a b Hab k. unfold dict_keys.
    split; apply Permutation_in; [|symmetry]; now apply Permutation_map. }
  split.
  - intros k. rewrite <- (Hk _ _ Hp1 k), <- (Hk _ _ Hp2 k). apply Hkeys.
  - intros k v v' Hv Hv'. apply (Hvals k); eauto.
Qed.

(** The order of the keys plays no part in [==] on dicts. *)
Lemma dict_eqb_permutation d1 d1' d2 d2' :
  List.NoDup (dict_keys d1) -> List.NoDup (dict_keys d2) ->
  Permutation d1 d1' -> Permutation d2 d2' ->
  dict_eqb d1' d2' = dict_eqb d1 d2.
Proof.
  intros Hnd1 Hnd2 Hp1 Hp2.
  assert (Hnd1' : List.NoDup (dict_keys d1')).
  { apply (Permutation_NoDup (l := dict_keys d1)); [|assumption].
    now apply Permutation_map. }
  assert (Hnd2' : List.NoDup (dict_keys d2')).
  { apply (Permutation_NoDup (l := dict_keys d2)); [|assumption].
    now apply Permutation_map. }
  apply Bool.eq_iff_eq_true.
  rewrite !dict_eqb_same_items by assumption. split.
  - apply same_items_permutation; try assumption; now symmetry.
  - now apply same_items_permutation.
Qed.

Lemma asdict_fold_NoDup (h : heap) x names acc d :
  List.NoDup (dict_keys acc) ->
  rfold (fun (result : pydict) (field : string) =>
           (value <- py_getattr h x field ;; Ok (dict_set field value result))%res)
        names acc = Ok d ->
  List.NoDup (dict_keys d).
Proof.
  revert acc. induction names as [|n names IH]; intros acc Hacc; cbn [rfold].
  - now intros [= <-].
  - destruct (py_getattr h x n) as [v|e]; cbn [rbind]; [|discriminate].
    apply IH. now apply dict_keys_set_NoDup.
Qed.

Lemma asdict_NoDup (h : heap) x d : asdict h x = Ok d -> List.NoDup (dict_keys d).
Proof.
  unfold asdict.
  destruct (py_getattr h x "fields") as [f|e]; cbn [rbind]; [|discriminate].
  destruct (py_iter f) as [names|e]; cbn [rbind]; [|discriminate].
  apply asdict_fold_NoDup. constructor.
Qed.

(** [_eq] answers [True] exactly when both views exist and have the same
    items. *)
Lemma eq_true_iff (h : heap) a b :
  _eq h a b = Ok true
  <-> exists da db, asdict h a = Ok da /\ asdict h b = Ok db /\ same_items da db.
Proof.
  unfold _eq. split.
  - destruct (asdict h a) as [da|e] eqn:Ea; cbn [rbind]; [|discriminate].
    destruct (asdict h b) as [db|e] eqn:Eb; cbn [rbind]; [|discriminate].
    intros [= H]. exists da, db. split; [reflexivity |]. split; [reflexivity |].
    apply dict_eqb_same_items; eauto using asdict_NoDup.
  - intros (da & db & Ea & Eb & Hs). rewrite Ea, Eb. cbn [rbind]. f_equal.
    apply dict_eqb_same_items; eauto using asdict_NoDup.
Qed.

(** ** [asdict] on an instance that holds its fields *)

Lemma fields_ok_names c :
  fields_ok c = true ->
  List.NoDup (dict_keys (cls_annotations c))
  /\ forall n, In n (dict_keys (cls_annotations c)) ->
       builtin_attr n = false /\ n <> "_fields" /\ n <> "fields"
       /\ match dict_get n (cls_dict c) with Some (OProperty _) => False | _ => True end.
Proof.
  unfold fields_ok. rewrite !andb_true_iff, no_dup_names_iff, forallb_forall.
  intros [[Hnd Hf] _]. split; [assumption |]. intros n Hn.
  apply Hf in Hn. rewrite !andb_true_iff, !negb_true_iff in Hn.
  destruct Hn as [[Hb Hx] Hp]. split; [assumption |].
  split; [intros ->; discriminate |]. split; [intros ->; discriminate |].
  destruct (dict_get n (cls_dict c)) as [[]|]; try exact I. discriminate.
Qed.

Lemma fields_ok_plain c : fields_ok c = true -> plain_body (cls_dict c) = true.
Proof. unfold fields_ok. rewrite !andb_true_iff. tauto. Qed.

Lemma success_dict_get init repr eq frozen ann d d' fields k :
  augment init repr eq frozen ann d = (Ok tt, d') ->
  read_fields ann d = Ok fields ->
  ~ In k ["__init__"; "__repr__"; "__eq__"; "__setattr__"] ->
  dict_get k d'
  = dict_get k (dict_set "fields" (OProperty "_fields")
                  (dict_set "_fields" (ODict fields) d)).
Proof.
  intros Ha Hr Hk. simpl in Hk.
  destruct (augment_success_dict _ _ _ _ _ _ _ Ha) as (fields' & d2 & Hr' & Hd2 & ->).
  rewrite Hr in Hr'. injection Hr' as <-.
  rewrite !dict_get_set_if_ne by (intros ->; tauto).
  destruct init.
  - destruct Hd2 as (f & _ & ->). apply dict_get_set_ne. intros ->. tauto.
  - now subst d2.
Qed.

Lemma not_builtin_fresh n :
  builtin_attr n = false ->
  ~ In n ["__init__"; "__repr__"; "__eq__"; "__setattr__"].
Proof.
  intros Hb Hin. simpl in Hin.
  repeat (destruct Hin as [<-|Hin]; [discriminate |]). contradiction.
Qed.

Lemma asdict_fold_values (h : heap) x value names acc :
  List.NoDup names ->
  (forall n, In n names -> py_getattr h x n = Ok (value n) /\ ~ In n (dict_keys acc)) ->
  rfold (fun (result : pydict) (field : string) =>
           (v <- py_getattr h x field ;; Ok (dict_set field v result))%res)
        names acc
  = Ok (acc ++ map (fun n => (n, value n)) names).
Proof.
  revert acc. induction names as [|n names IH]; intros acc Hnd Hn.
  - simpl. now rewrite app_nil_r.
  - cbn [rfold map]. inversion Hnd as [|? ? Hfresh Hnd']; subst.
    destruct (Hn n (or_introl eq_refl)) as [Hv Hacc]. rewrite Hv. cbn [rbind].
    rewrite dict_set_fresh by now apply dict_get_None.
    rewrite IH.
    + now rewrite <- app_assoc.
    + assumption.
    + intros m Hm. destruct (Hn m (or_intror Hm)) as [Hv' Hacc'].
      split; [assumption |]. unfold dict_keys. rewrite map_app, in_app_iff.
      intros [Hin|[<-|[]]]; [now apply Hacc' | contradiction].
Qed.

Lemma getattr_inst_property fuel (h : heap) self c' name target :
  h !! inst_cls self = Some c' ->
  plain_body (cls_dict c') = true ->
  dict_get name (cls_dict c') = Some (OProperty target) ->
  getattr_inst (S fuel) h self name = getattr_inst fuel h self target.
Proof. intros Hc Hpl Hp. cbn [getattr_inst]. now rewrite Hc, Hpl, Hp. Qed.

Lemma getattr_inst_fields (h : heap) self c' fields :
  h !! inst_cls self = Some c' ->
  plain_body (cls_dict c') = true ->
  dict_get "fields" (cls_dict c') = Some (OProperty "_fields") ->
  dict_get "_fields" (cls_dict c') = Some (ODict fields) ->
  dict_get "_fields" (inst_dict self) = None ->
  getattr_inst recursion_limit h self "fields" = Ok (ODict fields).
Proof.
  intros Hc Hpl Hp Hf Hown. change recursion_limit with (S 999).
  rewrite (getattr_inst_property 999 h self c' "fields" "_fields" Hc Hpl Hp).
  rewrite (getattr_inst_plain 999 h self c' "_fields" (ODict fields) Hc Hpl Hf I).
  now rewrite Hown.
Qed.

(** [asdict] of an instance whose own attributes hold a value for every
    declared field. *)
Lemma asdict_values cls (h h' : heap) c init repr eq frozen self value :
  h !! cls = Some c ->
  fields_ok c = true ->
  _make_datacls cls init repr eq frozen h = (Ok cls, h') ->
  inst_cls self = cls ->
  dict_get "_fields" (inst_dict self) = None ->
  (forall n, In n (dict_keys (cls_annotations c)) ->
             dict_get n (inst_dict self) = Some (value n)) ->
  asdict h' (VInst self)
  = Ok (map (fun n => (n, value n)) (dict_keys (cls_annotations c))).
Proof.
  intros Hc Hok Hrun Hself Hown Hvals.
  destruct (fields_ok_names _ Hok) as [Hnd Hn].
  destruct (make_datacls_success _ _ _ _ _ _ _ _ Hrun) as (c0 & Hc0 & _ & Ha & ->).
  rewrite Hc in Hc0. injection Hc0 as <-.
  pose proof (read_fields_registry c Hnd (fun n H => proj1 (Hn n H))) as Hr.
  set (d' := snd (augment init repr eq frozen (cls_annotations c) (cls_dict c))) in *.
  set (h' := <[cls := with_dict c d']> h).
  assert (Hc' : h' !! inst_cls self = Some (with_dict c d'))
    by (rewrite Hself; apply lookup_insert_eq).
  assert (Hget : forall k, ~ In k ["__init__"; "__repr__"; "__eq__"; "__setattr__"] ->
            dict_get k d' = dict_get k (dict_set "fields" (OProperty "_fields")
                                          (dict_set "_fields" (ODict (registry c)) (cls_dict c)))).
  { intros k Hk. now apply (success_dict_get _ _ _ _ _ _ _ _ _ Ha Hr). }
  assert (Hpl : plain_body (cls_dict (with_dict c d')) = true).
  { rewrite cls_dict_with_dict, <- (fields_ok_plain _ Hok). apply plain_body_ext.
    intros k Hk. pose proof (special_not_installed k Hk) as Hk'. simpl in Hk'.
    rewrite Hget by (simpl; tauto).
    now rewrite !dict_get_set_ne by (intros ->; tauto). }
  unfold asdict, py_getattr.
  rewrite (getattr_inst_fields h' self _ (registry c) Hc'); try assumption.
  2:{ rewrite cls_dict_with_dict, Hget by (simpl; intuition discriminate).
      apply dict_get_set_eq. }
  2:{ rewrite cls_dict_with_dict, Hget by (simpl; intuition discriminate).
      rewrite dict_get_set_ne by discriminate. apply dict_get_set_eq. }
  cbn [rbind py_iter]. rewrite registry_keys.
  change (fun (result : pydict) (field : string) =>
            rbind (getattr_inst recursion_limit h' self field)
                  (fun value0 => Ok (dict_set field value0 result)))
    with (fun (result : pydict) (field : string) =>
            (v <- py_getattr h' (VInst self) field ;; Ok (dict_set field v result))%res).
  rewrite (asdict_fold_values h' (VInst self) value _ [] Hnd); [reflexivity |].
  intros n Hin. split; [|tauto].
  destruct (Hn n Hin) as (Hb & Hn1 & Hn2 & Hp).
  assert (Hcls : dict_get n (cls_dict (with_dict c d')) = dict_get n (cls_dict c)).
  { rewrite cls_dict_with_dict, Hget by now apply not_builtin_fresh.
    now rewrite !dict_get_set_ne by assumption. }
  cbn [py_getattr].
  destruct (dict_get n (cls_dict c)) as [v|] eqn:Ev.
  - rewrite (getattr_inst_plain _ h' self _ n v Hc' Hpl Hcls).
    + now rewrite (Hvals n Hin).
    + destruct v; try exact I. destruct Hp.
  - rewrite (getattr_inst_own _ h' self _ n Hc' Hpl Hcls Hb).
    now rewrite (Hvals n Hin).
Qed.

(** ** Running the decorator a second time *)

Lemma read_fields_ext ann d d' :
  (forall n, In n (dict_keys ann) -> dict_get n d' = dict_get n d) ->
  read_fields ann d' = read_fields ann d.
Proof.
  unfold read_fields. generalize (@nil (string * pyobj)) as acc.
  induction ann as [|[n hint] ann IH]; intros acc Hext; [reflexivity |].
  cbn [rfold fst snd]. unfold class_default at 1 3.
  rewrite (Hext n (or_introl eq_refl)).
  destruct (match dict_get n d with
            | Some v => Ok v
            | None => if builtin_attr n then Raise Unmodelled
                      else Ok (OStr "_NotDefaultValue")
            end) as [v|e]; cbn [rbind]; [|reflexivity].
  apply IH. intros m Hm. apply Hext. now right.
Qed.

Lemma set_if_id b k v d : (b = true -> dict_get k d = Some v) -> set_if b k v d = d.
Proof. destruct b; simpl; [|reflexivity]. intros H. now apply dict_set_id, H. Qed.

Lemma augment_idempotent init repr eq frozen ann d d' :
  (forall n, In n (dict_keys ann) -> ~ In n installed_names) ->
  augment init repr eq frozen ann d = (Ok tt, d') ->
  augment init repr eq frozen ann d' = (Ok tt, d').
Proof.
  intros Hnames Ha.
  destruct (augment_success_dict _ _ _ _ _ _ _ Ha) as (fields & d2 & Hr & Hd2 & Hd').
  set (d1 := dict_set "fields" (OProperty "_fields")
               (dict_set "_fields" (ODict fields) d)) in *.
  assert (Hget2 : forall k, ~ In k ["__init__"; "__repr__"; "__eq__"; "__setattr__"] ->
                            dict_get k d' = dict_get k d1).
  { intros k Hk. apply (success_dict_get _ _ _ _ _ _ _ _ _ Ha Hr Hk). }
  assert (Hget : forall k, ~ In k installed_names -> dict_get k d' = dict_get k d).
  { intros k Hk. unfold installed_names in Hk. simpl in Hk.
    rewrite Hget2 by (simpl; tauto). unfold d1.
    rewrite !dict_get_set_ne by (intros ->; tauto). reflexivity. }
  assert (Hf1 : dict_get "_fields" d' = Some (ODict fields)).
  { rewrite Hget2 by (simpl; intuition discriminate). unfold d1.
    rewrite dict_get_set_ne by discriminate. apply dict_get_set_eq. }
  assert (Hf2 : dict_get "fields" d' = Some (OProperty "_fields")).
  { rewrite Hget2 by (simpl; intuition discriminate). apply dict_get_set_eq. }
  assert (Hpost : post_init_of d' = post_init_of d1).
  { unfold post_init_of. now rewrite Hget2 by (simpl; intuition discriminate). }
  unfold augment.
  rewrite (read_fields_ext ann d d') by (intros n Hn; apply Hget; now apply Hnames).
  rewrite Hr.
  rewrite (dict_set_id "_fields" _ d' Hf1), (dict_set_id "fields" _ d' Hf2), Hpost.
  destruct init.
  - destruct Hd2 as (f & Hf & Hd2). fold d1 in Hf. rewrite Hf. cbn [rbind].
    assert (Hinit : dict_get "__init__" d' = Some f).
    { rewrite Hd', !dict_get_set_if_ne by discriminate. rewrite Hd2.
      apply dict_get_set_eq. }
    rewrite (dict_set_id "__init__" _ d' Hinit).
    f_equal.
    rewrite (set_if_id repr), (set_if_id eq), (set_if_id frozen); try reflexivity.
    + intros ->. rewrite Hd'. apply dict_get_set_if_eq.
    + intros ->. rewrite Hd', !dict_get_set_if_ne by discriminate.
      apply dict_get_set_if_eq.
    + intros ->. rewrite Hd', !dict_get_set_if_ne by discriminate.
      apply dict_get_set_if_eq.
  - f_equal.
    rewrite (set_if_id repr), (set_if_id eq), (set_if_id frozen); try reflexivity.
    + intros ->. rewrite Hd'. apply dict_get_set_if_eq.
    + intros ->. rewrite Hd', !dict_get_set_if_ne by discriminate.
      apply dict_get_set_if_eq.
    + intros ->. rewrite Hd', !dict_get_set_if_ne by discriminate.
      apply dict_get_set_if_eq.
Qed.

(** ** The checks of the statements, as propositions *)





Lemma make_datacls_eq cls (h h' : heap) init repr frozen r :
  _make_datacls cls init repr true frozen h = (Ok r, h') ->
  class_attr h' cls "__eq__" = Some (OFunc F_eq).
Proof.
  intros Hrun. destruct (make_datacls_success _ _ _ _ _ _ _ _ Hrun) as (c & Hc & -> & Ha & ->).
  destruct (augment_success_dict _ _ _ _ _ _ _ Ha) as (fields & d2 & _ & _ & Hd').
  unfold class_attr. rewrite lookup_insert_eq, cls_dict_with_dict, Hd'.
  rewrite dict_get_set_if_ne by discriminate. apply dict_get_set_if_eq.
Qed.


(** ** The demonstration at the end of the module

    [@datacls(frozen=True) class TestUser], then [TestUser('Antonio', 23)],
    its [asdict] view and its rendering. *)

Example TestUser_decorated :
  class_attr (snd (_make_datacls 0 true true true true (store_of TestUser))) 0 "__init__"
  = Some (OFunc (FCompiled "__init__" [("Name", None); ("Age", None)]
                   [SObjectSetattr "Name" "Name"; SObjectSetattr "Age" "Age"; SPostInit])).
Proof. vm_compute. reflexivity. Qed.

Example TestUser_asdict :
  let h := snd (_make_datacls 0 true true true true (store_of TestUser)) in
  (user <- py_call_class no_hook h 0 [OStr "Antonio"; OInt 23] [] ;;
   asdict h (VInst user))%res
  = Ok [("Name", OStr "Antonio"); ("Age", OInt 23)].
Proof. vm_compute. reflexivity. Qed.

Example TestUser_repr :
  let h := snd (_make_datacls 0 true true true true (store_of TestUser)) in
  (user <- py_call_class no_hook h 0 [OStr "Antonio"; OInt 23] [] ;; _repr h user)%res
  = Ok "TestUser(Name = Antonio, Age = 23, )".
Proof. vm_compute. reflexivity. Qed.

(** Positional arguments follow the order of the signature, which is not
    the order of declaration when a default comes first. *)
Example Point_positional :
  let h := snd (_make_datacls 0 true true true false (store_of Point)) in
  py_call_class no_hook h 0 [OInt 5; OInt 7] []
  = Ok {| inst_cls := 0; inst_dict := [("a", OInt 7); ("b", OInt 5)] |}.
Proof. vm_compute. reflexivity. Qed.

(** * The claims *)

(** ** The parameters of the generated [__init__], field by field *)











(** C10. On a class decorated with [frozen=True], every assignment to an
    attribute of an instance raises [FrozenError], whatever the name: a
    declared field or a name the class never declared. *)
Theorem frozen_rejects_any_attribute :
  forall (h h' : heap) cls init repr eq self name value,
    _make_datacls cls init repr eq true h = (Ok cls, h') ->
    inst_cls self = cls ->
    py_setattr h' self name value = Raise FrozenError.
Proof.
  intros h h' cls init repr eq self name value Hrun Hself.
  destruct (make_datacls_frozen _ _ _ _ _ _ _ Hrun) as (c' & Hc' & Hs).
  apply (py_setattr_frozen _ self c'); [now rewrite Hself | assumption].
Qed.

Lemma frozen_rejects_any_attribute_witness :
  _make_datacls 0 true true true true (store_of TestUser)
  = (Ok 0%nat, snd (_make_datacls 0 true true true true (store_of TestUser)))
  /\ py_setattr (snd (_make_datacls 0 true true true true (store_of TestUser)))
       {| inst_cls := 0; inst_dict := [("Name", OStr "Antonio"); ("Age", OInt 23)] |}
       "nickname" (OStr "Tony")
     = Raise FrozenError.
Proof.
  assert (Hrun : _make_datacls 0 true true true true (store_of TestUser)
                 = (Ok 0%nat, snd (_make_datacls 0 true true true true (store_of TestUser))))
    by (vm_compute; reflexivity).
  split; [exact Hrun |].
  exact (frozen_rejects_any_attribute _ _ 0%nat true true true
           {| inst_cls := 0; inst_dict := [("Name", OStr "Antonio"); ("Age", OInt 23)] |}
           "nickname" (OStr "Tony") Hrun eq_refl).
Defined.

(** C3. On a class decorated with [eq=True], [a == b] is [True] exactly when
    [asdict] yields a view of [a] and a view of [b] and the two views have
    the same keys and, key by key, equal values. The comparison of the views
    does not depend on the order of their keys. *)
Theorem eq_iff_asdict_equal :
  forall (h h' : heap) cls init repr frozen (a : instance) (b : pyval),
    _make_datacls cls init repr true frozen h = (Ok cls, h') ->
    inst_cls a = cls ->
    (py_equals h' a b = Ok true
     <-> exists da db,
           asdict h' (VInst a) = Ok da /\ asdict h' b = Ok db /\ same_items da db)
    /\ (forall da db da' db',
          asdict h' (VInst a) = Ok da -> asdict h' b = Ok db ->
          Permutation da da' -> Permutation db db' ->
          dict_eqb da' db' = dict_eqb da db).
Proof.
  intros h h' cls init repr frozen a b Hrun Ha. split.
  - unfold py_equals. rewrite Ha, (make_datacls_eq _ _ _ _ _ _ _ Hrun).
    apply eq_true_iff.
  - intros da db da' db' Hda Hdb Hp Hp'.
    apply dict_eqb_permutation; eauto using asdict_NoDup.
Qed.

Lemma eq_iff_asdict_equal_witness :
  _make_datacls 0 true true true false (store_of Point)
  = (Ok 0%nat, snd (_make_datacls 0 true true true false (store_of Point)))
  /\ (py_equals (snd (_make_datacls 0 true true true false (store_of Point)))
        {| inst_cls := 0; inst_dict := [("a", OInt 1); ("b", OInt 2)] |}
        (VInst {| inst_cls := 0; inst_dict := [("b", OInt 2); ("a", OBool true)] |})
      = Ok true
      <-> exists da db,
            asdict (snd (_make_datacls 0 true true true false (store_of Point)))
              (VInst {| inst_cls := 0; inst_dict := [("a", OInt 1); ("b", OInt 2)] |}) = Ok da
            /\ asdict (snd (_make_datacls 0 true true true false (store_of Point)))
                 (VInst {| inst_cls := 0; inst_dict := [("b", OInt 2); ("a", OBool true)] |})
               = Ok db
            /\ same_items da db).
Proof.
  assert (Hrun : _make_datacls 0 true true true false (store_of Point)
                 = (Ok 0%nat, snd (_make_datacls 0 true true true false (store_of Point))))
    by (vm_compute; reflexivity).
  split; [exact Hrun |].
  exact (proj1 (eq_iff_asdict_equal _ _ 0%nat true true false
                  {| inst_cls := 0; inst_dict := [("a", OInt 1); ("b", OInt 2)] |}
                  (VInst {| inst_cls := 0; inst_dict := [("b", OInt 2); ("a", OBool true)] |})
                  Hrun eq_refl)).
Defined.

(** C5, as the code has it. On a class decorated with [eq=True], comparing
    an instance with an object that has no [fields] attribute raises: the
    [AttributeError] of the failed lookup when the instance's own view
    exists, and otherwise the exception its own view raised. It never
    answers [False]. *)
Theorem eq_with_plain_value_raises :
  forall (h h' : heap) cls init repr frozen (a : instance) (o : pyobj),
    _make_datacls cls init repr true frozen h = (Ok cls, h') ->
    inst_cls a = cls ->
    py_equals h' a (VObj o)
    = match asdict h' (VInst a) with
      | Ok _ => Raise AttributeError
      | Raise e => Raise e
      end.
Proof.
  intros h h' cls init repr frozen a o Hrun Ha.
  unfold py_equals. rewrite Ha, (make_datacls_eq _ _ _ _ _ _ _ Hrun).
  unfold _eq. destruct (asdict h' (VInst a)); reflexivity.
Qed.

Lemma eq_with_plain_value_raises_witness :
  _make_datacls 0 true true true false (store_of Point)
  = (Ok 0%nat, snd (_make_datacls 0 true true true false (store_of Point)))
  /\ py_equals (snd (_make_datacls 0 true true true false (store_of Point)))
       {| inst_cls := 0; inst_dict := [("a", OInt 1); ("b", OInt 2)] |}
       (VObj (OInt 5))
     = Raise AttributeError.
Proof.
  assert (Hrun : _make_datacls 0 true true true false (store_of Point)
                 = (Ok 0%nat, snd (_make_datacls 0 true true true false (store_of Point))))
    by (vm_compute; reflexivity).
  split; [exact Hrun |].
  exact (eq_with_plain_value_raises _ _ 0%nat true true false
           {| inst_cls := 0; inst_dict := [("a", OInt 1); ("b", OInt 2)] |}
           (OInt 5) Hrun eq_refl).
Defined.

(** C5, as stated, fails: comparing a [Point] with the integer [5] raises
    [AttributeError] and does not answer [False]. *)
Lemma eq_with_plain_value_counterexample :
  py_equals (snd (_make_datacls 0 true true true false (store_of Point)))
    {| inst_cls := 0; inst_dict := [("a", OInt 1); ("b", OInt 2)] |}
    (VObj (OInt 5))
  = Raise AttributeError
  /\ py_equals (snd (_make_datacls 0 true true true false (store_of Point)))
       {| inst_cls := 0; inst_dict := [("a", OInt 1); ("b", OInt 2)] |}
       (VObj (OInt 5))
     <> Ok false.
Proof. split; [vm_compute; reflexivity | vm_compute; discriminate]. Qed.

(** C7, as the code has it. For a decorated class whose declared fields have
    distinct names, none of them [_fields], [fields] or a name [object] and
    [type] answer to, and none bound to a property in the class body, and
    whose body leaves the access to the attributes of its instances to
    [object] (it defines none of [__new__], [__slots__], [__getattribute__],
    [__getattr__]): on an instance that has an attribute of its own for
    every declared field and none named [_fields], [asdict] yields exactly
    the declared fields, in declaration order, each with the instance's own
    current value. *)
Theorem asdict_declared_fields :
  forall (h h' : heap) cls c init repr eq frozen self,
    h !! cls = Some c ->
    fields_ok c = true ->
    _make_datacls cls init repr eq frozen h = (Ok cls, h') ->
    inst_cls self = cls ->
    holds_fields c self = true ->
    asdict h' (VInst self)
    = Ok (map (fun n => (n, own_value self n)) (dict_keys (cls_annotations c))).
Proof.
  intros h h' cls c init repr eq frozen self Hc Hok Hrun Hself Hholds.
  unfold holds_fields in Hholds. apply andb_true_iff in Hholds as [Hall Hown].
  rewrite forallb_forall in Hall.
  apply (asdict_values cls h h' c init repr eq frozen self (own_value self));
    try assumption.
  - now destruct (dict_get "_fields" (inst_dict self)).
  - intros n Hn. specialize (Hall n Hn). unfold own_value.
    now destruct (dict_get n (inst_dict self)).
Qed.

Lemma asdict_declared_fields_witness :
  store_of Point !! 0%nat = Some Point
  /\ fields_ok Point = true
  /\ _make_datacls 0 true true true false (store_of Point)
     = (Ok 0%nat, snd (_make_datacls 0 true true true false (store_of Point)))
  /\ holds_fields Point
       {| inst_cls := 0; inst_dict := [("b", OInt 2); ("a", OInt 7); ("note", ONone)] |} = true
  /\ asdict (snd (_make_datacls 0 true true true false (store_of Point)))
       (VInst {| inst_cls := 0;
                 inst_dict := [("b", OInt 2); ("a", OInt 7); ("note", ONone)] |})
     = Ok [("a", OInt 7); ("b", OInt 2)].
Proof.
  assert (Hrun : _make_datacls 0 true true true false (store_of Point)
                 = (Ok 0%nat, snd (_make_datacls 0 true true true false (store_of Point))))
    by (vm_compute; reflexivity).
  split; [reflexivity |]. split; [reflexivity |]. split; [exact Hrun |].
  split; [reflexivity |].
  exact (asdict_declared_fields (store_of Point) _ 0%nat Point true true true false
           {| inst_cls := 0; inst_dict := [("b", OInt 2); ("a", OInt 7); ("note", ONone)] |}
           eq_refl eq_refl Hrun eq_refl eq_refl).
Defined.

(** C7, as stated, fails: [class Shadow: _fields: str] is decorated without
    error and [Shadow(_fields="")] is built without error; its registry has
    the field [_fields], and [asdict] of the instance is the empty dict. *)
Lemma asdict_shadowed_registry_counterexample :
  let run := _make_datacls 0 true true true false (store_of Shadow) in
  let self := {| inst_cls := 0; inst_dict := [("_fields", OStr "")] |} in
  fst run = Ok 0%nat
  /\ py_call_class no_hook (snd run) 0 [] [("_fields", OStr "")] = Ok self
  /\ class_attr (snd run) 0 "_fields"
     = Some (ODict [("_fields", _FieldsDict str_ (OStr "_NotDefaultValue"))])
  /\ asdict (snd run) (VInst self) = Ok []
  /\ asdict (snd run) (VInst self) <> Ok [("_fields", OStr "")].
Proof.
  cbv zeta. repeat split; try (vm_compute; reflexivity). vm_compute. discriminate.
Qed.

(** C8. Calling [datacls] on a class, and calling it without a class and
    then calling what it returned on the class, end in the same store with
    the same outcome. When the outcome is a class it is the class that was
    passed: the object at the same address, changed in the store, while no
    other object of the store changes and none is added. *)
Theorem datacls_direct_and_deferred :
  forall (h : heap) cls init repr eq frozen,
    let direct := datacls (Some cls) init repr eq frozen h in
    let deferred :=
      (d <- datacls None init repr eq frozen ;; apply_decorated d cls)%M h in
    snd direct = snd deferred
    /\ fst direct = match fst deferred with
                    | Ok r => Ok (DClass r)
                    | Raise e => Raise e
                    end
    /\ (forall r, fst deferred = Ok r -> r = cls)
    /\ (forall r, fst direct = Ok (DClass r) -> r = cls)
    /\ (forall r, r <> cls -> snd direct !! r = h !! r)
    /\ dom (snd direct) = dom h.
Proof.
  intros h cls init repr eq frozen direct deferred.
  assert (Hdef : deferred = _make_datacls cls init repr eq frozen h) by reflexivity.
  assert (Hdir : direct = match _make_datacls cls init repr eq frozen h with
                          | (Ok r, h') => (Ok (DClass r), h')
                          | (Raise e, h') => (Raise e, h')
                          end).
  { unfold direct, datacls, bind, ret.
    now destruct (_make_datacls cls init repr eq frozen h) as [[r|e] h']. }
  destruct (make_datacls_frame cls h init repr eq frozen) as (Hother & Hdom & Hsame).
  rewrite Hdir, Hdef.
  destruct (_make_datacls cls init repr eq frozen h) as [[r|e] h']; cbn [fst snd] in *.
  - repeat split; try assumption.
    intros r' [= <-]. now apply Hsame.
  - repeat split; try assumption; discriminate.
Qed.

(** C9, as the code has it. When no declared field has one of the names the
    decorator binds on the class, a second run of [_make_datacls] with the
    same switches on a class it has decorated succeeds and leaves the store
    as the first run left it; construction, equality, rendering and
    assignment, which read the class from the store, are then unchanged. *)
Theorem augmentation_idempotent :
  forall (h h1 : heap) cls c init repr eq frozen,
    h !! cls = Some c ->
    no_installed_name c = true ->
    _make_datacls cls init repr eq frozen h = (Ok cls, h1) ->
    _make_datacls cls init repr eq frozen h1 = (Ok cls, h1).
Proof.
  intros h h1 cls c init repr eq frozen Hc Hnames Hrun.
  destruct (make_datacls_success _ _ _ _ _ _ _ _ Hrun) as (c0 & Hc0 & _ & Ha & ->).
  rewrite Hc in Hc0. injection Hc0 as <-.
  set (d' := snd (augment init repr eq frozen (cls_annotations c) (cls_dict c))) in *.
  assert (Hidem : augment init repr eq frozen (cls_annotations c) d' = (Ok tt, d')).
  { apply (augment_idempotent _ _ _ _ _ (cls_dict c)); [|exact Ha].
    intros n Hn Hin. unfold no_installed_name in Hnames.
    rewrite forallb_forall in Hnames. specialize (Hnames n Hn).
    apply negb_true_iff in Hnames.
    apply existsb_eqb_In in Hin. congruence. }
  rewrite (make_datacls_run cls (with_dict c d') _ init repr eq frozen)
    by apply lookup_insert_eq.
  cbn [cls_annotations with_dict cls_dict]. rewrite Hidem. cbn [fst snd].
  now rewrite insert_insert_eq.
Qed.

Lemma augmentation_idempotent_witness :
  store_of TestUser !! 0%nat = Some TestUser
  /\ no_installed_name TestUser = true
  /\ _make_datacls 0 true true true true (store_of TestUser)
     = (Ok 0%nat, snd (_make_datacls 0 true true true true (store_of TestUser)))
  /\ _make_datacls 0 true true true true
       (snd (_make_datacls 0 true true true true (store_of TestUser)))
     = (Ok 0%nat, snd (_make_datacls 0 true true true true (store_of TestUser))).
Proof.
  assert (Hrun : _make_datacls 0 true true true true (store_of TestUser)
                 = (Ok 0%nat, snd (_make_datacls 0 true true true true (store_of TestUser))))
    by (vm_compute; reflexivity).
  split; [reflexivity |]. split; [reflexivity |]. split; [exact Hrun |].
  exact (augmentation_idempotent (store_of TestUser) _ 0%nat TestUser true true true true
           eq_refl eq_refl Hrun).
Defined.

(** C9, as stated, fails: [class Clash: fields: int] is decorated once
    without error; the second run reads the installed property as the
    default of the field, writes it into the signature, and [exec] refuses
    the text. *)
Lemma second_augmentation_counterexample :
  let first := _make_datacls 0 true true true false (store_of Clash) in
  let second := _make_datacls 0 true true true false (snd first) in
  fst first = Ok 0%nat
  /\ fst second = Raise SyntaxError
  /\ class_attr (snd first) 0 "_fields"
     = Some (ODict [("fields", _FieldsDict int_ (OStr "_NotDefaultValue"))])
  /\ class_attr (snd second) 0 "_fields"
     = Some (ODict [("fields", _FieldsDict int_ (OProperty "_fields"))]).
Proof. cbv zeta. repeat split; vm_compute; reflexivity. Qed.

(** C4, at the input where the code misses it. [class Empty: pass] has no
    field and no hook: the text of its [__init__] is the header
    [def __init__ (self, ):] and a newline, with no statement under it;
    [exec] refuses it and the decorator raises instead of installing an
    initializer. With a hook the same class gets the initializer that only
    calls the hook. *)
Theorem empty_class_init_rejected :
  _create_func_signature "__init__" (ODict []) = Ok "def __init__ (self, ):"
  /\ init_body [] (OBool false) = NL
  /\ py_exec ("def __init__ (self, ):" +:+ NL) = Raise SyntaxError
  /\ fst (_make_datacls 0 true true true false (store_of Empty)) = Raise SyntaxError
  /\ class_attr (snd (_make_datacls 0 true true true false (store_of Empty))) 0 "__init__"
     = None
  /\ class_attr
       (snd (_make_datacls 0 true true true false
               (store_of {| cls_name := "Empty"; cls_annotations := [];
                            cls_dict := [("__post_init__", OFunc (FUser "__post_init__"))] |})))
       0 "__init__"
     = Some (OFunc (FCompiled "__init__" [] [SPostInit])).
Proof. repeat split; vm_compute; reflexivity. Qed.

(** C6, at the input where the code misses it.
    [class Tagged: tag: str = '_NotDefaultValue'] declares a default for
    [tag]; the registry records it, the signature lists [tag] as a parameter
    without default, and [Tagged()] raises [TypeError] for the missing
    argument. *)
Theorem sentinel_default_read_as_required :
  let run := _make_datacls 0 true true true false (store_of Tagged) in
  dict_get "tag" (cls_dict Tagged) = Some (OStr "_NotDefaultValue")
  /\ fst run = Ok 0%nat
  /\ is_required ("tag", _FieldsDict str_ (OStr "_NotDefaultValue")) = true
  /\ class_attr (snd run) 0 "__init__"
     = Some (OFunc (FCompiled "__init__" [("tag", None)] [SObjectSetattr "tag" "tag"]))
  /\ py_call_class no_hook (snd run) 0 [] [] = Raise TypeError.
Proof. cbv zeta. repeat split; vm_compute; reflexivity. Qed.

(** * Further properties of the module *)

(** ** What a run of the decorator binds *)

Lemma dict_get_set_if k b v d :
  dict_get k (set_if b k v d) = if b then Some v else dict_get k d.
Proof. destruct b; [apply dict_get_set_eq | reflexivity]. Qed.

(** X1. A successful run binds on the class exactly what its switches ask
    for: [__repr__], [__eq__] and [__setattr__] become the module's
    functions when their switch is on and stay what they were when it is
    off; with [init] off [__init__] stays what it was; [fields] is the
    property; every name other than the six the decorator binds keeps its
    value, and the name and the annotations of the class are unchanged. *)
Theorem switches_bind_only_their_attribute :
  forall (h h' : heap) cls init repr eq frozen,
    _make_datacls cls init repr eq frozen h = (Ok cls, h') ->
    class_attr h' cls "__repr__"
    = (if repr then Some (OFunc F_repr) else class_attr h cls "__repr__")
    /\ class_attr h' cls "__eq__"
       = (if eq then Some (OFunc F_eq) else class_attr h cls "__eq__")
    /\ class_attr h' cls "__setattr__"
       = (if frozen then Some (OFunc F_setattr) else class_attr h cls "__setattr__")
    /\ (init = false -> class_attr h' cls "__init__" = class_attr h cls "__init__")
    /\ class_attr h' cls "fields" = Some (OProperty "_fields")
    /\ (forall k, ~ In k installed_names -> class_attr h' cls k = class_attr h cls k)
    /\ (exists c c', h !! cls = Some c /\ h' !! cls = Some c'
                     /\ cls_name c' = cls_name c
                     /\ cls_annotations c' = cls_annotations c).
Proof.
  intros h h' cls init repr eq frozen Hrun.
  destruct (make_datacls_success _ _ _ _ _ _ _ _ Hrun) as (c & Hc & _ & Ha & ->).
  destruct (augment_success_dict _ _ _ _ _ _ _ Ha) as (fields & d2 & Hr & Hd2 & Hd').
  unfold class_attr. rewrite lookup_insert_eq, Hc, cls_dict_with_dict, Hd'.
  assert (Hd2get : forall k, k <> "__init__" ->
            dict_get k d2 = dict_get k (dict_set "fields" (OProperty "_fields")
                                          (dict_set "_fields" (ODict fields) (cls_dict c)))).
  { intros k Hk. destruct init.
    - destruct Hd2 as (f & _ & ->). now apply dict_get_set_ne.
    - now subst d2. }
  split.
  { rewrite !dict_get_set_if_ne by discriminate. rewrite dict_get_set_if.
    destruct repr; [reflexivity |].
    rewrite Hd2get by discriminate. now rewrite !dict_get_set_ne by discriminate. }
  split.
  { rewrite dict_get_set_if_ne by discriminate. rewrite dict_get_set_if.
    destruct eq; [reflexivity |].
    rewrite dict_get_set_if_ne by discriminate.
    rewrite Hd2get by discriminate. now rewrite !dict_get_set_ne by discriminate. }
  split.
  { rewrite dict_get_set_if. destruct frozen; [reflexivity |].
    rewrite !dict_get_set_if_ne by discriminate.
    rewrite Hd2get by discriminate. now rewrite !dict_get_set_ne by discriminate. }
  split.
  { intros ->. rewrite !dict_get_set_if_ne by discriminate. subst d2.
    now rewrite !dict_get_set_ne by discriminate. }
  split.
  { rewrite !dict_get_set_if_ne by discriminate.
    rewrite Hd2get by discriminate. apply dict_get_set_eq. }
  split.
  { intros k Hk. unfold installed_names in Hk. simpl in Hk.
    rewrite !dict_get_set_if_ne by (intros ->; tauto).
    rewrite Hd2get by (intros ->; tauto).
    now rewrite !dict_get_set_ne by (intros ->; tauto). }
  exists c. eexists. split; [reflexivity |]. split; [reflexivity |]. split; reflexivity.
Qed.

Lemma switches_bind_only_their_attribute_witness :
  _make_datacls 0 true false true false (store_of TestUser)
  = (Ok 0%nat, snd (_make_datacls 0 true false true false (store_of TestUser)))
  /\ class_attr (snd (_make_datacls 0 true false true false (store_of TestUser))) 0 "__repr__"
     = None
  /\ class_attr (snd (_make_datacls 0 true false true false (store_of TestUser))) 0 "__eq__"
     = Some (OFunc F_eq).
Proof.
  assert (Hrun : _make_datacls 0 true false true false (store_of TestUser)
                 = (Ok 0%nat, snd (_make_datacls 0 true false true false (store_of TestUser))))
    by (vm_compute; reflexivity).
  split; [exact Hrun |].
  pose (H := switches_bind_only_their_attribute _ _ 0%nat true false true false Hrun).
  split; [exact (proj1 H) | exact (proj1 (proj2 H))].
Defined.

(** ** Instances of a decorated class *)

Lemma run_decorated (h h' : heap) cls c init repr eq frozen :
  h !! cls = Some c ->
  fields_ok c = true ->
  _make_datacls cls init repr eq frozen h = (Ok cls, h') ->
  decorated_view h' cls c.
Proof.
  intros Hc Hok Hrun.
  destruct (fields_ok_names _ Hok) as [Hnd Hn].
  destruct (make_datacls_success _ _ _ _ _ _ _ _ Hrun) as (c0 & Hc0 & _ & Ha & ->).
  rewrite Hc in Hc0. injection Hc0 as <-.
  pose proof (read_fields_registry c Hnd (fun n H => proj1 (Hn n H))) as Hr.
  destruct (augment_success_dict _ _ _ _ _ _ _ Ha) as (fields & d2 & Hr' & Hd2 & Hd').
  rewrite Hr in Hr'. injection Hr' as <-.
  assert (Hd2get : forall k, k <> "__init__" ->
            dict_get k d2 = dict_get k (dict_set "fields" (OProperty "_fields")
                                          (dict_set "_fields" (ODict (registry c)) (cls_dict c)))).
  { intros k Hk. destruct init.
    - destruct Hd2 as (f & _ & ->). now apply dict_get_set_ne.
    - now subst d2. }
  eexists. split; [apply lookup_insert_eq |]. split; [reflexivity |].
  rewrite cls_dict_with_dict, Hd'. split.
  { rewrite !dict_get_set_if_ne by discriminate.
    rewrite Hd2get by discriminate. apply dict_get_set_eq. }
  split.
  { rewrite !dict_get_set_if_ne by discriminate.
    rewrite Hd2get by discriminate.
    rewrite dict_get_set_ne by discriminate. apply dict_get_set_eq. }
  intros k Hk. unfold installed_names in Hk. simpl in Hk.
  rewrite !dict_get_set_if_ne by (intros ->; tauto).
  rewrite Hd2get by (intros ->; tauto).
  now rewrite !dict_get_set_ne by (intros ->; tauto).
Qed.

Lemma decorated_frame (h h' : heap) cls c :
  decorated_view h cls c -> h' !! cls = h !! cls -> decorated_view h' cls c.
Proof.
  intros (c' & Hc' & H) Heq. exists c'. split; [now rewrite Heq | exact H].
Qed.

Lemma field_not_installed c n :
  fields_ok c = true -> In n (dict_keys (cls_annotations c)) -> ~ In n installed_names.
Proof.
  intros Hok Hn. destruct (fields_ok_names _ Hok) as [_ Hf].
  destruct (Hf n Hn) as (Hb & H1 & H2 & _).
  intros Hin. unfold installed_names in Hin. simpl in Hin.
  destruct Hin as [<-|[<-|Hin]]; [congruence | congruence |].
  now apply (not_builtin_fresh n Hb).
Qed.

Lemma view_plain c c' :
  (forall k, ~ In k installed_names -> dict_get k (cls_dict c') = dict_get k (cls_dict c)) ->
  plain_body (cls_dict c) = true ->
  plain_body (cls_dict c') = true.
Proof.
  intros Hget <-. apply plain_body_ext. intros k Hk. apply Hget.
  exact (special_not_installed k Hk).
Qed.

(** Reading a declared field: the instance's own value, or else the value
    the class body gives the name, a function coming back as a method, or
    else [AttributeError]. *)
Lemma decorated_getattr_field (h : heap) cls c self n :
  decorated_view h cls c ->
  fields_ok c = true ->
  inst_cls self = cls ->
  In n (dict_keys (cls_annotations c)) ->
  getattr_inst recursion_limit h self n
  = match dict_get n (inst_dict self) with
    | Some v => Ok v
    | None => match dict_get n (cls_dict c) with
              | Some (OFunc _) => Raise Unmodelled
              | Some v => Ok v
              | None => Raise AttributeError
              end
    end.
Proof.
  intros (c' & Hc' & _ & _ & _ & Hget) Hok Hself Hn.
  destruct (fields_ok_names _ Hok) as [_ Hf].
  destruct (Hf n Hn) as (Hb & _ & _ & Hp).
  pose proof (view_plain _ _ Hget (fields_ok_plain _ Hok)) as Hpl.
  rewrite <- Hself in Hc'.
  pose proof (Hget n (field_not_installed _ _ Hok Hn)) as Hcls.
  destruct (dict_get n (cls_dict c)) as [v|] eqn:Ev.
  - rewrite (getattr_inst_plain _ h self c' n v Hc' Hpl Hcls).
    + now destruct v.
    + destruct v; try exact I. destruct Hp.
  - now rewrite (getattr_inst_own _ h self c' n Hc' Hpl Hcls Hb).
Qed.

Lemma decorated_getattr_registry (h : heap) cls c self :
  decorated_view h cls c ->
  plain_body (cls_dict c) = true ->
  inst_cls self = cls ->
  dict_get "_fields" (inst_dict self) = None ->
  getattr_inst recursion_limit h self "_fields" = Ok (ODict (registry c))
  /\ getattr_inst recursion_limit h self "fields" = Ok (ODict (registry c)).
Proof.
  intros (c' & Hc' & _ & Hp & Hf & Hget) Hplain Hself Hown. rewrite <- Hself in Hc'.
  pose proof (view_plain _ _ Hget Hplain) as Hpl. split.
  - rewrite (getattr_inst_plain _ h self c' "_fields" (ODict (registry c)) Hc' Hpl Hf I).
    now rewrite Hown.
  - now apply (getattr_inst_fields h self c').
Qed.

Lemma holds_fields_spec c self :
  holds_fields c self = true ->
  dict_get "_fields" (inst_dict self) = None
  /\ forall n, In n (dict_keys (cls_annotations c)) ->
       dict_get n (inst_dict self) = Some (own_value self n).
Proof.
  unfold holds_fields. rewrite andb_true_iff, forallb_forall. intros [Hall Hown]. split.
  - now destruct (dict_get "_fields" (inst_dict self)).
  - intros n Hn. specialize (Hall n Hn). unfold own_value.
    now destruct (dict_get n (inst_dict self)).
Qed.

Lemma asdict_decorated (h : heap) cls c self :
  decorated_view h cls c ->
  fields_ok c = true ->
  inst_cls self = cls ->
  holds_fields c self = true ->
  asdict h (VInst self)
  = Ok (map (fun n => (n, own_value self n)) (dict_keys (cls_annotations c))).
Proof.
  intros Hd Hok Hself Hholds.
  destruct (holds_fields_spec _ _ Hholds) as [Hown Hvals].
  destruct (fields_ok_names _ Hok) as [Hnd _].
  unfold asdict. cbn [py_getattr].
  rewrite (proj2 (decorated_getattr_registry _ _ _ _ Hd (fields_ok_plain _ Hok) Hself Hown)).
  cbn [rbind py_iter]. rewrite registry_keys.
  change (fun (result : pydict) (field : string) =>
            rbind (getattr_inst recursion_limit h self field)
                  (fun value0 => Ok (dict_set field value0 result)))
    with (fun (result : pydict) (field : string) =>
            (v <- py_getattr h (VInst self) field ;; Ok (dict_set field v result))%res).
  rewrite (asdict_fold_values h (VInst self) (own_value self) _ [] Hnd); [reflexivity |].
  intros n Hn. split; [|tauto]. cbn [py_getattr].
  rewrite (decorated_getattr_field _ _ _ _ _ Hd Hok Hself Hn).
  now rewrite (Hvals n Hn).
Qed.

(** ** Rendering *)





(** ** Equality, field by field *)

Lemma forallb_map_ext {A B} (f : B -> bool) (g : A -> B) (k : A -> bool) l :
  (forall x, In x l -> f (g x) = k x) -> forallb f (map g l) = forallb k l.
Proof.
  induction l as [|x l IH]; intros H; [reflexivity |].
  cbn [map forallb]. rewrite H by now left. rewrite IH; [reflexivity |].
  intros y Hy. apply H. now right.
Qed.

Lemma same_names_permutation l1 l2 :
  List.NoDup l1 -> List.NoDup l2 -> same_names l1 l2 = true -> Permutation l1 l2.
Proof.
  intros H1 H2. unfold same_names. rewrite andb_true_iff, Nat.eqb_eq, forallb_forall.
  intros [Hlen Hin]. apply NoDup_Permutation_bis; [assumption | lia |].
  intros n Hn. now apply existsb_eqb_In, Hin.
Qed.

Lemma dict_eqb_views (f g : string -> pyobj) l1 l2 :
  List.NoDup l1 -> List.NoDup l2 -> same_names l1 l2 = true ->
  dict_eqb (map (fun n => (n, f n)) l1) (map (fun n => (n, g n)) l2)
  = forallb (fun n => py_eq (f n) (g n)) l1.
Proof.
  intros H1 H2 Hs. pose proof (same_names_permutation _ _ H1 H2 Hs) as Hp.
  rewrite dict_eqb_unfold, !length_map, (Permutation_length Hp), Nat.eqb_refl.
  cbn [andb]. apply forallb_map_ext. intros n Hn. cbn [fst snd].
  rewrite (dict_get_map_fst g (fun x => x) l2 n).
  - reflexivity.
  - now rewrite map_id.
  - now apply (Permutation_in _ Hp).
Qed.

Lemma same_names_refl l : same_names l l = true.
Proof.
  unfold same_names. rewrite Nat.eqb_refl. cbn [andb].
  apply forallb_forall. intros n Hn. now apply existsb_eqb_In.
Qed.

(** X3. Let a class be decorated with [eq=True], with declared fields of
    distinct names, none of them [_fields], [fields] or a name [object] and
    [type] answer to, none bound to a property in the class body, and with a
    class body that defines none of [__new__], [__slots__],
    [__getattribute__], [__getattr__]. Two instances of it that each have an
    attribute of their own for every declared field, and none named
    [_fields], are equal exactly when, field by field, their values are
    equal: attributes that are not declared fields, and the order in which
    the attributes were set, play no part. *)
Theorem equality_is_fieldwise :
  forall (h h' : heap) cls c init repr frozen (a b : instance),
    h !! cls = Some c ->
    fields_ok c = true ->
    _make_datacls cls init repr true frozen h = (Ok cls, h') ->
    inst_cls a = cls ->
    inst_cls b = cls ->
    holds_fields c a = true ->
    holds_fields c b = true ->
    py_equals h' a (VInst b)
    = Ok (forallb (fun n => py_eq (own_value a n) (own_value b n))
                  (dict_keys (cls_annotations c))).
Proof.
  intros h h' cls c init repr frozen a b Hc Hok Hrun Ha Hb Hha Hhb.
  pose proof (run_decorated _ _ _ _ _ _ _ _ Hc Hok Hrun) as Hd.
  destruct (fields_ok_names _ Hok) as [Hnd _].
  unfold py_equals. rewrite Ha, (make_datacls_eq _ _ _ _ _ _ _ Hrun).
  unfold _eq.
  rewrite (asdict_decorated _ _ _ _ Hd Hok Ha Hha), (asdict_decorated _ _ _ _ Hd Hok Hb Hhb).
  cbn [rbind]. f_equal.
  apply dict_eqb_views; auto using same_names_refl.
Qed.

Lemma equality_is_fieldwise_witness :
  store_of Point !! 0%nat = Some Point
  /\ fields_ok Point = true
  /\ _make_datacls 0 true true true false (store_of Point)
     = (Ok 0%nat, snd (_make_datacls 0 true true true false (store_of Point)))
  /\ holds_fields Point {| inst_cls := 0; inst_dict := [("a", OInt 1); ("b", OInt 2)] |} = true
  /\ holds_fields Point
       {| inst_cls := 0; inst_dict := [("b", OInt 3); ("tag", ONone); ("a", OInt 1)] |} = true
  /\ py_equals (snd (_make_datacls 0 true true true false (store_of Point)))
       {| inst_cls := 0; inst_dict := [("a", OInt 1); ("b", OInt 2)] |}
       (VInst {| inst_cls := 0; inst_dict := [("b", OInt 3); ("tag", ONone); ("a", OInt 1)] |})
     = Ok false.
Proof.
  assert (Hrun : _make_datacls 0 true true true false (store_of Point)
                 = (Ok 0%nat, snd (_make_datacls 0 true true true false (store_of Point))))
    by (vm_compute; reflexivity).
  split; [reflexivity |]. split; [reflexivity |]. split; [exact Hrun |].
  split; [reflexivity |]. split; [reflexivity |].
  exact (equality_is_fieldwise (store_of Point) _ 0%nat Point true true false
           {| inst_cls := 0; inst_dict := [("a", OInt 1); ("b", OInt 2)] |}
           {| inst_cls := 0; inst_dict := [("b", OInt 3); ("tag", ONone); ("a", OInt 1)] |}
           eq_refl eq_refl Hrun eq_refl eq_refl eq_refl eq_refl).
Defined.

(** X4. Equality does not look at the classes. Let two different classes
    be decorated, the first with [eq=True], each with declared fields of
    distinct names, none of them [_fields], [fields] or a name [object] and
    [type] answer to, none bound to a property in the class body, and with a
    class body that defines none of [__new__], [__slots__],
    [__getattribute__], [__getattr__]; and let them declare the same field
    names, in whatever order. An instance of the first and an instance of
    the second, each with an attribute of its own for every declared field
    and none named [_fields], are equal exactly when, field by field, their
    values are equal. *)
Theorem equality_ignores_the_class :
  forall (h h1 h2 : heap) cls1 cls2 c1 c2 init1 repr1 frozen1 init2 repr2 eq2 frozen2
         (a b : instance),
    cls1 <> cls2 ->
    h !! cls1 = Some c1 ->
    h !! cls2 = Some c2 ->
    fields_ok c1 = true ->
    fields_ok c2 = true ->
    same_names (dict_keys (cls_annotations c1)) (dict_keys (cls_annotations c2)) = true ->
    _make_datacls cls1 init1 repr1 true frozen1 h = (Ok cls1, h1) ->
    _make_datacls cls2 init2 repr2 eq2 frozen2 h1 = (Ok cls2, h2) ->
    inst_cls a = cls1 ->
    inst_cls b = cls2 ->
    holds_fields c1 a = true ->
    holds_fields c2 b = true ->
    py_equals h2 a (VInst b)
    = Ok (forallb (fun n => py_eq (own_value a n) (own_value b n))
                  (dict_keys (cls_annotations c1))).
Proof.
  intros h h1 h2 cls1 cls2 c1 c2 init1 repr1 frozen1 init2 repr2 eq2 frozen2 a b
         Hne Hc1 Hc2 Hok1 Hok2 Hnames Hrun1 Hrun2 Ha Hb Hha Hhb.
  pose proof (make_datacls_frame cls1 h init1 repr1 true frozen1) as (Hf1 & _ & _).
  pose proof (make_datacls_frame cls2 h1 init2 repr2 eq2 frozen2) as (Hf2 & _ & _).
  rewrite Hrun1 in Hf1. rewrite Hrun2 in Hf2. cbn [snd] in Hf1, Hf2.
  assert (Hc2' : h1 !! cls2 = Some c2).
  { rewrite Hf1 by (intros E; apply Hne; now symmetry). exact Hc2. }
  pose proof (run_decorated _ _ _ _ _ _ _ _ Hc1 Hok1 Hrun1) as Hd1.
  pose proof (run_decorated _ _ _ _ _ _ _ _ Hc2' Hok2 Hrun2) as Hd2.
  assert (Hd1' : decorated_view h2 cls1 c1).
  { apply (decorated_frame h1); [assumption |]. now apply Hf2. }
  destruct (fields_ok_names _ Hok1) as [Hnd1 _].
  destruct (fields_ok_names _ Hok2) as [Hnd2 _].
  unfold py_equals, class_attr. rewrite Ha, Hf2 by assumption.
  pose proof (make_datacls_eq _ _ _ _ _ _ _ Hrun1) as Heq. unfold class_attr in Heq.
  rewrite Heq. unfold _eq.
  rewrite (asdict_decorated _ _ _ _ Hd1' Hok1 Ha Hha), (asdict_decorated _ _ _ _ Hd2 Hok2 Hb Hhb).
  cbn [rbind]. f_equal. now apply dict_eqb_views.
Qed.

Lemma equality_ignores_the_class_witness :
  let h := <[1%nat := Vec]> (store_of Point) in
  let h1 := snd (_make_datacls 0 true true true false h) in
  let h2 := snd (_make_datacls 1 true true false true h1) in
  0%nat <> 1%nat
  /\ h !! 0%nat = Some Point
  /\ h !! 1%nat = Some Vec
  /\ fields_ok Point = true
  /\ fields_ok Vec = true
  /\ same_names (dict_keys (cls_annotations Point)) (dict_keys (cls_annotations Vec)) = true
  /\ _make_datacls 0 true true true false h = (Ok 0%nat, h1)
  /\ _make_datacls 1 true true false true h1 = (Ok 1%nat, h2)
  /\ py_equals h2 {| inst_cls := 0; inst_dict := [("a", OInt 1); ("b", OInt 2)] |}
       (VInst {| inst_cls := 1; inst_dict := [("b", OInt 2); ("a", OInt 1)] |})
     = Ok true.
Proof.
  cbv zeta.
  assert (Hrun1 : _make_datacls 0 true true true false (<[1%nat := Vec]> (store_of Point))
                  = (Ok 0%nat,
                     snd (_make_datacls 0 true true true false (<[1%nat := Vec]> (store_of Point)))))
    by (vm_compute; reflexivity).
  assert (Hrun2 : _make_datacls 1 true true false true
                    (snd (_make_datacls 0 true true true false (<[1%nat := Vec]> (store_of Point))))
                  = (Ok 1%nat,
                     snd (_make_datacls 1 true true false true
                            (snd (_make_datacls 0 true true true false
                                    (<[1%nat := Vec]> (store_of Point)))))))
    by (vm_compute; reflexivity).
  split; [discriminate |]. split; [reflexivity |]. split; [reflexivity |].
  split; [reflexivity |]. split; [reflexivity |]. split; [reflexivity |].
  split; [exact Hrun1 |]. split; [exact Hrun2 |].
  exact (equality_ignores_the_class (<[1%nat := Vec]> (store_of Point)) _ _ 0%nat 1%nat
           Point Vec true true false true true false true
           {| inst_cls := 0; inst_dict := [("a", OInt 1); ("b", OInt 2)] |}
           {| inst_cls := 1; inst_dict := [("b", OInt 2); ("a", OInt 1)] |}
           ltac:(discriminate) eq_refl eq_refl eq_refl eq_refl eq_refl Hrun1 Hrun2
           eq_refl eq_refl eq_refl eq_refl).
Defined.

(** ** Assignment *)

Lemma make_datacls_switches cls c (h h' : heap) init repr eq frozen r :
  h !! cls = Some c ->
  _make_datacls cls init repr eq frozen h = (Ok r, h') ->
  class_attr h' cls "__repr__"
  = (if repr then Some (OFunc F_repr) else dict_get "__repr__" (cls_dict c))
  /\ class_attr h' cls "__eq__"
     = (if eq then Some (OFunc F_eq) else dict_get "__eq__" (cls_dict c))
  /\ class_attr h' cls "__setattr__"
     = (if frozen then Some (OFunc F_setattr) else dict_get "__setattr__" (cls_dict c)).
Proof.
  intros Hc Hrun.
  destruct (make_datacls_success _ _ _ _ _ _ _ _ Hrun) as (c0 & Hc0 & _ & Ha & ->).
  rewrite Hc in Hc0. injection Hc0 as <-.
  destruct (augment_success_dict _ _ _ _ _ _ _ Ha) as (fields & d2 & Hr & Hd2 & Hd').
  unfold class_attr. rewrite lookup_insert_eq, cls_dict_with_dict, Hd'.
  assert (Hd2get : forall k, k <> "__init__" -> k <> "fields" -> k <> "_fields" ->
            dict_get k d2 = dict_get k (cls_dict c)).
  { intros k Hk Hk1 Hk2. destruct init.
    - destruct Hd2 as (f & _ & ->). now rewrite !dict_get_set_ne.
    - subst d2. now rewrite !dict_get_set_ne. }
  split.
  { rewrite !dict_get_set_if_ne by discriminate. rewrite dict_get_set_if.
    destruct repr; [reflexivity |]. now apply Hd2get. }
  split.
  { rewrite dict_get_set_if_ne by discriminate. rewrite dict_get_set_if.
    destruct eq; [reflexivity |].
    rewrite dict_get_set_if_ne by discriminate. now apply Hd2get. }
  rewrite dict_get_set_if. destruct frozen; [reflexivity |].
  rewrite !dict_get_set_if_ne by discriminate. now apply Hd2get.
Qed.

Lemma object_setattr_field (h : heap) cls c self n v :
  decorated_view h cls c ->
  fields_ok c = true ->
  inst_cls self = cls ->
  In n (dict_keys (cls_annotations c)) ->
  object_setattr h self n v = Ok (with_attr self n v).
Proof.
  intros (c' & Hc' & _ & _ & _ & Hget) Hok Hself Hn.
  destruct (fields_ok_names _ Hok) as [_ Hf].
  destruct (Hf n Hn) as (Hb & _ & _ & Hp).
  rewrite <- Hself in Hc'. unfold object_setattr.
  rewrite Hc', (view_plain _ _ Hget (fields_ok_plain _ Hok)). cbn [negb].
  rewrite (Hget n (field_not_installed _ _ Hok Hn)).
  destruct (dict_get n (cls_dict c)) as [[]|]; try reflexivity; [destruct Hp |].
  now rewrite Hb.
Qed.

Lemma holds_fields_with_attr c self n v :
  fields_ok c = true ->
  In n (dict_keys (cls_annotations c)) ->
  holds_fields c self = true ->
  holds_fields c (with_attr self n v) = true
  /\ forall m, own_value (with_attr self n v) m
               = if String.eqb m n then v else own_value self m.
Proof.
  intros Hok Hn Hh. destruct (fields_ok_names _ Hok) as [_ Hf].
  destruct (Hf n Hn) as (_ & Hne & _).
  assert (Hget : forall m, dict_get m (inst_dict (with_attr self n v))
                           = if String.eqb m n then Some v else dict_get m (inst_dict self)).
  { intros m. cbn [with_attr inst_dict]. destruct (String.eqb_spec m n) as [->|Hmn].
    - apply dict_get_set_eq.
    - now apply dict_get_set_ne. }
  split.
  - unfold holds_fields in *. rewrite andb_true_iff, forallb_forall in *.
    destruct Hh as [Hall Hown]. split.
    + intros m Hm. rewrite Hget. destruct (String.eqb m n); [reflexivity | now apply Hall].
    + rewrite Hget. destruct (String.eqb_spec "_fields" n) as [E|_]; [|exact Hown].
      now destruct Hne.
  - intros m. unfold own_value. rewrite Hget. now destruct (String.eqb m n).
Qed.

(** X5. Let a class be decorated with [frozen=False], with declared fields
    of distinct names, none of them [_fields], [fields] or a name [object]
    and [type] answer to, none bound to a property in the class body, and
    with a class body that defines none of [__setattr__], [__new__],
    [__slots__], [__getattribute__], [__getattr__]. On an instance that has
    an attribute of its own for every declared field and none named
    [_fields], assigning a declared field succeeds, and [asdict] of the
    instance afterwards is what it was before with the new value at that
    field: the other fields and their order are untouched. *)
Theorem assignment_updates_one_field :
  forall (h h' : heap) cls c init repr eq (self : instance) n v,
    h !! cls = Some c ->
    fields_ok c = true ->
    dict_get "__setattr__" (cls_dict c) = None ->
    _make_datacls cls init repr eq false h = (Ok cls, h') ->
    inst_cls self = cls ->
    holds_fields c self = true ->
    existsb (String.eqb n) (dict_keys (cls_annotations c)) = true ->
    py_setattr h' self n v = Ok (with_attr self n v)
    /\ asdict h' (VInst (with_attr self n v))
       = Ok (map (fun m => (m, if String.eqb m n then v else own_value self m))
                 (dict_keys (cls_annotations c))).
Proof.
  intros h h' cls c init repr eq self n v Hc Hok Hno Hrun Hself Hh Hn.
  apply existsb_eqb_In in Hn.
  pose proof (run_decorated _ _ _ _ _ _ _ _ Hc Hok Hrun) as Hd.
  destruct (make_datacls_switches _ _ _ _ _ _ _ _ _ Hc Hrun) as (_ & _ & Hs).
  rewrite Hno in Hs. unfold class_attr in Hs.
  destruct (holds_fields_with_attr c self n v Hok Hn Hh) as [Hh' Hown]. split.
  - pose proof (object_setattr_field _ _ _ _ n v Hd Hok Hself Hn) as Hset.
    pose proof Hd as (c' & Hc' & _). rewrite Hc' in Hs.
    unfold py_setattr. rewrite Hself, Hc', Hs. exact Hset.
  - rewrite (asdict_decorated _ _ _ (with_attr self n v) Hd Hok Hself Hh').
    f_equal. apply map_ext. intros m. now rewrite Hown.
Qed.

Lemma assignment_updates_one_field_witness :
  let h' := snd (_make_datacls 0 true true true false (store_of Point)) in
  let self := {| inst_cls := 0; inst_dict := [("a", OInt 1); ("b", OInt 2)] |} in
  _make_datacls 0 true true true false (store_of Point) = (Ok 0%nat, h')
  /\ py_setattr h' self "b" (OInt 7)
     = Ok {| inst_cls := 0; inst_dict := [("a", OInt 1); ("b", OInt 7)] |}
  /\ asdict h' (VInst (with_attr self "b" (OInt 7)))
     = Ok [("a", OInt 1); ("b", OInt 7)].
Proof.
  cbv zeta.
  assert (Hrun : _make_datacls 0 true true true false (store_of Point)
                 = (Ok 0%nat, snd (_make_datacls 0 true true true false (store_of Point))))
    by (vm_compute; reflexivity).
  split; [exact Hrun |].
  exact (assignment_updates_one_field (store_of Point) _ 0%nat Point true true true
           {| inst_cls := 0; inst_dict := [("a", OInt 1); ("b", OInt 2)] |} "b" (OInt 7)
           eq_refl eq_refl eq_refl Hrun eq_refl eq_refl eq_refl).
Defined.

(** X6. On a decorated class [fields] is a read-only view of the registry:
    reading it on an instance gives the registry of the class, one entry
    per annotation in declaration order, even when the instance has an
    attribute [fields] of its own, and [object.__setattr__] cannot write
    it, whatever the switches. (The declared fields have distinct names,
    none of them [_fields], [fields] or a name [object] and [type] answer
    to, none bound to a property; the class body defines none of [__new__],
    [__slots__], [__getattribute__], [__getattr__]; the instance has no
    attribute [_fields] of its own.) *)
Theorem fields_is_read_only_registry :
  forall (h h' : heap) cls c init repr eq frozen (self : instance) v,
    h !! cls = Some c ->
    fields_ok c = true ->
    _make_datacls cls init repr eq frozen h = (Ok cls, h') ->
    inst_cls self = cls ->
    dict_get "_fields" (inst_dict self) = None ->
    py_getattr h' (VInst self) "fields" = Ok (ODict (registry c))
    /\ dict_keys (registry c) = dict_keys (cls_annotations c)
    /\ object_setattr h' self "fields" v = Raise AttributeError.
Proof.
  intros h h' cls c init repr eq frozen self v Hc Hok Hrun Hself Hown.
  pose proof (run_decorated _ _ _ _ _ _ _ _ Hc Hok Hrun) as Hd.
  split; [|split].
  - exact (proj2 (decorated_getattr_registry _ _ _ _ Hd (fields_ok_plain _ Hok) Hself Hown)).
  - apply registry_keys.
  - destruct Hd as (c' & Hc' & _ & Hp & _ & Hget).
    unfold object_setattr.
    now rewrite Hself, Hc', (view_plain _ _ Hget (fields_ok_plain _ Hok)), Hp.
Qed.

Lemma fields_is_read_only_registry_witness :
  let h' := snd (_make_datacls 0 true true true false (store_of Point)) in
  let self := {| inst_cls := 0; inst_dict := [("fields", OInt 0); ("b", OInt 2)] |} in
  _make_datacls 0 true true true false (store_of Point) = (Ok 0%nat, h')
  /\ py_getattr h' (VInst self) "fields"
     = Ok (ODict [("a", _FieldsDict int_ (OInt 1));
                  ("b", _FieldsDict int_ (OStr "_NotDefaultValue"))])
  /\ object_setattr h' self "fields" ONone = Raise AttributeError.
Proof.
  cbv zeta.
  assert (Hrun : _make_datacls 0 true true true false (store_of Point)
                 = (Ok 0%nat, snd (_make_datacls 0 true true true false (store_of Point))))
    by (vm_compute; reflexivity).
  split; [exact Hrun |].
  pose (H := fields_is_read_only_registry (store_of Point) _ 0%nat Point true true true false
               {| inst_cls := 0; inst_dict := [("fields", OInt 0); ("b", OInt 2)] |} ONone
               eq_refl eq_refl Hrun eq_refl eq_refl).
  split; [exact (proj1 H) | exact (proj2 (proj2 H))].
Defined.

(** ** Reading the annotations *)

Lemma readable_spec c :
  readable c = true ->
  List.NoDup (dict_keys (cls_annotations c))
  /\ forall n, In n (dict_keys (cls_annotations c)) -> builtin_attr n = false.
Proof.
  unfold readable. rewrite andb_true_iff, no_dup_names_iff, forallb_forall.
  intros [Hnd Hb]. split; [assumption |].
  intros n Hn. now apply negb_true_iff, Hb.
Qed.

Lemma fields_ok_readable c : fields_ok c = true -> readable c = true.
Proof.
  intros Hok. destruct (fields_ok_names _ Hok) as [Hnd Hf].
  unfold readable. rewrite andb_true_iff, no_dup_names_iff, forallb_forall.
  split; [assumption |]. intros n Hn. apply negb_true_iff. now apply Hf.
Qed.

(** X7. [_read_annotations] only reads: it leaves the class as it is and
    returns a registry with one entry per annotation, in the order of the
    annotations, each entry holding the annotation's type hint and, as its
    default, the value the class body gives the name, or the string
    ['_NotDefaultValue'] when the body gives it none. *)
Theorem read_annotations_only_reads :
  forall (h : heap) cls c,
    h !! cls = Some c ->
    readable c = true ->
    _read_annotations cls h = (Ok (ODict (registry c)), h)
    /\ dict_keys (registry c) = dict_keys (cls_annotations c)
    /\ forall n hint,
         dict_get n (cls_annotations c) = Some hint ->
         dict_get n (registry c)
         = Some (_FieldsDict hint (match dict_get n (cls_dict c) with
                                   | Some v => v
                                   | None => OStr "_NotDefaultValue"
                                   end)).
Proof.
  intros h cls c Hc Hr. destruct (readable_spec _ Hr) as [Hnd Hb].
  split; [|split].
  - rewrite <- (insert_id h cls c Hc) at 1 2.
    rewrite read_annotations_run. rewrite (read_fields_registry c Hnd Hb).
    now rewrite (insert_id h cls c Hc).
  - apply registry_keys.
  - intros n hint Hn. apply dict_get_In_pair in Hn. unfold registry.
    exact (dict_get_map_fst
             (fun item => _FieldsDict (snd item) (declared_default (cls_dict c) (fst item)))
             fst (cls_annotations c) (n, hint) Hnd Hn).
Qed.

Lemma read_annotations_only_reads_witness :
  readable Point = true
  /\ _read_annotations 0 (store_of Point)
     = (Ok (ODict [("a", _FieldsDict int_ (OInt 1));
                   ("b", _FieldsDict int_ (OStr "_NotDefaultValue"))]),
        store_of Point).
Proof.
  split; [reflexivity |].
  exact (proj1 (read_annotations_only_reads (store_of Point) 0%nat Point eq_refl eq_refl)).
Defined.

(** ** A run that fails *)

(** X8. A run is not undone when it fails. The registry and the [fields]
    property are bound before [__init__] is generated, so a run that raises
    was asked for [__init__], and leaves the class with [_fields] and
    [fields] bound and every other name, [__repr__], [__eq__] and
    [__setattr__] among them, as it was. *)
Theorem failed_run_leaves_the_registry :
  forall (h h' : heap) cls c init repr eq frozen e,
    h !! cls = Some c ->
    readable c = true ->
    _make_datacls cls init repr eq frozen h = (Raise e, h') ->
    e <> Unmodelled ->
    init = true
    /\ class_attr h' cls "_fields" = Some (ODict (registry c))
    /\ class_attr h' cls "fields" = Some (OProperty "_fields")
    /\ forall k, k <> "_fields" -> k <> "fields" -> class_attr h' cls k = class_attr h cls k.
Proof.
  intros h h' cls c init repr eq frozen e Hc Hr Hrun _.
  destruct (readable_spec _ Hr) as [Hnd Hb].
  rewrite (make_datacls_run _ _ _ _ _ _ _ Hc) in Hrun.
  unfold augment in Hrun. rewrite (read_fields_registry c Hnd Hb) in Hrun.
  destruct init.
  2:{ cbn [fst snd] in Hrun. discriminate. }
  destruct (make_init _ _) as [f|e']; cbn [rbind fst snd] in Hrun; [discriminate |].
  injection Hrun as _ <-. split; [reflexivity |].
  unfold class_attr. rewrite lookup_insert_eq, Hc, cls_dict_with_dict.
  split; [|split].
  - rewrite dict_get_set_ne by discriminate. apply dict_get_set_eq.
  - apply dict_get_set_eq.
  - intros k H1 H2. now rewrite !dict_get_set_ne.
Qed.

Lemma failed_run_leaves_the_registry_witness :
  let h' := snd (_make_datacls 0 true true true true (store_of Empty)) in
  readable Empty = true
  /\ _make_datacls 0 true true true true (store_of Empty) = (Raise SyntaxError, h')
  /\ class_attr h' 0 "_fields" = Some (ODict [])
  /\ class_attr h' 0 "__setattr__" = None.
Proof.
  cbv zeta.
  assert (Hrun : _make_datacls 0 true true true true (store_of Empty)
                 = (Raise SyntaxError, snd (_make_datacls 0 true true true true (store_of Empty))))
    by (vm_compute; reflexivity).
  split; [reflexivity |]. split; [exact Hrun |].
  pose (H := failed_run_leaves_the_registry (store_of Empty) _ 0%nat Empty
               true true true true SyntaxError eq_refl eq_refl Hrun ltac:(discriminate)).
  split; [exact (proj1 (proj2 H)) |].
  exact (proj2 (proj2 (proj2 H)) "__setattr__" ltac:(discriminate) ltac:(discriminate)).
Defined.

(** ** Running the decorator again *)

(** X9. The switches only ever bind. When a class is decorated and then
    decorated again, [__repr__], [__eq__] and [__setattr__] are the module's
    functions as soon as either run had the switch on: a second run with
    [frozen=False] leaves a frozen class frozen. *)
Theorem switches_accumulate :
  forall (h h1 h2 : heap) cls init1 repr1 eq1 frozen1 init2 repr2 eq2 frozen2,
    _make_datacls cls init1 repr1 eq1 frozen1 h = (Ok cls, h1) ->
    _make_datacls cls init2 repr2 eq2 frozen2 h1 = (Ok cls, h2) ->
    class_attr h2 cls "__repr__"
    = (if repr1 || repr2 then Some (OFunc F_repr) else class_attr h cls "__repr__")
    /\ class_attr h2 cls "__eq__"
       = (if eq1 || eq2 then Some (OFunc F_eq) else class_attr h cls "__eq__")
    /\ class_attr h2 cls "__setattr__"
       = (if frozen1 || frozen2 then Some (OFunc F_setattr)
          else class_attr h cls "__setattr__").
Proof.
  intros h h1 h2 cls init1 repr1 eq1 frozen1 init2 repr2 eq2 frozen2 Hrun1 Hrun2.
  destruct (make_datacls_success _ _ _ _ _ _ _ _ Hrun1) as (c & Hc & _ & _ & _).
  destruct (make_datacls_success _ _ _ _ _ _ _ _ Hrun2) as (c1 & Hc1 & _ & _ & _).
  destruct (make_datacls_switches _ _ _ _ _ _ _ _ _ Hc Hrun1) as (Hr1 & He1 & Hs1).
  destruct (make_datacls_switches _ _ _ _ _ _ _ _ _ Hc1 Hrun2) as (Hr2 & He2 & Hs2).
  unfold class_attr in *. rewrite Hc1 in Hr1, He1, Hs1. rewrite Hc.
  rewrite Hr2, He2, Hs2, Hr1, He1, Hs1.
  destruct repr1, repr2, eq1, eq2, frozen1, frozen2; repeat split; reflexivity.
Qed.

Lemma switches_accumulate_witness :
  let h1 := snd (_make_datacls 0 true true true true (store_of TestUser)) in
  let h2 := snd (_make_datacls 0 true false false false h1) in
  _make_datacls 0 true true true true (store_of TestUser) = (Ok 0%nat, h1)
  /\ _make_datacls 0 true false false false h1 = (Ok 0%nat, h2)
  /\ class_attr h2 0 "__setattr__" = Some (OFunc F_setattr).
Proof.
  cbv zeta.
  assert (Hrun1 : _make_datacls 0 true true true true (store_of TestUser)
                  = (Ok 0%nat, snd (_make_datacls 0 true true true true (store_of TestUser))))
    by (vm_compute; reflexivity).
  assert (Hrun2 : _make_datacls 0 true false false false
                    (snd (_make_datacls 0 true true true true (store_of TestUser)))
                  = (Ok 0%nat,
                     snd (_make_datacls 0 true false false false
                            (snd (_make_datacls 0 true true true true (store_of TestUser))))))
    by (vm_compute; reflexivity).
  split; [exact Hrun1 |]. split; [exact Hrun2 |].
  exact (proj2 (proj2 (switches_accumulate _ _ _ 0%nat true true true true
                         true false false false Hrun1 Hrun2))).
Defined.

(** ** The way around a frozen class *)

(** X10. Freezing only replaces [__setattr__]. Let a class be decorated
    with [frozen=True], with declared fields of distinct names, none of them
    [_fields], [fields] or a name [object] and [type] answer to, none bound
    to a property in the class body, and with a class body that defines none
    of [__new__], [__slots__], [__getattribute__], [__getattr__]. On an
    instance that has an attribute of its own for every declared field and
    none named [_fields], the statement [self.field = value] on a declared
    field raises [FrozenError], but
    [object.__setattr__(self, field, value)], which is how the generated
    [__init__] writes, still stores the value, and [asdict] then shows
    it. *)
Theorem frozen_is_bypassed_by_object_setattr :
  forall (h h' : heap) cls c init repr eq (self : instance) n v,
    h !! cls = Some c ->
    fields_ok c = true ->
    _make_datacls cls init repr eq true h = (Ok cls, h') ->
    inst_cls self = cls ->
    holds_fields c self = true ->
    existsb (String.eqb n) (dict_keys (cls_annotations c)) = true ->
    py_setattr h' self n v = Raise FrozenError
    /\ object_setattr h' self n v = Ok (with_attr self n v)
    /\ asdict h' (VInst (with_attr self n v))
       = Ok (map (fun m => (m, if String.eqb m n then v else own_value self m))
                 (dict_keys (cls_annotations c))).
Proof.
  intros h h' cls c init repr eq self n v Hc Hok Hrun Hself Hh Hn.
  apply existsb_eqb_In in Hn.
  pose proof (run_decorated _ _ _ _ _ _ _ _ Hc Hok Hrun) as Hd.
  destruct (holds_fields_with_attr c self n v Hok Hn Hh) as [Hh' Hown].
  split; [|split].
  - destruct (make_datacls_frozen _ _ _ _ _ _ _ Hrun) as (c' & Hc' & Hs).
    rewrite <- Hself in Hc'. exact (py_setattr_frozen _ _ _ _ _ Hc' Hs).
  - exact (object_setattr_field _ _ _ _ n v Hd Hok Hself Hn).
  - rewrite (asdict_decorated _ _ _ (with_attr self n v) Hd Hok Hself Hh').
    f_equal. apply map_ext. intros m. now rewrite Hown.
Qed.

Lemma frozen_is_bypassed_by_object_setattr_witness :
  let h' := snd (_make_datacls 0 true true true true (store_of Point)) in
  let self := {| inst_cls := 0; inst_dict := [("a", OInt 1); ("b", OInt 2)] |} in
  _make_datacls 0 true true true true (store_of Point) = (Ok 0%nat, h')
  /\ py_setattr h' self "a" (OInt 5) = Raise FrozenError
  /\ object_setattr h' self "a" (OInt 5)
     = Ok {| inst_cls := 0; inst_dict := [("a", OInt 5); ("b", OInt 2)] |}.
Proof.
  cbv zeta.
  assert (Hrun : _make_datacls 0 true true true true (store_of Point)
                 = (Ok 0%nat, snd (_make_datacls 0 true true true true (store_of Point))))
    by (vm_compute; reflexivity).
  split; [exact Hrun |].
  pose (H := frozen_is_bypassed_by_object_setattr (store_of Point) _ 0%nat Point true true true
               {| inst_cls := 0; inst_dict := [("a", OInt 1); ("b", OInt 2)] |} "a" (OInt 5)
               eq_refl eq_refl Hrun eq_refl eq_refl eq_refl).
  split; [exact (proj1 H) | exact (proj1 (proj2 H))].
Defined.

(** ** Decorating without an initializer *)

Lemma make_datacls_init_off (h : heap) cls c repr eq frozen :
  h !! cls = Some c ->
  readable c = true ->
  _make_datacls cls false repr eq frozen h
  = (Ok cls, <[cls := with_dict c (final_dict false repr eq frozen c)]> h).
Proof.
  intros Hc Hr. destruct (readable_spec _ Hr) as [Hnd Hb].
  rewrite (make_datacls_run _ _ _ _ _ _ _ Hc).
  unfold augment. rewrite (read_fields_registry c Hnd Hb). reflexivity.
Qed.

Lemma asdict_fold_raise (h : heap) x e names :
  (forall n, In n names ->
     (exists v, py_getattr h x n = Ok v) \/ py_getattr h x n = Raise e) ->
  (exists n, In n names /\ py_getattr h x n = Raise e) ->
  forall acc,
    rfold (fun (result : pydict) (field : string) =>
             (v <- py_getattr h x field ;; Ok (dict_set field v result))%res)
          names acc
    = Raise e.
Proof.
  induction names as [|n names IH]; intros Hall (m & Hm & Hraise) acc.
  - destruct Hm.
  - cbn [rfold]. destruct (Hall n (or_introl eq_refl)) as [[v Hv]|Hr].
    + rewrite Hv. cbn [rbind]. apply IH.
      * intros k Hk. apply Hall. now right.
      * destruct Hm as [->|Hm]; [congruence |]. eauto.
    + now rewrite Hr.
Qed.

(** X11. Let the declared fields of a class have distinct names, none of
    them [_fields], [fields] or a name [object] and [type] answer to, none
    bound to a property in the class body, and let the class body define
    none of [__new__], [__slots__], [__getattribute__], [__getattr__] and no
    [__init__], and give no declared field a function as its value. With
    [init=False] the decorator generates no code and succeeds, also when the
    class has no field. The class is then called without arguments and
    gives an instance with no attribute of its own; any positional or
    keyword argument is a [TypeError]; and [asdict] of the new instance
    reads the values of the class body: it raises [AttributeError] as soon
    as one declared field has none. *)
Theorem without_init_instances_start_empty :
  forall (user_call : string -> instance -> result instance)
         (h : heap) cls c repr eq frozen,
    h !! cls = Some c ->
    fields_ok c = true ->
    dict_get "__init__" (cls_dict c) = None ->
    no_method_default c = true ->
    let run := _make_datacls cls false repr eq frozen h in
    fst run = Ok cls
    /\ py_call_class user_call (snd run) cls [] [] = Ok (bare cls)
    /\ (forall a args kwargs,
          py_call_class user_call (snd run) cls (a :: args) kwargs = Raise TypeError)
    /\ (forall kw kwargs,
          py_call_class user_call (snd run) cls [] (kw :: kwargs) = Raise TypeError)
    /\ asdict (snd run) (VInst (bare cls))
       = (if all_defaulted c
          then Ok (map (fun n => (n, declared_default (cls_dict c) n))
                       (dict_keys (cls_annotations c)))
          else Raise AttributeError).
Proof.
  intros user_call h cls c repr eq frozen Hc Hok Hinit Hdata run.
  unfold no_method_default in Hdata. rewrite forallb_forall in Hdata.
  pose proof (make_datacls_init_off h cls c repr eq frozen Hc (fields_ok_readable _ Hok))
    as Hrun.
  subst run. rewrite Hrun. cbn [fst snd].
  set (h' := <[cls := with_dict c (final_dict false repr eq frozen c)]> h) in *.
  assert (Hc' : h' !! cls = Some (with_dict c (final_dict false repr eq frozen c)))
    by apply lookup_insert_eq.
  assert (Hi : dict_get "__init__" (final_dict false repr eq frozen c) = None).
  { unfold final_dict. rewrite !dict_get_set_if_ne by discriminate.
    cbn [set_if]. now rewrite !dict_get_set_ne by discriminate. }
  assert (Hpl : plain_body (final_dict false repr eq frozen c) = true).
  { rewrite final_dict_plain. now apply fields_ok_plain. }
  pose proof (run_decorated _ _ _ _ _ _ _ _ Hc Hok Hrun) as Hd.
  destruct (fields_ok_names _ Hok) as [Hnd Hf].
  split; [reflexivity |].
  split; [unfold py_call_class; now rewrite Hc', cls_dict_with_dict, Hpl, Hi |].
  split; [intros a args kwargs; unfold py_call_class;
          now rewrite Hc', cls_dict_with_dict, Hpl, Hi |].
  split; [intros kw kwargs; unfold py_call_class;
          now rewrite Hc', cls_dict_with_dict, Hpl, Hi |].
  assert (Hget : forall n, In n (dict_keys (cls_annotations c)) ->
            py_getattr h' (VInst (bare cls)) n
            = match dict_get n (cls_dict c) with
              | Some v => Ok v
              | None => Raise AttributeError
              end).
  { intros n Hn. cbn [py_getattr].
    rewrite (decorated_getattr_field _ _ _ (bare cls) _ Hd Hok eq_refl Hn).
    specialize (Hdata n Hn). cbn [bare inst_dict dict_get].
    now destruct (dict_get n (cls_dict c)) as [[]|]. }
  unfold asdict. cbn [py_getattr].
  rewrite (proj2 (decorated_getattr_registry _ _ _ (bare cls) Hd (fields_ok_plain _ Hok)
                    eq_refl eq_refl)).
  cbn [rbind py_iter]. rewrite registry_keys.
  change (fun (result : pydict) (field : string) =>
            rbind (getattr_inst recursion_limit h' (bare cls) field)
                  (fun value0 => Ok (dict_set field value0 result)))
    with (fun (result : pydict) (field : string) =>
            (v <- py_getattr h' (VInst (bare cls)) field ;; Ok (dict_set field v result))%res).
  unfold all_defaulted.
  destruct (forallb _ (dict_keys (cls_annotations c))) eqn:Hall.
  - rewrite forallb_forall in Hall.
    rewrite (asdict_fold_values h' (VInst (bare cls))
               (declared_default (cls_dict c)) _ [] Hnd); [reflexivity |].
    intros n Hn. split; [|tauto]. rewrite (Hget n Hn). unfold declared_default.
    specialize (Hall n Hn). now destruct (dict_get n (cls_dict c)).
  - apply asdict_fold_raise.
    + intros n Hn. rewrite (Hget n Hn).
      destruct (dict_get n (cls_dict c)) as [v|]; [left; eauto | now right].
    + apply not_true_iff_false in Hall.
      destruct (existsb (fun n => match dict_get n (cls_dict c) with
                                  | Some _ => false | None => true end)
                        (dict_keys (cls_annotations c))) eqn:Hex.
      * apply existsb_exists in Hex as (n & Hn & Hnone). exists n. split; [assumption |].
        rewrite (Hget n Hn). now destruct (dict_get n (cls_dict c)).
      * destruct Hall. apply forallb_forall. intros n Hn.
        destruct (dict_get n (cls_dict c)) eqn:E; [reflexivity |].
        assert (existsb (fun n => match dict_get n (cls_dict c) with
                                  | Some _ => false | None => true end)
                        (dict_keys (cls_annotations c)) = true); [|congruence].
        apply existsb_exists. exists n. split; [assumption |]. now rewrite E.
Qed.

Lemma without_init_instances_start_empty_witness :
  let run := _make_datacls 0 false true true false (store_of Point) in
  fields_ok Point = true
  /\ py_call_class no_hook (snd run) 0 [] [] = Ok (bare 0)
  /\ py_call_class no_hook (snd run) 0 [OInt 1] [] = Raise TypeError
  /\ asdict (snd run) (VInst (bare 0)) = Raise AttributeError.
Proof.
  cbv zeta. split; [reflexivity |].
  pose (H := without_init_instances_start_empty no_hook (store_of Point) 0%nat Point
               true true false eq_refl eq_refl eq_refl eq_refl).
  split; [exact (proj1 (proj2 H)) |].
  split; [exact (proj1 (proj2 (proj2 H)) (OInt 1) [] []) |].
  exact (proj2 (proj2 (proj2 (proj2 H)))).
Defined.

(** ** Calling a decorated class with positional and keyword arguments *)













(** ** Decorating several classes *)



(** ** From an instance to a dict and back *)






(** ** Defaults go through their text *)








(** ** Registries and objects the functions cannot read *)



(** X18. [asdict] needs the [fields] attribute. Take an instance [b] of a
    class that was never decorated: neither the class body nor the instance
    has an attribute [fields], and the class body defines none of [__new__],
    [__slots__], [__getattribute__], [__getattr__]. Then [asdict(b)] raises
    [AttributeError]. And when [a] is an instance of a class decorated with
    [eq=True] on which [asdict] works (declared fields with distinct names,
    none of them [_fields], [fields] or a name [object] and [type] answer
    to, none bound to a property, the class body defining none of the four
    names above; [a] has an attribute of its own for every declared field
    and none named [_fields]), [a == b] raises [AttributeError] too, where a
    [False] could be expected. *)
Theorem undecorated_instance_has_no_fields :
  forall (h h' : heap) cls c init repr frozen (a b : instance) c2,
    h !! cls = Some c ->
    fields_ok c = true ->
    _make_datacls cls init repr true frozen h = (Ok cls, h') ->
    inst_cls a = cls ->
    holds_fields c a = true ->
    h' !! inst_cls b = Some c2 ->
    plain_body (cls_dict c2) = true ->
    dict_get "fields" (cls_dict c2) = None ->
    dict_get "fields" (inst_dict b) = None ->
    asdict h' (VInst b) = Raise AttributeError
    /\ py_equals h' a (VInst b) = Raise AttributeError.
Proof.
  intros h h' cls c init repr frozen a b c2 Hc Hok Hrun Ha Hh Hc2 Hpl Hcls Hown.
  pose proof (run_decorated _ _ _ _ _ _ _ _ Hc Hok Hrun) as Hd.
  assert (Hb : asdict h' (VInst b) = Raise AttributeError).
  { unfold asdict. cbn [py_getattr].
    rewrite (getattr_inst_own _ h' b c2 "fields" Hc2 Hpl Hcls eq_refl). now rewrite Hown. }
  split; [exact Hb |].
  unfold py_equals. rewrite Ha, (make_datacls_eq _ _ _ _ _ _ _ Hrun).
  unfold _eq. rewrite (asdict_decorated _ _ _ _ Hd Hok Ha Hh). cbn [rbind].
  now rewrite Hb.
Qed.

Lemma undecorated_instance_has_no_fields_witness :
  let h := <[1%nat := Vec]> (store_of Point) in
  let h' := snd (_make_datacls 0 true true true false h) in
  _make_datacls 0 true true true false h = (Ok 0%nat, h')
  /\ asdict h' (VInst {| inst_cls := 1; inst_dict := [("b", OInt 2); ("a", OInt 1)] |})
     = Raise AttributeError
  /\ py_equals h' {| inst_cls := 0; inst_dict := [("a", OInt 1); ("b", OInt 2)] |}
       (VInst {| inst_cls := 1; inst_dict := [("b", OInt 2); ("a", OInt 1)] |})
     = Raise AttributeError.
Proof.
  cbv zeta.
  assert (Hrun : _make_datacls 0 true true true false (<[1%nat := Vec]> (store_of Point))
                 = (Ok 0%nat,
                    snd (_make_datacls 0 true true true false
                           (<[1%nat := Vec]> (store_of Point)))))
    by (vm_compute; reflexivity).
  split; [exact Hrun |].
  exact (undecorated_instance_has_no_fields (<[1%nat := Vec]> (store_of Point)) _ 0%nat
           Point true true false
           {| inst_cls := 0; inst_dict := [("a", OInt 1); ("b", OInt 2)] |}
           {| inst_cls := 1; inst_dict := [("b", OInt 2); ("a", OInt 1)] |} Vec
           eq_refl eq_refl Hrun eq_refl eq_refl eq_refl eq_refl eq_refl eq_refl).
Defined.
